(** * simple_bot.py: the quiz bot's stores, dialog handlers and quiz rounds

    A shallow embedding of [src/simple_bot.py].  Python values are modelled
    as follows.

    - [str] is a Rocq [string]; a character is a code point below 256.
    - [int] is [Z].
    - [None] versus a value is [option].
    - A JSON file on disk is absent, unreadable or holds a parsed value.
    - [context.user_data] is one record of optional slots per user. *)

From Stdlib Require Import ZArith Lia Bool List Ascii String.
From stdpp Require Import base option list strings pretty gmap fin_maps.

Local Open Scope string_scope.
Local Open Scope Z_scope.

(** ** Text: [str.strip], [str.split], [int] *)

Module Text.

(** [str.isspace] on one character.  These are the code points below 256
    that Python treats as white space. *)
Definition py_isspace (c : ascii) : bool :=
  let n := N_of_ascii c in
  ((9 <=? n) && (n <=? 13) || (28 <=? n) && (n <=? 32)
   || (n =? 133) || (n =? 160))%N.

Definition truthy (s : string) : bool :=
  match s with EmptyString => false | String _ _ => true end.

Fixpoint all_space (s : string) : bool :=
  match s with
  | EmptyString => true
  | String c r => py_isspace c && all_space r
  end.

Fixpoint lstrip (s : string) : string :=
  match s with
  | EmptyString => EmptyString
  | String c r => if py_isspace c then lstrip r else s
  end.

Fixpoint rstrip (s : string) : string :=
  match s with
  | EmptyString => EmptyString
  | String c r =>
      match rstrip r with
      | EmptyString => if py_isspace c then EmptyString else String c EmptyString
      | r' => String c r'
      end
  end.

(** [s.strip()] *)
Definition strip (s : string) : string := rstrip (lstrip s).

(** [s.split(sep)] for a one-character separator: the pieces between the
    separators, empty pieces kept, so the result is never empty. *)
Fixpoint py_split (sep : ascii) (s : string) : list string :=
  match s with
  | EmptyString => [EmptyString]
  | String c r =>
      if Ascii.eqb c sep then EmptyString :: py_split sep r
      else match py_split sep r with
           | [] => [String c EmptyString]
           | h :: t => String c h :: t
           end
  end.

(** [sep.join(parts)] *)
Fixpoint py_join (sep : ascii) (parts : list string) : string :=
  match parts with
  | [] => EmptyString
  | [p] => p
  | p :: rest => p +:+ String sep (py_join sep rest)
  end.

Definition LF : ascii := "010"%char.
Definition underscore : ascii := "_"%char.

(** [[opt.strip() for opt in text.split('\n') if opt.strip()]], the
    comprehension of [get_options] and [handle_edit_options]. *)
Definition option_lines (text : string) : list string :=
  map strip (List.filter (fun opt => truthy (strip opt)) (py_split LF text)).

(** The same list in the words of the specification: split into lines,
    trim every line, drop the blank ones. *)
Definition option_lines_spec (text : string) : list string :=
  List.filter truthy (map strip (py_split LF text)).

Definition starts_with_space (s : string) : bool :=
  match s with EmptyString => false | String c _ => py_isspace c end.

Fixpoint ends_with_space (s : string) : bool :=
  match s with
  | EmptyString => false
  | String c EmptyString => py_isspace c
  | String _ r => ends_with_space r
  end.

Definition trimmed (s : string) : bool :=
  negb (starts_with_space s) && negb (ends_with_space s).

(** *** [int(s)] for a decimal literal

    White space around the literal is ignored, one sign is allowed, and
    single underscores may separate digits.  [None] stands for
    [ValueError]. *)

(** The white space that [int] skips.  For a [str] it first turns the
    white space above U+007F into spaces and then skips ASCII white
    space, so the separators U+001C to U+001F, which [str.strip] removes,
    are not skipped: [int("\x1c1")] raises [ValueError]. *)
Definition int_isspace (c : ascii) : bool :=
  let n := N_of_ascii c in
  ((9 <=? n) && (n <=? 13) || (n =? 32) || (n =? 133) || (n =? 160))%N.

Fixpoint int_lstrip (s : string) : string :=
  match s with
  | EmptyString => EmptyString
  | String c r => if int_isspace c then int_lstrip r else s
  end.

Fixpoint int_rstrip (s : string) : string :=
  match s with
  | EmptyString => EmptyString
  | String c r =>
      match int_rstrip r with
      | EmptyString => if int_isspace c then EmptyString else String c EmptyString
      | r' => String c r'
      end
  end.

Definition int_strip (s : string) : string := int_rstrip (int_lstrip s).

Definition digit_of (c : ascii) : option Z :=
  let n := N_of_ascii c in
  if ((48 <=? n) && (n <=? 57))%N then Some (Z.of_N n - 48) else None.

(** [digits_from acc s] reads the rest of a literal after a digit. *)
Fixpoint digits_from (acc : Z) (s : string) : option Z :=
  match s with
  | EmptyString => Some acc
  | String c r =>
      match digit_of c with
      | Some d => digits_from (10 * acc + d) r
      | None =>
          if Ascii.eqb c underscore then
            match r with
            | String c' r' =>
                match digit_of c' with
                | Some d => digits_from (10 * acc + d) r'
                | None => None
                end
            | EmptyString => None
            end
          else None
      end
  end.

Definition unsigned_literal (s : string) : option Z :=
  match s with
  | String c r =>
      match digit_of c with
      | Some d => digits_from d r
      | None => None
      end
  | EmptyString => None
  end.

Definition py_int (s : string) : option Z :=
  match int_strip s with
  | String "-" r => Z.opp <$> unsigned_literal r
  | String "+" r => unsigned_literal r
  | t => unsigned_literal t
  end.

(** [s.lower()] on code points below 256. *)
Definition lower_char (c : ascii) : ascii :=
  let n := N_of_ascii c in
  if ((65 <=? n) && (n <=? 90)
      || (192 <=? n) && (n <=? 222) && negb (n =? 215))%N
  then ascii_of_N (n + 32) else c.

Fixpoint py_lower (s : string) : string :=
  match s with
  | EmptyString => EmptyString
  | String c r => String (lower_char c) (py_lower r)
  end.

(** [sub in s] *)
Fixpoint py_in (sub s : string) : bool :=
  String.prefix sub s
  || match s with
     | EmptyString => false
     | String _ r => py_in sub r
     end.

End Text.

(** ** Exceptions *)

Module Py.

(** The exceptions in play; all derive from [Exception], which is what
    the handlers of the code catch. *)
Inductive exn : Type :=
| ValueError
| IndexError
| TypeError
| ImportError
| OtherError.

(** What a call into a library gives back. *)
Inductive result (A : Type) : Type :=
| Return (a : A)
| Raise (e : exn).

Arguments Return {A} a.
Arguments Raise {A} e.

(** [xs[i]] on a list, with Python's negative indices. *)
Definition subscript {A} (xs : list A) (i : Z) : result A :=
  let n := Z.of_nat (length xs) in
  let j := if i <? 0 then i + n else i in
  if (0 <=? j) && (j <? n) then
    match xs !! Z.to_nat j with
    | Some x => Return x
    | None => Raise IndexError
    end
  else Raise IndexError.

(** [int(s)]: the integer, or [ValueError]. *)
Definition int_of (s : string) : result Z :=
  match Text.py_int s with Some z => Return z | None => Raise ValueError end.

End Py.

(** ** The two JSON files and the operations on them *)

Module Store.

(** One element of [data/questions.json].  The code reads ["id"] and
    ["category"] with [dict.get], so they may be missing; ["question"] and
    ["options"] are written from session slots that may hold [None]. *)
Record QuizQuestion := {
  q_id : option Z;
  q_question : option string;
  q_options : option (list string);
  q_answer : Z;
  q_category : option string
}.

(** One value of [data/users.json]. *)
Record UserStats := {
  name : string;
  correct : Z;
  total : Z
}.

(** What [os.path.exists], [open] and [json.load] can find. *)
Inductive file (A : Type) : Type :=
| Missing
| Unreadable
| Holds (content : A).

Arguments Missing {A}.
Arguments Unreadable {A}.
Arguments Holds {A} content.

(** The [data] directory.  [writable] says whether opening a file for
    writing succeeds; a failed write leaves the file as it was. *)
Record disk := {
  QUESTIONS_FILE : file (list QuizQuestion);
  USERS_FILE : file (gmap string UserStats);
  writable : bool
}.

Definition set_questions (v : file (list QuizQuestion)) (d : disk) : disk :=
  {| QUESTIONS_FILE := v; USERS_FILE := USERS_FILE d; writable := writable d |}.

Definition set_users (v : file (gmap string UserStats)) (d : disk) : disk :=
  {| QUESTIONS_FILE := QUESTIONS_FILE d; USERS_FILE := v; writable := writable d |}.

(** Store operations read and write the disk and never raise. *)
Definition IO (A : Type) : Type := disk -> A * disk.

Definition io_ret {A} (a : A) : IO A := fun d => (a, d).

Definition io_bind {A B} (m : IO A) (k : A -> IO B) : IO B :=
  fun d => let (a, d') := m d in k a d'.

Declare Scope io_scope.
Delimit Scope io_scope with io.
Notation "'do' x <- m ; k" := (io_bind m (fun x => k))
  (at level 10, x name, m at level 100, k at level 200) : io_scope.
Notation "'run' m ; k" := (io_bind m (fun _ => k))
  (at level 10, m at level 100, k at level 200) : io_scope.

Local Open Scope io_scope.

Definition sample_questions : list QuizQuestion :=
  [ {| q_id := Some 1;
       q_question := Some "What is the capital of France?";
       q_options := Some ["Berlin"; "Madrid"; "Paris"; "Rome"];
       q_answer := 2;
       q_category := Some "Geography" |};
    {| q_id := Some 2;
       q_question := Some "Which planet is known as the Red Planet?";
       q_options := Some ["Venus"; "Mars"; "Jupiter"; "Saturn"];
       q_answer := 1;
       q_category := Some "Science" |} ].

Definition save_questions (questions : list QuizQuestion) : IO bool :=
  fun d =>
    if writable d then (true, set_questions (Holds questions) d)
    else (false, d).

Definition load_questions : IO (list QuizQuestion) :=
  fun d =>
    match QUESTIONS_FILE d with
    | Holds questions => (questions, d)
    | Missing => (run save_questions sample_questions; io_ret sample_questions) d
    | Unreadable => ([], d)
    end.

(** [q.get("id", 0)] *)
Definition id_or_0 (q : QuizQuestion) : Z := default 0 (q_id q).

(** [max(xs)] on a list that is not empty. *)
Definition py_max (xs : list Z) : Z :=
  match xs with
  | [] => 0
  | x :: rest => fold_left Z.max rest x
  end.

Definition get_next_question_id : IO Z :=
  do questions <- load_questions;
  match questions with
  | [] => io_ret 1
  | _ => io_ret (py_max (map id_or_0 questions) + 1)
  end.

(** [q.get("id") == question_id] *)
Definition has_id (question_id : Z) (q : QuizQuestion) : bool :=
  bool_decide (q_id q = Some question_id).

Definition get_question_by_id (question_id : Z) : IO (option QuizQuestion) :=
  do questions <- load_questions;
  io_ret (List.find (has_id question_id) questions).

Definition delete_question_by_id (question_id : Z) : IO bool :=
  do questions <- load_questions;
  let updated_questions :=
    List.filter (fun q => negb (has_id question_id q)) questions in
  if (length updated_questions <? length questions)%nat then
    run save_questions updated_questions; io_ret true
  else io_ret false.

Definition save_user_data (user_data : gmap string UserStats) : IO bool :=
  fun d =>
    if writable d then (true, set_users (Holds user_data) d)
    else (false, d).

Definition load_users : IO (gmap string UserStats) :=
  fun d =>
    match USERS_FILE d with
    | Holds users => (users, d)
    | Missing => (∅, d)
    | Unreadable => (∅, d)
    end.

Definition bump_total (row : UserStats) : UserStats :=
  {| name := name row; correct := correct row; total := total row + 1 |}.

Definition bump_correct (row : UserStats) : UserStats :=
  {| name := name row; correct := correct row + 1; total := total row |}.

(** [str(user_id)] is the key of the row. *)
Definition update_user_stats (user_id : Z) (user_name : string)
    (is_correct : bool) : IO bool :=
  do user_data <- load_users;
  let key : string := pretty user_id in
  let user_data :=
    match user_data !! key with
    | None => <[key := {| name := user_name; correct := 0; total := 0 |}]> user_data
    | Some _ => user_data
    end in
  let user_data := alter bump_total key user_data in
  let user_data :=
    if is_correct then alter bump_correct key user_data else user_data in
  save_user_data user_data.

(** The id [get_next_question_id] computes from a list of records. *)
Definition next_id_of (questions : list QuizQuestion) : Z :=
  match questions with
  | [] => 1
  | _ => py_max (map id_or_0 questions) + 1
  end.

(** The row of [str(user_id)] after the two increments. *)
Definition counted (user_name : string) (is_correct : bool)
    (old : option UserStats) : UserStats :=
  {| name := default user_name (name <$> old);
     correct := default 0 (correct <$> old) + (if is_correct then 1 else 0);
     total := default 0 (total <$> old) + 1 |}.

(** The collection and the rows as the next read sees them. *)
Definition stored_questions (d : disk) : list QuizQuestion :=
  fst (load_questions d).

Definition stored_users (d : disk) : gmap string UserStats :=
  fst (load_users d).

(** [len(options) >= 2] and [0 <= answer < len(options)]. *)
Definition valid_question (q : QuizQuestion) : bool :=
  match q_options q with
  | Some options =>
      (2 <=? length options)%nat
      && (0 <=? q_answer q) && (q_answer q <? Z.of_nat (length options))
  | None => false
  end.

Definition store_valid (d : disk) : Prop :=
  forallb valid_question (stored_questions d) = true.

End Store.

(** ** The import adapter, [parse_telegram_quiz_url] *)

Module Adapter.
Import Text Py.

(** The dictionary [{"question": .., "options": .., "answer": ..}]. *)
Record Draft := {
  d_question : string;
  d_options : list string;
  d_answer : Z
}.

(** A message as Pyrogram returns it. *)
Record Message := {
  poll : option (string * list string);
  text : option string
}.

(** What one BeautifulSoup document answers to the selectors in use. *)
Record Soup := {
  message_text : option string;      (* select_one('.tgme_widget_message_text').get_text() *)
  og_title : option string;          (* content of meta[property="og:title"] *)
  og_description : option string;    (* content of meta[property="og:description"] *)
  paragraphs : list string           (* get_text() of '.tgme_widget_message_text p' *)
}.

(** Everything outside the function: the environment, the network, the
    regular expression engine and the HTML parser.  A call that can fail
    gives a [result]. *)
Record World := {
  getenv : string -> option string;
  import_pyrogram : result unit;
  client_enter : result unit;
  get_messages : string -> Z -> result (option Message);
  client_exit : result unit;
  requests_get : string -> result string;
  import_bs4 : result unit;
  BeautifulSoup : string -> result Soup;
  re_search_channel : string -> option (string * string);
  re_search_poll_question : string -> option string;
  re_findall_poll_options : string -> list string;
  re_sub_letter_marker : string -> string;
  re_sub_number_marker : string -> string;
  re_sub_any_marker : string -> string
}.

(** Where control is after a block of statements. *)
Inductive flow (R : Type) : Type :=
| Next
| Returns (r : R)
| Raises (e : exn).

Arguments Next {R}.
Arguments Returns {R} r.
Arguments Raises {R} e.

Definition and_then {R} (a b : flow R) : flow R :=
  match a with Next => b | _ => a end.

Definition call {A R} (c : result A) (k : A -> flow R) : flow R :=
  match c with Return a => k a | Raise e => Raises e end.

(** [try: body except Exception as e: handler] *)
Definition try_except {R} (body handler : flow R) : flow R :=
  match body with Raises _ => handler | _ => body end.

Declare Scope flow_scope.
Delimit Scope flow_scope with flow.
Notation "'do' x <- c ; k" := (call c (fun x => k))
  (at level 10, x name, c at level 100, k at level 200) : flow_scope.
Notation "'run' a ; b" := (and_then a b)
  (at level 10, a at level 100, b at level 200) : flow_scope.

Local Open Scope flow_scope.

Definition nonempty (o : option string) : bool :=
  match o with Some s => truthy s | None => false end.

Definition draft (q : string) (opts : list string) : Draft :=
  {| d_question := q; d_options := opts; d_answer := 0 |}.

Section parse.
Context (w : World).

(** The loop over [lines[1:]] inside [get_quiz_message]. *)
Definition pyrogram_options (lines : list string) : list string :=
  List.filter truthy
    (map (fun line => re_sub_number_marker w (re_sub_letter_marker w (strip line)))
         lines).

(** The statements under [if message:]. *)
Definition quiz_of_message (message : Message) : flow (option Draft) :=
  match poll message with
  | Some (question, options) => Returns (Some (draft question options))
  | None =>
      if nonempty (text message) then
        let lines := py_split LF (strip (default "" (text message))) in
        if (3 <=? length lines)%nat then
          let question := default "" (head lines) in
          let options := pyrogram_options (tail lines) in
          if (2 <=? length options)%nat then
            Returns (Some (draft question options))
          else Next
        else Next
      else Next
  end.

(** [loop.run_until_complete(get_quiz_message())]: the value returned,
    or the exception that leaves the coroutine. *)
Definition get_quiz_message (channel_name : string) (message_id : Z)
    : result (option Draft) :=
  match client_enter w with
  | Raise e => Raise e
  | Return _ =>
      let inside :=
        try_except
          (do message <- get_messages w channel_name message_id;
           match message with
           | Some m => quiz_of_message m
           | None => Next
           end)
          (Returns None) in
      match client_exit w, inside with
      | Raise e, _ => Raise e
      | Return _, Returns r => Return r
      | Return _, Raises e => Raise e
      | Return _, Next => Return None
      end
  end.

(** Method 1, the body of the first inner [try]. *)
Definition method_pyrogram (url : string) : flow (option Draft) :=
  do _ <- import_pyrogram w;
  match re_search_channel w url with
  | Some (channel_name, digits) =>
      do message_id <- int_of digits;
      do result <- get_quiz_message channel_name message_id;
      match result with
      | Some d => Returns (Some d)
      | None => Next
      end
  | None => Next
  end.

(** The loop over [lines[1:]] in the embedded view. *)
Definition embed_options (lines : list string) : list string :=
  List.filter truthy (map (re_sub_any_marker w) lines).

(** The body of the [try] around the embedded view. *)
Definition embedded_view (channel_name message_id : string)
    : flow (option Draft) :=
  let embed_url := "https://t.me/" +:+ channel_name +:+ "/" +:+ message_id
                   +:+ "?embed=1" in
  do embed_content <- requests_get w embed_url;
  do _ <- import_bs4 w;
  do soup <- BeautifulSoup w embed_content;
  run (match message_text soup with
       | Some t =>
           let lines := option_lines (strip t) in
           if (3 <=? length lines)%nat then
             let question := default "" (head lines) in
             let options := embed_options (tail lines) in
             if (2 <=? length options)%nat then
               Returns (Some (draft question options))
             else Next
           else Next
       | None => Next
       end);
  match og_title soup with
  | Some content =>
      if py_in "quiz" (py_lower content) then
        let title := strip content in
        let lines := map strip (paragraphs soup) in
        if (2 <=? length lines)%nat then Returns (Some (draft title lines))
        else Next
      else Next
  | None => Next
  end.

(** Method 3, the body of the [try] around the meta tags. *)
Definition method_meta (content : string) : flow (option Draft) :=
  do _ <- import_bs4 w;
  do soup <- BeautifulSoup w content;
  let title := strip <$> og_title soup in
  let description := strip <$> og_description soup in
  if nonempty title && nonempty description then
    if py_in "quiz" (py_lower (default "" title)) then
      let options :=
        map strip (List.filter (fun opt => truthy (strip opt))
                     (py_split ","%char (default "" description))) in
      if (2 <=? length options)%nat then
        Returns (Some (draft (default "" title) options))
      else Next
    else Next
  else Next.

(** Method 2 with method 3 inside, the body of the second [try]. *)
Definition method_scrape (url : string) : flow (option Draft) :=
  do content <- requests_get w url;
  let poll_options := re_findall_poll_options w content in
  run (match re_search_poll_question w content with
       | Some question =>
           if (2 <=? length poll_options)%nat then
             Returns (Some (draft (strip question) poll_options))
           else Next
       | None => Next
       end);
  run (if py_in "rajsthangk" url || py_in "gk" (py_lower url)
          || py_in "quiz" (py_lower url) then
         match re_search_channel w url with
         | Some (channel_name, message_id) =>
             try_except (embedded_view channel_name message_id) Next
         | None => Next
         end
       else Next);
  try_except (method_meta content) Next.

(** The body of the outermost [try]. *)
Definition parse_body (url : string) : flow (option Draft) :=
  if negb (truthy url) || negb (py_in "t.me" url) then Returns None
  else
    run (if nonempty (getenv w "API_ID") && nonempty (getenv w "API_HASH")
            && nonempty (getenv w "TELEGRAM_BOT_TOKEN") then
           try_except (method_pyrogram url) Next
         else Next);
    run try_except (method_scrape url) Next;
    Returns None.

(** The function as its caller sees it: a value or an exception. *)
Definition parse_telegram_quiz_url (url : string) : result (option Draft) :=
  match try_except (parse_body url) (Returns None) with
  | Returns r => Return r
  | Raises e => Raise e
  | Next => Return None
  end.

End parse.

(** A block that returns a draft returns one whose answer is 0. *)
Definition answer_defaulted (f : flow (option Draft)) : Prop :=
  forall d, f = Returns (Some d) -> d_answer d = 0.

End Adapter.

(** ** Handlers: the dialog flows and the quiz round *)

Module Dialog.
Import Text Py Store.

(** Conversation states, with the values the module-level names have once
    the whole file is loaded (the second assignment to the three [EDIT_]
    names is the one handlers see). *)
Definition QUESTION : Z := 0.
Definition OPTIONS : Z := 1.
Definition ANSWER : Z := 2.
Definition EDIT_SELECT : Z := 3.
Definition EDIT_QUESTION : Z := 5.
Definition EDIT_OPTIONS : Z := 6.
Definition EDIT_ANSWER : Z := 7.
Definition CLONE_URL : Z := 7.
Definition CLONE_MANUAL : Z := 8.
Definition END : Z := -1.

(** [user_data["poll_to_quiz"]] *)
Record PollDraft := {
  poll_question : string;
  poll_options : list string
}.

(** [user_data["editing"]] *)
Record Editing := {
  question_id : Z;
  action : string
}.

(** [context.user_data], the dictionary the framework keeps for one user.
    A slot that is missing and a slot that holds [None] read the same
    through [dict.get]; both are [None] here. *)
Record UserData := {
  quiz_question : option string;
  quiz_options : option (list string);
  quiz_correct_answer : option Z;
  quiz_question_id : option Z;
  quiz_message_id : option Z;
  clone_url : option string;
  poll_to_quiz : option PollDraft;
  editing : option Editing
}.

(** [{}], also what [user_data.clear()] leaves. *)
Definition no_data : UserData :=
  {| quiz_question := None; quiz_options := None;
     quiz_correct_answer := None; quiz_question_id := None;
     quiz_message_id := None; clone_url := None;
     poll_to_quiz := None; editing := None |}.

Definition set_quiz_question (v : option string) (u : UserData) : UserData :=
  {| quiz_question := v; quiz_options := quiz_options u;
     quiz_correct_answer := quiz_correct_answer u;
     quiz_question_id := quiz_question_id u;
     quiz_message_id := quiz_message_id u; clone_url := clone_url u;
     poll_to_quiz := poll_to_quiz u; editing := editing u |}.

Definition set_quiz_options (v : option (list string)) (u : UserData) : UserData :=
  {| quiz_question := quiz_question u; quiz_options := v;
     quiz_correct_answer := quiz_correct_answer u;
     quiz_question_id := quiz_question_id u;
     quiz_message_id := quiz_message_id u; clone_url := clone_url u;
     poll_to_quiz := poll_to_quiz u; editing := editing u |}.

(** The two slots [play] writes before it sends the poll. *)
Definition set_round (correct_answer qid : option Z) (u : UserData)
    : UserData :=
  {| quiz_question := quiz_question u; quiz_options := quiz_options u;
     quiz_correct_answer := correct_answer;
     quiz_question_id := qid;
     quiz_message_id := quiz_message_id u; clone_url := clone_url u;
     poll_to_quiz := poll_to_quiz u; editing := editing u |}.

Definition set_quiz_message_id (v : option Z) (u : UserData) : UserData :=
  {| quiz_question := quiz_question u; quiz_options := quiz_options u;
     quiz_correct_answer := quiz_correct_answer u;
     quiz_question_id := quiz_question_id u;
     quiz_message_id := v; clone_url := clone_url u;
     poll_to_quiz := poll_to_quiz u; editing := editing u |}.

Definition set_clone_url (v : option string) (u : UserData) : UserData :=
  {| quiz_question := quiz_question u; quiz_options := quiz_options u;
     quiz_correct_answer := quiz_correct_answer u;
     quiz_question_id := quiz_question_id u;
     quiz_message_id := quiz_message_id u; clone_url := v;
     poll_to_quiz := poll_to_quiz u; editing := editing u |}.

Definition set_poll_to_quiz (v : option PollDraft) (u : UserData) : UserData :=
  {| quiz_question := quiz_question u; quiz_options := quiz_options u;
     quiz_correct_answer := quiz_correct_answer u;
     quiz_question_id := quiz_question_id u;
     quiz_message_id := quiz_message_id u; clone_url := clone_url u;
     poll_to_quiz := v; editing := editing u |}.

Definition set_editing (v : option Editing) (u : UserData) : UserData :=
  {| quiz_question := quiz_question u; quiz_options := quiz_options u;
     quiz_correct_answer := quiz_correct_answer u;
     quiz_question_id := quiz_question_id u;
     quiz_message_id := quiz_message_id u; clone_url := clone_url u;
     poll_to_quiz := poll_to_quiz u; editing := v |}.

(** The two calls to the transport that a quiz round depends on.  The
    feedback text says Correct or Wrong; other replies are not recorded. *)
Inductive outbound : Type :=
| send_poll (chat_id : Z) (options : option (list string)) (correct_option_id : Z)
| send_message (chat_id : Z) (is_correct : bool).

(** What a handler works on: the user's dictionary, the files, and the
    log of calls to the transport. *)
Record Session := {
  user_data : UserData;
  files : disk;
  sent : list outbound
}.

(** A handler changes the session and returns or raises; what it changed
    before raising stays changed. *)
Definition Handler (A : Type) : Type := Session -> result A * Session.

Definition ret {A} (a : A) : Handler A := fun s => (Return a, s).

Definition bind {A B} (m : Handler A) (k : A -> Handler B) : Handler B :=
  fun s =>
    match m s with
    | (Return a, s') => k a s'
    | (Raise e, s') => (Raise e, s')
    end.

Definition lift {A} (r : result A) : Handler A := fun s => (r, s).

Definition io {A} (m : IO A) : Handler A :=
  fun s =>
    let (a, d) := m (files s) in
    (Return a, {| user_data := user_data s; files := d; sent := sent s |}).

Definition slot {A} (f : UserData -> A) : Handler A :=
  fun s => (Return (f (user_data s)), s).

Definition update (f : UserData -> UserData) : Handler unit :=
  fun s => (Return tt,
            {| user_data := f (user_data s); files := files s; sent := sent s |}).

Definition transport (o : outbound) : Handler unit :=
  fun s => (Return tt,
            {| user_data := user_data s; files := files s;
               sent := sent s ++ [o] |}).

Declare Scope handler_scope.
Delimit Scope handler_scope with handler.
Notation "'do' x <- m ; k" := (bind m (fun x => k))
  (at level 10, x name, m at level 100, k at level 200) : handler_scope.
Notation "'run' m ; k" := (bind m (fun _ => k))
  (at level 10, m at level 100, k at level 200) : handler_scope.

Local Open Scope handler_scope.

(** [options[i]] when [options] may be [None]. *)
Definition subscript_opt {A} (xs : option (list A)) (i : Z) : result A :=
  match xs with
  | Some l => subscript l i
  | None => Raise TypeError
  end.

(** [for .. in enumerate(options)] or ["\n".join(options)]: only [None]
    makes it raise. *)
Definition iterate {A} (xs : option (list A)) : result unit :=
  match xs with
  | Some _ => Return tt
  | None => Raise TypeError
  end.

(** The loop [for q in questions: if q.get("id") == question_id: ..; break]:
    the first record with the id is changed. *)
Fixpoint update_first (question_id : Z) (f : QuizQuestion -> QuizQuestion)
    (questions : list QuizQuestion) : list QuizQuestion :=
  match questions with
  | [] => []
  | q :: rest =>
      if has_id question_id q then f q :: rest
      else q :: update_first question_id f rest
  end.

(** [int(query.data.split('_')[1])] *)
Definition callback_index (data : string) : result Z :=
  match subscript (py_split underscore data) 1 with
  | Return part => int_of part
  | Raise e => Raise e
  end.

(** The payload [editanswer_<question id>_<index>] of [handle_edit_answer]:
    [None] when there are fewer than three parts or a part is no integer,
    the two cases in which the handler ends without a change. *)
Definition editanswer_payload (data : string) : option (Z * Z) :=
  match py_split underscore data with
  | _ :: id_part :: answer_part :: _ =>
      match py_int id_part, py_int answer_part with
      | Some question_id, Some new_answer => Some (question_id, new_answer)
      | _, _ => None
      end
  | _ => None
  end.

(** *** Create flow *)

Definition get_question (message_text : string) : Handler (option Z) :=
  run update (set_quiz_question (Some message_text));
  ret (Some OPTIONS).

Definition get_options (message_text : string) : Handler (option Z) :=
  let options := option_lines message_text in
  if (length options <? 2)%nat then ret (Some OPTIONS)
  else
    run update (set_quiz_options (Some options));
    ret (Some ANSWER).

Definition get_answer (data : string) : Handler (option Z) :=
  do answer_idx <- lift (callback_index data);
  do question <- slot quiz_question;
  do options <- slot quiz_options;
  do question_id <- io get_next_question_id;
  let new_question :=
    {| q_id := Some question_id;
       q_question := question;
       q_options := options;
       q_answer := answer_idx;
       q_category := Some "User Created" |} in
  do questions <- io load_questions;
  run io (save_questions (questions ++ [new_question]));
  (* the reply shows options[answer_idx] *)
  run lift (subscript_opt options answer_idx);
  run update (fun _ => no_data);
  ret (Some END).

Definition cancel : Handler (option Z) :=
  run update (fun _ => no_data);
  ret (Some END).

(** *** Clone flow *)

Definition handle_quiz_url (web : Adapter.World) (message_text : string)
    (url : option string) : Handler (option Z) :=
  let url := match url with
             | Some u => if truthy u then u else message_text
             | None => message_text
             end in
  do quiz_data <- lift (Adapter.parse_telegram_quiz_url web url);
  match quiz_data with
  | None =>
      run update (set_clone_url (Some url));
      ret (Some QUESTION)
  | Some d =>
      run update (set_quiz_question (Some (Adapter.d_question d)));
      run update (set_quiz_options (Some (Adapter.d_options d)));
      ret (Some ANSWER)
  end.

(** *** Poll conversion *)

(** [forwarded_poll] is the poll of a forwarded message, when the message
    is forwarded and has one. *)
Definition handle_message (forwarded_poll : option PollDraft)
    : Handler (option Z) :=
  match forwarded_poll with
  | Some p =>
      run update (set_poll_to_quiz (Some p));
      ret None
  | None => ret None
  end.

Definition handle_poll_to_quiz (data : string) : Handler (option Z) :=
  if negb (String.prefix "polltoquiz_" data) then ret None
  else
    do option_id <- lift (callback_index data);
    do poll_data <- slot poll_to_quiz;
    match poll_data with
    | None => ret None
    | Some p =>
        do question_id <- io get_next_question_id;
        let new_question :=
          {| q_id := Some question_id;
             q_question := Some (poll_question p);
             q_options := Some (poll_options p);
             q_answer := option_id;
             q_category := Some "Converted Poll" |} in
        do questions <- io load_questions;
        run io (save_questions (questions ++ [new_question]));
        run update (set_poll_to_quiz None);
        ret None
    end.

(** *** Edit flow *)

Definition handle_edit_selection (chat_id : Z) (data : string)
    : Handler (option Z) :=
  match py_split underscore data with
  | _ :: action :: id_part :: _ =>
      match py_int id_part with
      | None => ret None
      | Some question_id =>
          do question <- io (get_question_by_id question_id);
          match question with
          | None => ret None
          | Some question =>
              if String.eqb action "question" then
                run update (set_editing
                  (Some {| question_id := question_id; action := "question" |}));
                ret (Some EDIT_QUESTION)
              else if String.eqb action "options" then
                run update (set_editing
                  (Some {| question_id := question_id; action := "options" |}));
                run lift (iterate (q_options question));
                ret (Some EDIT_OPTIONS)
              else if String.eqb action "answer" then
                run update (set_editing
                  (Some {| question_id := question_id; action := "answer" |}));
                run lift (iterate (q_options question));
                ret (Some EDIT_ANSWER)
              else if String.eqb action "test" then
                run transport (send_poll chat_id (q_options question)
                                 (q_answer question));
                ret None
              else ret None
          end
      end
  | _ => ret None
  end.

Definition set_text (new_text : string) (q : QuizQuestion) : QuizQuestion :=
  {| q_id := q_id q; q_question := Some new_text; q_options := q_options q;
     q_answer := q_answer q; q_category := q_category q |}.

Definition handle_edit_text (new_text : string) : Handler (option Z) :=
  do editing_data <- slot editing;
  match editing_data with
  | None => ret (Some END)
  | Some e =>
      let question_id := question_id e in
      do question <- io (get_question_by_id question_id);
      match question with
      | None => ret (Some END)
      | Some _ =>
          do questions <- io load_questions;
          run io (save_questions
                    (update_first question_id (set_text new_text) questions));
          run update (set_editing None);
          ret (Some END)
      end
  end.

(** The two assignments inside the loop of [handle_edit_options]. *)
Definition set_options (old_answer : Z) (new_options : list string)
    (q : QuizQuestion) : QuizQuestion :=
  {| q_id := q_id q; q_question := q_question q;
     q_options := Some new_options;
     q_answer := if old_answer >=? Z.of_nat (length new_options) then 0
                 else q_answer q;
     q_category := q_category q |}.

Definition handle_edit_options (message_text : string) : Handler (option Z) :=
  let new_options := option_lines message_text in
  if (length new_options <? 2)%nat then ret (Some EDIT_OPTIONS)
  else
    do editing_data <- slot editing;
    match editing_data with
    | None => ret (Some END)
    | Some e =>
        let question_id := question_id e in
        do question <- io (get_question_by_id question_id);
        match question with
        | None => ret (Some END)
        | Some question =>
            let old_answer := q_answer question in
            do questions <- io load_questions;
            run io (save_questions
                      (update_first question_id
                         (set_options old_answer new_options) questions));
            run update (set_editing None);
            do updated_question <- io (get_question_by_id question_id);
            run lift (iterate (updated_question ≫= q_options));
            ret (Some END)
        end
    end.

Definition set_answer (new_answer : Z) (q : QuizQuestion) : QuizQuestion :=
  {| q_id := q_id q; q_question := q_question q; q_options := q_options q;
     q_answer := new_answer; q_category := q_category q |}.

Definition handle_edit_answer (data : string) : Handler (option Z) :=
  match editanswer_payload data with
  | None => ret (Some END)
  | Some (question_id, new_answer) =>
      do questions <- io load_questions;
      run io (save_questions
                (update_first question_id (set_answer new_answer) questions));
      run update (set_editing None);
      do updated_question <- io (get_question_by_id question_id);
      run lift (iterate (updated_question ≫= q_options));
      ret (Some END)
  end.

(** *** Quiz round *)

(** [pick] stands for the draw of [random.choice]; [message_id] is the id
    of the message the transport returns for the poll. *)
Definition play (chat_id : Z) (pick : nat) (message_id : Z)
    : Handler (option Z) :=
  do questions <- io load_questions;
  match questions !! (pick mod length questions)%nat with
  | None => ret None
  | Some question_data =>
      let correct_option_id := q_answer question_data in
      run update (set_round (Some correct_option_id) (q_id question_data));
      run transport (send_poll chat_id (q_options question_data) correct_option_id);
      run update (set_quiz_message_id (Some message_id));
      ret None
  end.

(** [update.poll_answer].  [poll_chat] is the chat the answered poll was
    sent to; the handler does not read it. *)
Record PollAnswer := {
  poll_chat : Z;
  user_id : Z;
  user_name : string;
  option_ids : list Z
}.

Definition handle_poll_answer (answer : PollAnswer) : Handler (option Z) :=
  let selected_option := head (option_ids answer) in
  do correct_option <- slot quiz_correct_answer;
  let is_correct := bool_decide (selected_option = correct_option) in
  run io (update_user_stats (user_id answer) (user_name answer) is_correct);
  run transport (send_message (user_id answer) is_correct);
  ret None.

(** *** The dispatcher *)

(** The bot: one [user_data] dictionary per user id, the files, the log. *)
Record Bot := {
  sessions : gmap Z UserData;
  disk_of : disk;
  outbox : list outbound
}.

(** The framework runs a handler with the dictionary of the update's
    user, made empty on first use. *)
Definition dispatch {A} (user : Z) (h : Handler A) (b : Bot) : result A * Bot :=
  let s := {| user_data := default no_data (sessions b !! user);
              files := disk_of b; sent := outbox b |} in
  let (r, s') := h s in
  (r, {| sessions := <[user := user_data s']> (sessions b);
         disk_of := files s'; outbox := sent s' |}).

(** The record [get_answer] appends. *)
Definition created (u : UserData) (d : disk) (answer_idx : Z) : QuizQuestion :=
  {| q_id := Some (next_id_of (stored_questions d));
     q_question := quiz_question u;
     q_options := quiz_options u;
     q_answer := answer_idx;
     q_category := Some "User Created" |}.

(** The record [handle_poll_to_quiz] appends. *)
Definition converted (p : PollDraft) (d : disk) (option_id : Z) : QuizQuestion :=
  {| q_id := Some (next_id_of (stored_questions d));
     q_question := Some (poll_question p);
     q_options := Some (poll_options p);
     q_answer := option_id;
     q_category := Some "Converted Poll" |}.

(** [handle_poll_answer] as [PollHandler] calls it.  [poll_answer] is
    [update.poll_answer]; when it is [None], [answer.user] raises
    [AttributeError], which is [OtherError] here, before anything is done. *)
Definition poll_handler (poll_answer : option PollAnswer) : Handler (option Z) :=
  match poll_answer with
  | Some answer => handle_poll_answer answer
  | None => lift (Raise OtherError)
  end.

(** An update, as [main] routes it.  A command, a message or a callback
    goes to its handler with the sender's dictionary.  [main] registers
    [handle_poll_answer] with [PollHandler], which takes the updates that
    carry a poll; these have no user and no [poll_answer].  For the
    updates that carry a poll answer no handler is registered. *)
Inductive event : Type :=
| on_play (user chat_id : Z) (pick : nat) (message_id : Z)
| on_poll_answer (answer : PollAnswer)
| on_poll
| on_update (user : Z) (h : Handler (option Z)).

Definition step (b : Bot) (ev : event) : Bot :=
  match ev with
  | on_play user chat_id pick message_id =>
      snd (dispatch user (play chat_id pick message_id) b)
  | on_poll_answer _ => b
  | on_poll =>
      let s := {| user_data := no_data; files := disk_of b; sent := outbox b |} in
      let (_, s') := poll_handler None s in
      {| sessions := sessions b; disk_of := files s'; outbox := sent s' |}
  | on_update user h => snd (dispatch user h b)
  end.

Definition steps (b : Bot) (evs : list event) : Bot := fold_left step evs b.

(** The user whose dictionary an update is handled with, if any. *)
Definition sender (ev : event) : option Z :=
  match ev with
  | on_play user _ _ _ => Some user
  | on_poll_answer _ => None
  | on_poll => None
  | on_update user _ => Some user
  end.

(** [handle_poll_answer] called for a poll answer.  Whenever the handler
    gets past [answer.user] the update carries a poll answer, and the
    dictionary that the framework passes with such an update is the one of
    the user who answered. *)
Definition answered (answer : PollAnswer) (b : Bot) : Bot :=
  snd (dispatch (user_id answer) (handle_poll_answer answer) b).

(** The correct index of the last poll sent to a chat, read off the log. *)
Fixpoint last_poll_index (chat : Z) (log : list outbound) : option Z :=
  match log with
  | [] => None
  | o :: rest =>
      match last_poll_index chat rest with
      | Some i => Some i
      | None =>
          match o with
          | send_poll c _ i => if c =? chat then Some i else None
          | send_message _ _ => None
          end
      end
  end.

(** The verdict of the last feedback message in the log. *)
Definition last_verdict (log : list outbound) : option bool :=
  match last log with
  | Some (send_message _ is_correct) => Some is_correct
  | _ => None
  end.

End Dialog.

(** ** Concrete stores and sessions used in the examples *)

Module Scenario.
Import Text Py Store Dialog.

Definition record_with_id (k : Z) : QuizQuestion :=
  {| q_id := Some k; q_question := Some "Q";
     q_options := Some ["a"; "b"]; q_answer := 0; q_category := None |}.

(** A writable disk whose questions file holds one record per id. *)
Definition disk_with_ids (ids : list Z) : disk :=
  {| QUESTIONS_FILE := Holds (map record_with_id ids);
     USERS_FILE := Missing; writable := true |}.

(** A fresh installation: no file yet, the disk writable. *)
Definition fresh_disk : disk :=
  {| QUESTIONS_FILE := Missing; USERS_FILE := Missing; writable := true |}.


Definition session_on (d : disk) : Session :=
  {| user_data := no_data; files := d; sent := [] |}.

(** The same files on a disk that cannot be written. *)
Definition read_only (d : disk) : disk :=
  {| QUESTIONS_FILE := QUESTIONS_FILE d; USERS_FILE := USERS_FILE d;
     writable := false |}.

(** A writable disk with one question, of id 1 and four options, whose
    stored answer is [answer]. *)
Definition disk_with_answer (answer : Z) : disk :=
  {| QUESTIONS_FILE :=
       Holds [ {| q_id := Some 1; q_question := Some "Q";
                  q_options := Some ["a"; "b"; "c"; "d"];
                  q_answer := answer; q_category := None |} ];
     USERS_FILE := Missing; writable := true |}.

(** The session of a user who has asked to edit the options of question
    [k]. *)
Definition editing_options (k : Z) (d : disk) : Session :=
  {| user_data :=
       set_editing (Some {| question_id := k; action := "options" |}) no_data;
     files := d; sent := [] |}.

Definition fresh_bot : Bot :=
  {| sessions := ∅; disk_of := fresh_disk; outbox := [] |}.

(** Run handlers one after the other in one session. *)
Definition after (s : Session) (hs : list (Handler (option Z))) : Session :=
  fold_left (fun s h => snd (h s)) hs s.

Definition lines (ls : list string) : string := py_join LF ls.


Definition poll4 : PollDraft :=
  {| poll_question := "Pick one"; poll_options := ["a"; "b"; "c"; "d"] |}.

Definition poll2 : PollDraft :=
  {| poll_question := "Yes or no"; poll_options := ["yes"; "no"] |}.

(** A user starts a question with three options, cancels, and starts a
    second one with two options.  The keyboard of the first is still on the
    screen; its third button carries [answer_2]. *)
Definition stale_create : Session :=
  after (session_on fresh_disk)
    [ get_question "First";
      get_options (lines ["a"; "b"; "c"]);
      cancel;
      get_question "Second";
      get_options (lines ["yes"; "no"]) ].

(** A user forwards a poll with four options and then one with two.  The
    fourth button under the first reply carries [polltoquiz_3]. *)
Definition stale_poll : Session :=
  after (session_on fresh_disk)
    [ handle_message (Some poll4); handle_message (Some poll2) ].

(** User 1 converts a poll with four options (it gets id 3) and asks to
    change its answer; the keyboard has [editanswer_3_0] to
    [editanswer_3_3].  User 2 then replaces the options of question 3 by
    two. *)
Definition stale_edit : Bot :=
  steps fresh_bot
    [ on_update 1 (handle_message (Some poll4));
      on_update 1 (handle_poll_to_quiz "polltoquiz_0");
      on_update 1 (handle_edit_selection 1 "edit_answer_3");
      on_update 2 (handle_edit_selection 2 "edit_options_3");
      on_update 2 (handle_edit_options (lines ["yes"; "no"])) ].

(** Two answers of user 7, who has changed the display name in between. *)
Definition first_answer : PollAnswer :=
  {| poll_chat := 7; user_id := 7; user_name := "@alice"; option_ids := [2] |}.

Definition later_answer : PollAnswer :=
  {| poll_chat := 7; user_id := 7; user_name := "@alicia"; option_ids := [1] |}.

(** User 7 starts a round in chat 100 (the first sample question, correct
    index 2) and then one in chat 200 (the second, correct index 1). *)
Definition two_rounds : Bot :=
  steps fresh_bot [ on_play 7 100 0 11; on_play 7 200 1 12 ].

(** The answer of user 7 to the poll in chat 100, with its correct index. *)
Definition answer_in_100 : PollAnswer :=
  {| poll_chat := 100; user_id := 7; user_name := "@alice"; option_ids := [2] |}.

(** User 7 starts a round in the group chat 300; user 8 answers it with
    the correct index. *)
Definition group_round : Bot := steps fresh_bot [ on_play 7 300 0 11 ].

Definition answer_of_8 : PollAnswer :=
  {| poll_chat := 300; user_id := 8; user_name := "@bob"; option_ids := [2] |}.

(** A world in which every call that can fail raises. *)
Definition failing_world : Adapter.World :=
  {| Adapter.getenv := fun _ => Some "set";
     Adapter.import_pyrogram := Raise ImportError;
     Adapter.client_enter := Raise OtherError;
     Adapter.get_messages := fun _ _ => Raise OtherError;
     Adapter.client_exit := Raise OtherError;
     Adapter.requests_get := fun _ => Raise OtherError;
     Adapter.import_bs4 := Raise ImportError;
     Adapter.BeautifulSoup := fun _ => Raise OtherError;
     Adapter.re_search_channel := fun _ => Some ("quiz", "12");
     Adapter.re_search_poll_question := fun _ => None;
     Adapter.re_findall_poll_options := fun _ => [];
     Adapter.re_sub_letter_marker := fun line => line;
     Adapter.re_sub_number_marker := fun line => line;
     Adapter.re_sub_any_marker := fun line => line |}.

(** A world without credentials in which the page of the link shows a
    poll with a question and two options. *)
Definition poll_page_world : Adapter.World :=
  {| Adapter.getenv := fun _ => None;
     Adapter.import_pyrogram := Raise ImportError;
     Adapter.client_enter := Raise OtherError;
     Adapter.get_messages := fun _ _ => Raise OtherError;
     Adapter.client_exit := Raise OtherError;
     Adapter.requests_get := fun _ => Return "<html>";
     Adapter.import_bs4 := Raise ImportError;
     Adapter.BeautifulSoup := fun _ => Raise OtherError;
     Adapter.re_search_channel := fun _ => None;
     Adapter.re_search_poll_question := fun _ => Some " Up or down? ";
     Adapter.re_findall_poll_options := fun _ => ["Up"; "Down"];
     Adapter.re_sub_letter_marker := fun line => line;
     Adapter.re_sub_number_marker := fun line => line;
     Adapter.re_sub_any_marker := fun line => line |}.

End Scenario.

(** ** Keyboards: the callback data the handlers put on their buttons *)

Module Buttons.
Import Text Py Store Dialog.

(** [f"{i}"] for an [int]. *)
Definition str_of_int (i : Z) : string := pretty i.

(** [[f"{prefix}{i}" for i, option in enumerate(options)]] *)
Definition indexed_buttons {A} (prefix : string) (options : list A)
    : list string :=
  imap (fun i _ => prefix +:+ str_of_int (Z.of_nat i)) options.

(** The keyboard of [get_options], [handle_quiz_url] and [save_forward]:
    one button per option, with [callback_data=f"answer_{i}"]. *)
Definition answer_keyboard (options : list string) : list string :=
  indexed_buttons "answer_" options.

(** The keyboard of [handle_message] under a forwarded poll, with
    [callback_data=f"polltoquiz_{i}"]. *)
Definition polltoquiz_keyboard (options : list string) : list string :=
  indexed_buttons "polltoquiz_" options.

(** The keyboard of [handle_edit_selection] for the action [answer], with
    [callback_data=f"editanswer_{question_id}_{i}"]. *)
Definition editanswer_keyboard (question_id : Z) (options : list string)
    : list string :=
  indexed_buttons ("editanswer_" +:+ str_of_int question_id +:+ "_") options.

(** The four buttons of [handle_poll_to_quiz] under the preview. *)
Definition preview_keyboard (question_id : Z) : list string :=
  [ "edit_question_" +:+ str_of_int question_id;
    "edit_options_" +:+ str_of_int question_id;
    "edit_answer_" +:+ str_of_int question_id;
    "test_quiz_" +:+ str_of_int question_id ].

(** A string of decimal digits. *)
Fixpoint all_digits (s : string) : bool :=
  match s with
  | EmptyString => true
  | String c r => bool_decide (is_Some (digit_of c)) && all_digits r
  end.

End Buttons.

(** ** The remove flow and the catch-all callback handler *)

Module Legacy.
Import Text Py Store Dialog Buttons.

(** The replies of [remove_quiz], [edit_quiz] and [button_callback], by
    what they say; a reply with a keyboard carries its callback data. *)
Inductive notice : Type :=
| none_available                          (* No quiz questions available ... *)
| select_prompt (keyboard : list string)  (* Select a quiz to ... *)
| no_question_with (question_id : Z)      (* No question found with ID ... *)
| invalid_id                              (* Invalid question ID. ... *)
| confirm_prompt (question_id : Z) (keyboard : list string)
                                          (* Are you sure you want to delete ... *)
| deletion_cancelled                      (* Quiz deletion cancelled. *)
| not_found (question_id : Z)             (* Error: Question ID ... not found. *)
| deleted (question_id : Z)               (* Quiz question ID ... has been deleted. *)
| delete_failed (question_id : Z)         (* Failed to delete question ID ... *)
| error_processing                        (* Error processing request: ... *)
| edit_menu (question_id : Z) (keyboard : list string)
                                          (* Editing Quiz ID ...: ... *)
| no_question_edited                      (* Error: No question being edited. *)
| ask_new_text                            (* Send me the new text ... *)
| ask_new_options                         (* Send me the new options ... *)
| ask_new_answer (keyboard : list string) (* Select the new correct answer: ... *)
| quiz_updated                            (* Quiz updated successfully! ... *)
| error_updating.                         (* Error updating answer: ... *)

(** The session together with the slot [user_data["edit_question"]], which
    only these handlers use, and the replies shown so far. *)
Record Context := {
  session : Session;
  edit_question : option QuizQuestion;
  shown : list notice
}.

Definition Callback (A : Type) : Type := Context -> result A * Context.

Definition c_ret {A} (a : A) : Callback A := fun c => (Return a, c).

Definition c_bind {A B} (m : Callback A) (k : A -> Callback B) : Callback B :=
  fun c =>
    match m c with
    | (Return a, c') => k a c'
    | (Raise e, c') => (Raise e, c')
    end.

Definition c_lift {A} (r : result A) : Callback A := fun c => (r, c).

(** A store operation, run on the files of the session. *)
Definition c_io {A} (m : IO A) : Callback A :=
  fun c =>
    let (r, s) := io m (session c) in
    (r, {| session := s; edit_question := edit_question c; shown := shown c |}).

Definition reply (n : notice) : Callback unit :=
  fun c => (Return tt,
            {| session := session c; edit_question := edit_question c;
               shown := shown c ++ [n] |}).

Definition get_edit_question : Callback (option QuizQuestion) :=
  fun c => (Return (edit_question c), c).

Definition set_edit_question (q : option QuizQuestion) : Callback unit :=
  fun c => (Return tt,
            {| session := session c; edit_question := q; shown := shown c |}).

(** [context.user_data.clear()] *)
Definition clear_user_data : Callback unit :=
  fun c => (Return tt,
            {| session := {| user_data := no_data; files := files (session c);
                             sent := sent (session c) |};
               edit_question := None; shown := shown c |}).

(** [try: body except (ValueError, IndexError) as e: handler] *)
Definition try_value_index {A} (body handler : Callback A) : Callback A :=
  fun c =>
    match body c with
    | (Raise ValueError, c') => handler c'
    | (Raise IndexError, c') => handler c'
    | other => other
    end.

Declare Scope callback_scope.
Delimit Scope callback_scope with callback.
Notation "'do' x <- m ; k" := (c_bind m (fun x => k))
  (at level 10, x name, m at level 100, k at level 200) : callback_scope.
Notation "'run' m ; k" := (c_bind m (fun _ => k))
  (at level 10, m at level 100, k at level 200) : callback_scope.

Local Open Scope callback_scope.

(** [q['id']]: a record without the key raises [KeyError], which is
    [OtherError] here. *)
Definition id_of (q : QuizQuestion) : result Z :=
  match q_id q with Some k => Return k | None => Raise OtherError end.

(** [q['question'][:30]]: only [None] makes it raise. *)
Definition text_of (q : QuizQuestion) : result unit :=
  match q_question q with Some _ => Return tt | None => Raise TypeError end.

(** The button of one question in a list to pick from, with
    [callback_data=f"{prefix}{q['id']}"]. *)
Definition pick_button (prefix : string) (q : QuizQuestion) : result string :=
  match id_of q with
  | Raise e => Raise e
  | Return k =>
      match text_of q with
      | Raise e => Raise e
      | Return _ => Return (prefix +:+ str_of_int k)
      end
  end.

(** The loop [for q in questions[:10]] that builds such a keyboard. *)
Fixpoint pick_buttons (prefix : string) (questions : list QuizQuestion)
    : result (list string) :=
  match questions with
  | [] => Return []
  | q :: rest =>
      match pick_button prefix q with
      | Raise e => Raise e
      | Return b =>
          match pick_buttons prefix rest with
          | Raise e => Raise e
          | Return bs => Return (b :: bs)
          end
      end
  end.

Definition pick_keyboard (prefix : string) (questions : list QuizQuestion)
    : result (list string) :=
  pick_buttons prefix (take 10 questions).

(** The two buttons under the question "Are you sure". *)
Definition confirm_keyboard (question_id : Z) : list string :=
  [ "confirm_remove_" +:+ str_of_int question_id; "cancel_remove" ].

(** The three buttons of the edit menu. *)
Definition edit_menu_keyboard : list string :=
  [ "edit_text"; "edit_options"; "edit_answer" ].

(** [int(parts[i])] *)
Definition int_at (parts : list string) (i : Z) : result Z :=
  match subscript parts i with
  | Return part => int_of part
  | Raise e => Raise e
  end.

(** [command_args] is [context.args], the words after the command. *)
Definition remove_quiz (command_args : list string) : Callback (option Z) :=
  match command_args with
  | [] =>
      do questions <- c_io load_questions;
      match questions with
      | [] => run reply none_available; c_ret None
      | _ =>
          do keyboard <- c_lift (pick_keyboard "remove_" questions);
          run reply (select_prompt keyboard);
          c_ret None
      end
  | _ =>
      try_value_index
        (do question_id <- c_lift (int_at command_args 0);
         do question <- c_io (get_question_by_id question_id);
         match question with
         | None => run reply (no_question_with question_id); c_ret None
         | Some question =>
             run reply (confirm_prompt question_id (confirm_keyboard question_id));
             c_ret None
         end)
        (run reply invalid_id; c_ret None)
  end.

(** The text of the edit menu lists the options and shows
    [question['options'][question['answer']]]. *)
Definition menu_text (question : QuizQuestion) : result unit :=
  match iterate (q_options question) with
  | Raise e => Raise e
  | Return _ =>
      match subscript_opt (q_options question) (q_answer question) with
      | Raise e => Raise e
      | Return _ => Return tt
      end
  end.

Definition edit_quiz (command_args : list string) : Callback (option Z) :=
  match command_args with
  | [] =>
      do questions <- c_io load_questions;
      match questions with
      | [] => run reply none_available; c_ret (Some END)
      | _ =>
          do keyboard <- c_lift (pick_keyboard "edit_" questions);
          run reply (select_prompt keyboard);
          c_ret (Some EDIT_SELECT)
      end
  | _ =>
      try_value_index
        (do question_id <- c_lift (int_at command_args 0);
         do question <- c_io (get_question_by_id question_id);
         match question with
         | None => run reply (no_question_with question_id); c_ret (Some END)
         | Some question =>
             run set_edit_question (Some question);
             run c_lift (menu_text question);
             run reply (edit_menu question_id edit_menu_keyboard);
             c_ret (Some EDIT_SELECT)
         end)
        (run reply invalid_id; c_ret (Some END))
  end.

Definition edit_question_text : Callback (option Z) :=
  do question <- get_edit_question;
  match question with
  | None => run reply no_question_edited; c_ret (Some END)
  | Some _ => run reply ask_new_text; c_ret (Some EDIT_QUESTION)
  end.

Definition edit_options : Callback (option Z) :=
  do question <- get_edit_question;
  match question with
  | None => run reply no_question_edited; c_ret (Some END)
  | Some question =>
      run c_lift (iterate (q_options question));
      run reply ask_new_options;
      c_ret (Some EDIT_OPTIONS)
  end.

(** The keyboard of this older [edit_answer] carries
    [callback_data=f"editanswer_{i}"]. *)
Definition edit_answer : Callback (option Z) :=
  do question <- get_edit_question;
  match question with
  | None => run reply no_question_edited; c_ret (Some END)
  | Some question =>
      run c_lift (iterate (q_options question));
      run c_lift (subscript_opt (q_options question) (q_answer question));
      run reply (ask_new_answer
                   (indexed_buttons "editanswer_"
                      (default [] (q_options question))));
      c_ret (Some EDIT_ANSWER)
  end.

(** [q.get("id") == question.get("id")], true also when both lack an id. *)
Definition same_id (question q : QuizQuestion) : bool :=
  bool_decide (q_id q = q_id question).

(** The loop [for i, q in enumerate(questions): if ..: questions[i] =
    question; break]: the first record with the id of [question] is
    replaced by [question]. *)
Fixpoint replace_first (question : QuizQuestion) (questions : list QuizQuestion)
    : list QuizQuestion :=
  match questions with
  | [] => []
  | q :: rest =>
      if same_id question q then question :: rest
      else q :: replace_first question rest
  end.

Definition button_callback (callback_data : string) : Callback (option Z) :=
  if String.eqb callback_data "cancel_remove" then
    run reply deletion_cancelled; c_ret None
  else if String.prefix "confirm_remove_" callback_data then
    try_value_index
      (do question_id <- c_lift (int_at (py_split underscore callback_data) 2);
       do question <- c_io (get_question_by_id question_id);
       match question with
       | None => run reply (not_found question_id); c_ret None
       | Some _ =>
           do removed <- c_io (delete_question_by_id question_id);
           if removed : bool then run reply (deleted question_id); c_ret None
           else run reply (delete_failed question_id); c_ret None
       end)
      (run reply error_processing; c_ret None)
  else if String.prefix "remove_" callback_data then
    try_value_index
      (do question_id <- c_lift (int_at (py_split underscore callback_data) 1);
       do question <- c_io (get_question_by_id question_id);
       match question with
       | None => run reply (not_found question_id); c_ret None
       | Some _ =>
           run reply (confirm_prompt question_id (confirm_keyboard question_id));
           c_ret None
       end)
      (run reply error_processing; c_ret None)
  else if String.prefix "edit_" callback_data then
    if String.eqb callback_data "edit_text" then
      run edit_question_text; c_ret None
    else if String.eqb callback_data "edit_options" then
      run edit_options; c_ret None
    else if String.eqb callback_data "edit_answer" then
      run edit_answer; c_ret None
    else
      try_value_index
        (do question_id <- c_lift (int_at (py_split underscore callback_data) 1);
         do question <- c_io (get_question_by_id question_id);
         match question with
         | None => run reply (not_found question_id); c_ret None
         | Some question =>
             run set_edit_question (Some question);
             run c_lift (menu_text question);
             run reply (edit_menu question_id edit_menu_keyboard);
             c_ret None
         end)
        (run reply error_processing; c_ret None)
  else if String.prefix "editanswer_" callback_data then
    try_value_index
      (do answer_idx <- c_lift (int_at (py_split underscore callback_data) 1);
       do question <- get_edit_question;
       match question with
       | None => run reply no_question_edited; c_ret (Some END)
       | Some question =>
           let question := set_answer answer_idx question in
           run set_edit_question (Some question);
           do questions <- c_io load_questions;
           run c_io (save_questions (replace_first question questions));
           run c_lift (subscript_opt (q_options question) answer_idx);
           run reply quiz_updated;
           run clear_user_data;
           c_ret (Some END)
       end)
      (run reply error_updating; c_ret (Some END))
  else c_ret None.

(** The stored questions as the context's files hold them. *)
Definition questions_in (c : Context) : list QuizQuestion :=
  stored_questions (files (session c)).

End Legacy.

(** ** [list_quizzes], [clone_quiz] and the statistics of one user *)

Module Listing.
Import Text Py Store Dialog Buttons.

(** [q.get("category", "General")] *)
Definition category_of (q : QuizQuestion) : string :=
  default "General" (q_category q).

(** One step of the grouping loop: [categories[category].append(q)], with
    a new key put after the keys already there. *)
Fixpoint add_to_category (category : string) (q : QuizQuestion)
    (categories : list (string * list QuizQuestion))
    : list (string * list QuizQuestion) :=
  match categories with
  | [] => [(category, [q])]
  | (c, qs) :: rest =>
      if String.eqb c category then (c, (qs ++ [q])%list) :: rest
      else (c, qs) :: add_to_category category q rest
  end.

(** The dictionary [categories] after the loop, in the order of its keys. *)
Definition group_by_category (questions : list QuizQuestion)
    : list (string * list QuizQuestion) :=
  fold_left (fun categories q => add_to_category (category_of q) q categories)
            questions [].

(** One line [- ID {q['id']}: {q['question'][:30]}...]: the id and the
    first 30 characters of the text.  A record without an id raises
    [KeyError], which is [OtherError] here; a text that is [None] raises
    [TypeError]. *)
Definition entry_of (q : QuizQuestion) : result (Z * string) :=
  match q_id q with
  | None => Raise OtherError
  | Some k =>
      match q_question q with
      | None => Raise TypeError
      | Some t => Return (k, substring 0 30 t)
      end
  end.

Fixpoint entries_of (questions : list QuizQuestion) : result (list (Z * string)) :=
  match questions with
  | [] => Return []
  | q :: rest =>
      match entry_of q with
      | Raise e => Raise e
      | Return x =>
          match entries_of rest with
          | Raise e => Raise e
          | Return xs => Return (x :: xs)
          end
      end
  end.

(** What the message says about one category: its name, the number of
    its questions, the lines of the first five, and how many more. *)
Record block := {
  heading : string;
  count : nat;
  entries : list (Z * string);
  more : option nat
}.

Definition block_of (category : string) (questions : list QuizQuestion)
    : result block :=
  match entries_of (take 5 questions) with
  | Raise e => Raise e
  | Return es =>
      Return {| heading := category;
                count := length questions;
                entries := es;
                more := if (5 <? length questions)%nat
                        then Some (length questions - 5)%nat else None |}
  end.

Fixpoint blocks_of (categories : list (string * list QuizQuestion))
    : result (list block) :=
  match categories with
  | [] => Return []
  | (c, qs) :: rest =>
      match block_of c qs with
      | Raise e => Raise e
      | Return b =>
          match blocks_of rest with
          | Raise e => Raise e
          | Return bs => Return (b :: bs)
          end
      end
  end.

(** [list_quizzes]: [None] stands for the reply that no question is
    available, [Some blocks] for the listing. *)
Definition list_quizzes : disk -> result (option (list block)) * disk :=
  fun d =>
    let (questions, d') := load_questions d in
    match questions with
    | [] => (Return None, d')
    | _ =>
        match blocks_of (group_by_category questions) with
        | Raise e => (Raise e, d')
        | Return bs => (Return (Some bs), d')
        end
    end.

(** [clone_quiz]: with a first argument that starts with [http] the link
    is handled at once, otherwise the user is asked for it. *)
Definition clone_quiz (web : Adapter.World) (message_text : string)
    (command_args : list string) : Handler (option Z) :=
  match command_args with
  | url :: _ =>
      if String.prefix "http" url
      then handle_quiz_url web message_text (Some url)
      else ret (Some CLONE_URL)
  | [] => ret (Some CLONE_URL)
  end.

(** A run of [update_user_stats] for one user, one call per verdict. *)
Fixpoint answer_all (user_id : Z) (user_name : string) (verdicts : list bool)
    (d : disk) : disk :=
  match verdicts with
  | [] => d
  | v :: rest =>
      answer_all user_id user_name rest
        (snd (update_user_stats user_id user_name v d))
  end.

(** [stats_command]: the two numbers of the reply, or [None] for the
    reply that the user has not answered yet.  The accuracy, a float, is
    left out. *)
Definition stats_command (user_id : Z) : disk -> option (Z * Z) * disk :=
  fun d =>
    let (user_data, d') := load_users d in
    match user_data !! (str_of_int user_id) with
    | Some stats => (Some (total stats, correct stats), d')
    | None => (None, d')
    end.

End Listing.

(** ** Worlds and outcomes of the import adapter *)

Module Worlds.
Import Text Py Adapter.

(** The same world with no variable set in the environment. *)
Definition without_credentials (w : World) : World :=
  {| getenv := fun _ => None;
     import_pyrogram := import_pyrogram w;
     client_enter := client_enter w;
     get_messages := get_messages w;
     client_exit := client_exit w;
     requests_get := requests_get w;
     import_bs4 := import_bs4 w;
     BeautifulSoup := BeautifulSoup w;
     re_search_channel := re_search_channel w;
     re_search_poll_question := re_search_poll_question w;
     re_findall_poll_options := re_findall_poll_options w;
     re_sub_letter_marker := re_sub_letter_marker w;
     re_sub_number_marker := re_sub_number_marker w;
     re_sub_any_marker := re_sub_any_marker w |}.

(** Every draft that a block returns satisfies [P]. *)
Definition returns_only (P : Draft -> Prop) (f : flow (option Draft)) : Prop :=
  forall d, f = Returns (Some d) -> P d.

(** A draft with two options or more. *)
Definition two_options (d : Draft) : Prop := (2 <= length (d_options d))%nat.

(** A world in which Pyrogram finds a poll with a single option. *)
Definition single_option_world : World :=
  {| getenv := fun _ => Some "set";
     import_pyrogram := Return tt;
     client_enter := Return tt;
     get_messages := fun _ _ =>
       Return (Some {| poll := Some ("Only one?", ["yes"]); text := None |});
     client_exit := Return tt;
     requests_get := fun _ => Raise OtherError;
     import_bs4 := Raise ImportError;
     BeautifulSoup := fun _ => Raise OtherError;
     re_search_channel := fun _ => Some ("quiz", "12");
     re_search_poll_question := fun _ => None;
     re_findall_poll_options := fun _ => [];
     re_sub_letter_marker := fun line => line;
     re_sub_number_marker := fun line => line;
     re_sub_any_marker := fun line => line |}.

End Worlds.

(** ** What a callback leaves alone *)

Module Frames.
Import Text Py Store Dialog Legacy.

(** The ids of the stored questions, in the order of the store. *)
Definition ids_in (c : Context) : list (option Z) := map q_id (questions_in c).

(** A step that neither adds nor removes a question. *)
Definition keeps_ids {A} (m : Callback A) : Prop :=
  forall c, ids_in (snd (m c)) = ids_in c.

(** A context over a store with ids 1, 2 and 5 in which the user holds an
    old copy of question 2, with another text and three options. *)
Definition stale_copy : QuizQuestion :=
  {| q_id := Some 2; q_question := Some "Old text";
     q_options := Some ["x"; "y"; "z"]; q_answer := 0; q_category := None |}.

Definition context_with_copy : Context :=
  {| session := Scenario.session_on (Scenario.disk_with_ids [1; 2; 5]);
     edit_question := Some stale_copy; shown := [] |}.

Definition plain_context (d : disk) : Context :=
  {| session := Scenario.session_on d; edit_question := None; shown := [] |}.

End Frames.

(** * Properties *)

(** ** Lines and trimming *)

Section text_facts.
Import Text.

Lemma py_split_cons sep s : exists h t, py_split sep s = h :: t.
Proof.
  induction s as [|c r IH]; simpl; [by eauto|].
  destruct (Ascii.eqb c sep); [by eauto|].
  destruct IH as (h & t & ->). by eauto.
Qed.

Lemma py_join_cons sep p h t :
  py_join sep (p :: h :: t) = p +:+ String sep (py_join sep (h :: t)).
Proof. done. Qed.


Lemma py_in_char sep c h :
  py_in (String sep EmptyString) (String c h)
  = (if ascii_dec sep c then true else false)
    || py_in (String sep EmptyString) h.
Proof. cbn. destruct (ascii_dec sep c); by destruct h. Qed.

(** No piece contains the separator. *)
Lemma py_split_no_sep sep s :
  Forall (fun piece => py_in (String sep EmptyString) piece = false)
         (py_split sep s).
Proof.
  induction s as [|c r IH]; cbn [py_split].
  - by repeat constructor.
  - destruct (Ascii.eqb_spec c sep) as [->|Hne]; [by constructor|].
    destruct (py_split_cons sep r) as (h & t & E). rewrite E in IH |- *.
    inversion IH as [|? ? Hh Ht]; subst. constructor; [|done].
    rewrite py_in_char, Hh. by destruct (ascii_dec sep c) as [->|].
Qed.

Lemma lstrip_empty s : lstrip s = EmptyString <-> all_space s = true.
Proof.
  induction s as [|c r IH]; simpl; [done|].
  destruct (py_isspace c); simpl; [done|]. split; discriminate.
Qed.


Lemma lstrip_head s :
  starts_with_space (lstrip s) = false.
Proof.
  induction s as [|c r IH]; simpl; [done|].
  destruct (py_isspace c) eqn:E; [done|]. simpl. by rewrite E.
Qed.


Lemma rstrip_head s :
  starts_with_space s = false -> starts_with_space (rstrip s) = false.
Proof.
  destruct s as [|c r]; simpl; [done|]. intros E.
  destruct (rstrip r); simpl; [|done]. by rewrite E.
Qed.

Lemma rstrip_last s : ends_with_space (rstrip s) = false.
Proof.
  induction s as [|c r IH]; simpl; [done|].
  destruct (rstrip r) eqn:E.
  - destruct (py_isspace c) eqn:Ec; simpl; [done|]. by rewrite Ec.
  - simpl in *. done.
Qed.


Lemma strip_trimmed s : trimmed (strip s) = true.
Proof.
  unfold trimmed, strip.
  by rewrite rstrip_head, rstrip_last by apply lstrip_head.
Qed.

Lemma append_cons c (s t : string) : String c s +:+ t = String c (s +:+ t).
Proof. done. Qed.

Lemma append_nil (t : string) : EmptyString +:+ t = t.
Proof. done. Qed.

Lemma lstrip_split s :
  exists pre, s = pre +:+ lstrip s /\ all_space pre = true.
Proof.
  induction s as [|c r (pre & E & Hpre)]; [by exists EmptyString|].
  cbn [lstrip]. destruct (py_isspace c) eqn:Ec.
  - exists (String c pre). rewrite append_cons, <- E. cbn. by rewrite Ec.
  - by exists EmptyString.
Qed.

Lemma rstrip_split s :
  exists post, s = rstrip s +:+ post /\ all_space post = true.
Proof.
  induction s as [|c r (post & E & Hpost)]; [by exists EmptyString|].
  cbn [rstrip]. destruct (rstrip r) eqn:Er.
  - rewrite append_nil in E. subst r. destruct (py_isspace c) eqn:Ec.
    + exists (String c post). rewrite append_nil. cbn. by rewrite Ec.
    + exists post. by rewrite append_cons, append_nil.
  - exists post. by rewrite append_cons, <- E.
Qed.

(** [strip] removes a blank prefix and a blank suffix and nothing else. *)
Lemma strip_split s :
  exists pre post,
    s = pre +:+ strip s +:+ post
    /\ all_space pre = true /\ all_space post = true.
Proof.
  destruct (lstrip_split s) as (pre & E1 & H1).
  destruct (rstrip_split (lstrip s)) as (post & E2 & H2).
  exists pre, post. unfold strip. by rewrite <- E2.
Qed.

Lemma filter_map_strip (lines : list string) :
  map strip (List.filter (fun opt => truthy (strip opt)) lines)
  = List.filter truthy (map strip lines).
Proof.
  induction lines as [|l ls IH]; simpl; [done|].
  destruct (truthy (strip l)); simpl; by rewrite IH.
Qed.

Lemma option_lines_refines text : option_lines text = option_lines_spec text.
Proof. apply filter_map_strip. Qed.

Lemma option_lines_each text :
  Forall (fun opt => truthy opt = true /\ trimmed opt = true)
         (option_lines text).
Proof.
  rewrite option_lines_refines. unfold option_lines_spec.
  induction (py_split LF text) as [|l ls IH]; simpl; [done|].
  destruct (truthy (strip l)) eqn:E; [|done].
  constructor; [|done]. split; [done|apply strip_trimmed].
Qed.


End text_facts.

(** ** The question store *)

Section store_facts.
Import Store.

Lemma fold_max_le (rest : list Z) (x : Z) : x <= fold_left Z.max rest x.
Proof.
  revert x. induction rest as [|y rest IH]; intros x; simpl; [lia|].
  specialize (IH (Z.max x y)). lia.
Qed.

Lemma fold_max_ub (rest : list Z) (x y : Z) :
  y ∈ rest -> y <= fold_left Z.max rest x.
Proof.
  revert x. induction rest as [|z rest IH]; intros x Hy; simpl.
  - by apply elem_of_nil in Hy.
  - apply elem_of_cons in Hy as [->|Hy]; [|by apply IH].
    pose proof (fold_max_le rest (Z.max x z)). lia.
Qed.

Lemma fold_max_in (rest : list Z) (x : Z) :
  fold_left Z.max rest x ∈ x :: rest.
Proof.
  revert x. induction rest as [|z rest IH]; intros x; simpl.
  - apply list_elem_of_here.
  - specialize (IH (Z.max x z)).
    apply elem_of_cons in IH as [E|IH].
    + rewrite E. destruct (Z.max_spec x z) as [[_ ->]|[_ ->]].
      * apply list_elem_of_further, list_elem_of_here.
      * apply list_elem_of_here.
    + by do 2 apply list_elem_of_further.
Qed.

(** [py_max] is the greatest element of a list that is not empty. *)
Lemma py_max_ub (xs : list Z) (y : Z) : y ∈ xs -> y <= py_max xs.
Proof.
  destruct xs as [|x rest]; intros Hy; [by apply elem_of_nil in Hy|].
  apply elem_of_cons in Hy as [->|Hy]; simpl.
  - apply fold_max_le.
  - by apply fold_max_ub.
Qed.

Lemma py_max_in (xs : list Z) : xs <> [] -> py_max xs ∈ xs.
Proof. destruct xs as [|x rest]; [done|]. intros _. apply fold_max_in. Qed.

Lemma py_max_unique (xs : list Z) (m : Z) :
  m ∈ xs -> (forall y, y ∈ xs -> y <= m) -> py_max xs = m.
Proof.
  intros Hm Hub.
  assert (xs <> []) as Hne by (intros ->; by apply elem_of_nil in Hm).
  pose proof (py_max_in xs Hne) as Hin.
  pose proof (py_max_ub xs m Hm). specialize (Hub _ Hin). lia.
Qed.


Lemma save_questions_stored qs d :
  stored_questions (snd (save_questions qs d))
  = if writable d then qs else stored_questions d.
Proof. unfold save_questions. by destruct (writable d). Qed.

Lemma save_questions_flag qs d :
  writable (snd (save_questions qs d)) = writable d.
Proof. unfold save_questions. by destruct (writable d) eqn:E. Qed.

(** Reading twice reads the same list. *)
Lemma load_questions_again d :
  stored_questions (snd (load_questions d)) = stored_questions d.
Proof.
  unfold stored_questions, load_questions, io_bind, io_ret, save_questions.
  destruct d as [[| |qs] us []]; done.
Qed.

Lemma load_questions_flag d :
  writable (snd (load_questions d)) = writable d.
Proof.
  unfold load_questions, io_bind, io_ret, save_questions.
  destruct d as [[| |qs] us []]; done.
Qed.

Lemma load_questions_settled d :
  load_questions (snd (load_questions d))
  = (stored_questions d, snd (load_questions d)).
Proof.
  unfold stored_questions, load_questions, io_bind, io_ret, save_questions.
  destruct d as [[| |qs] us []]; done.
Qed.

Lemma get_next_question_id_eq d :
  get_next_question_id d = (next_id_of (stored_questions d), snd (load_questions d)).
Proof.
  unfold get_next_question_id, io_bind, stored_questions, next_id_of.
  destruct (load_questions d) as [qs d']. by destruct qs.
Qed.

Lemma get_question_by_id_eq k d :
  get_question_by_id k d
  = (List.find (has_id k) (stored_questions d), snd (load_questions d)).
Proof.
  unfold get_question_by_id, io_bind, stored_questions.
  by destruct (load_questions d) as [qs d'].
Qed.

Lemma delete_question_by_id_eq k d :
  delete_question_by_id k d
  = let kept := List.filter (fun q => negb (has_id k q)) (stored_questions d) in
    if (length kept <? length (stored_questions d))%nat
    then (true, snd (save_questions kept (snd (load_questions d))))
    else (false, snd (load_questions d)).
Proof.
  unfold delete_question_by_id, io_bind, io_ret, stored_questions.
  destruct (load_questions d) as [qs d']. simpl.
  destruct (_ <? _)%nat; [|done].
  by destruct (save_questions _ d').
Qed.

Lemma has_id_true k q : has_id k q = true <-> q_id q = Some k.
Proof. unfold has_id. apply bool_decide_eq_true. Qed.

Lemma find_none_filter k (qs : list QuizQuestion) :
  List.find (has_id k) qs = None ->
  List.filter (fun q => negb (has_id k q)) qs = qs.
Proof.
  induction qs as [|q qs IH]; simpl; [done|].
  destruct (has_id k q); [done|]. simpl. intros H. by rewrite IH.
Qed.

Lemma find_filter_out k (qs : list QuizQuestion) :
  List.find (has_id k) (List.filter (fun q => negb (has_id k q)) qs) = None.
Proof.
  induction qs as [|q qs IH]; simpl; [done|].
  destruct (has_id k q) eqn:E; simpl; [done|]. by rewrite E.
Qed.

Lemma filter_length_le {A} (p : A -> bool) (l : list A) :
  (length (List.filter p l) <= length l)%nat.
Proof.
  induction l as [|x l IH]; simpl; [lia|]. destruct (p x); simpl; lia.
Qed.

(** With unique ids, removing an id that is present removes one record. *)
Lemma filter_out_unique k (qs : list QuizQuestion) :
  NoDup (map q_id qs) ->
  List.find (has_id k) qs <> None ->
  S (length (List.filter (fun q => negb (has_id k q)) qs)) = length qs.
Proof.
  induction qs as [|q qs IH]; simpl; [done|].
  intros Hnd Hfind. apply NoDup_cons in Hnd as [Hq Hnd].
  destruct (has_id k q) eqn:E; simpl.
  - f_equal. rewrite find_none_filter; [done|].
    destruct (List.find (has_id k) qs) as [q'|] eqn:F; [|done].
    apply find_some in F as [Hin Hid].
    apply has_id_true in E, Hid. exfalso. apply Hq.
    rewrite E, <- Hid. apply list_elem_of_fmap. exists q'.
    split; [done|]. by apply list_elem_of_In.
  - f_equal. by apply IH.
Qed.

End store_facts.

(** ** Allocation of ids and deletion *)

Section id_facts.
Import Store Scenario.

Lemma filter_same_length {A} (p : A -> bool) (l : list A) :
  length (List.filter p l) = length l -> List.filter p l = l.
Proof.
  induction l as [|x l IH]; simpl; [done|].
  destruct (p x); simpl; intros H.
  - f_equal. apply IH. lia.
  - pose proof (filter_length_le p l). lia.
Qed.

(** What the next read finds after [delete_question_by_id]. *)
Lemma delete_question_by_id_stored k d :
  stored_questions (snd (delete_question_by_id k d))
  = if writable d
    then List.filter (fun q => negb (has_id k q)) (stored_questions d)
    else stored_questions d.
Proof.
  rewrite delete_question_by_id_eq. cbv zeta.
  set (kept := List.filter _ _).
  destruct (length kept <? length (stored_questions d))%nat eqn:E; simpl.
  - by rewrite save_questions_stored, load_questions_flag, load_questions_again.
  - rewrite load_questions_again. destruct (writable d); [|done].
    symmetry. apply filter_same_length. apply Nat.ltb_ge in E.
    pose proof (filter_length_le (fun q => negb (has_id k q)) (stored_questions d)).
    subst kept. lia.
Qed.

Lemma next_id_of_max (qs : list QuizQuestion) (q : QuizQuestion) :
  q ∈ qs -> (forall q', q' ∈ qs -> id_or_0 q' <= id_or_0 q) ->
  next_id_of qs = id_or_0 q + 1.
Proof.
  intros Hq Hub. destruct qs as [|q0 qs]; [by apply elem_of_nil in Hq|].
  unfold next_id_of. f_equal. apply py_max_unique.
  - by apply (list_elem_of_fmap_2 id_or_0).
  - intros y (q' & -> & Hq')%list_elem_of_fmap. by apply Hub.
Qed.

Lemma next_id_of_witness (qs : list QuizQuestion) :
  qs <> [] ->
  exists q, q ∈ qs /\ (forall q', q' ∈ qs -> id_or_0 q' <= id_or_0 q)
            /\ next_id_of qs = id_or_0 q + 1.
Proof.
  intros Hne.
  assert (map id_or_0 qs <> []) as Hne' by (by destruct qs).
  pose proof (py_max_in _ Hne') as (q & E & Hq)%list_elem_of_fmap.
  exists q. split; [done|].
  assert (forall q', q' ∈ qs -> id_or_0 q' <= id_or_0 q) as Hub.
  { intros q' Hq'. rewrite <- E. apply py_max_ub.
    by apply (list_elem_of_fmap_2 id_or_0). }
  split; [done|]. by apply next_id_of_max.
Qed.

Lemma elem_of_filter_out k (qs : list QuizQuestion) (q : QuizQuestion) :
  q ∈ List.filter (fun q => negb (has_id k q)) qs
  <-> q ∈ qs /\ q_id q <> Some k.
Proof.
  rewrite !list_elem_of_In, filter_In, negb_true_iff.
  unfold has_id. rewrite bool_decide_eq_false. done.
Qed.

(** C2, as the code has it.  [get_next_question_id] returns 1 on an empty
    store and otherwise one more than the greatest id in the store (a record
    without an id counts as 0).  It is computed from what the store holds
    at the call: two disks that read the same give the same id.  With ids
    1, 2 and 5 it returns 6.  Deleting a record that does not hold the
    greatest id leaves the result as it was, so a gap below the greatest id
    is never handed out; deleting the record with the greatest id [k]
    makes the next id at most [k], and after deleting 5 from 1, 2, 5 the
    next id is 3. *)
Theorem get_next_question_id_max_plus_one (d : disk) (k : Z) :
  (stored_questions d = [] -> fst (get_next_question_id d) = 1)
  /\ (stored_questions d <> [] ->
      exists q, q ∈ stored_questions d
        /\ (forall q', q' ∈ stored_questions d -> id_or_0 q' <= id_or_0 q)
        /\ fst (get_next_question_id d) = id_or_0 q + 1)
  /\ (forall d', stored_questions d' = stored_questions d ->
      fst (get_next_question_id d') = fst (get_next_question_id d))
  /\ (forall q, q ∈ stored_questions d ->
      (forall q', q' ∈ stored_questions d -> id_or_0 q' <= id_or_0 q) ->
      q_id q <> Some k ->
      fst (get_next_question_id (snd (delete_question_by_id k d)))
      = fst (get_next_question_id d))
  /\ (writable d = true -> 1 <= k ->
      (exists q, q ∈ stored_questions d /\ q_id q = Some k) ->
      (forall q', q' ∈ stored_questions d -> id_or_0 q' <= k) ->
      fst (get_next_question_id (snd (delete_question_by_id k d))) <= k)
  /\ fst (get_next_question_id (disk_with_ids [1; 2; 5])) = 6
  /\ fst (get_next_question_id
            (snd (delete_question_by_id 5 (disk_with_ids [1; 2; 5])))) = 3
  /\ fst (get_next_question_id
            (snd (delete_question_by_id 2 (disk_with_ids [1; 2; 5])))) = 6.
Proof.
  repeat split.
  - intros E. by rewrite get_next_question_id_eq, E.
  - intros Hne. rewrite get_next_question_id_eq. cbn [fst].
    by apply next_id_of_witness.
  - intros d' E. by rewrite !get_next_question_id_eq, E.
  - intros q Hq Hub Hk. rewrite !get_next_question_id_eq. cbn [fst].
    rewrite delete_question_by_id_stored. destruct (writable d); [|done].
    rewrite (next_id_of_max _ q Hq Hub). apply next_id_of_max.
    + by apply elem_of_filter_out.
    + intros q' [Hq' _]%elem_of_filter_out. by apply Hub.
  - intros Hw Hk (q & Hq & Hid) Hub.
    rewrite get_next_question_id_eq. cbn [fst].
    rewrite delete_question_by_id_stored, Hw.
    set (kept := List.filter _ _).
    destruct (decide (kept = [])) as [->|Hne]; [simpl; lia|].
    destruct (next_id_of_witness kept Hne) as (m & Hm & _ & ->).
    apply elem_of_filter_out in Hm as [Hm Hmk].
    specialize (Hub m Hm). unfold id_or_0 in *.
    destruct (q_id m) as [j|]; simpl in *; [|lia].
    assert (j <> k) by congruence. lia.
Qed.

(** The instance of the theorem at the store with ids 1, 2 and 5 and the
    deleted id 5, which is there and is the greatest. *)
Lemma get_next_question_id_max_plus_one_witness :
  fst (get_next_question_id (disk_with_ids [1; 2; 5])) = 6
  /\ fst (get_next_question_id
            (snd (delete_question_by_id 5 (disk_with_ids [1; 2; 5])))) <= 5.
Proof.
  pose proof (get_next_question_id_max_plus_one (disk_with_ids [1; 2; 5]) 5)
    as (_ & _ & _ & _ & Hreuse & H6 & _).
  split; [exact H6|].
  apply Hreuse.
  - reflexivity.
  - lia.
  - exists (record_with_id 5). split; [|reflexivity].
    vm_compute. do 2 apply list_elem_of_further. apply list_elem_of_here.
  - intros q' Hq'. vm_compute in Hq'.
    repeat (apply elem_of_cons in Hq' as [->|Hq']; [vm_compute; discriminate|]).
    by apply elem_of_nil in Hq'.
Defined.

(** C2, as the claim states it, fails: after the record with id 5 is
    deleted from the store with ids 1, 2 and 5, the next id is 3, not 6. *)
Lemma deleted_greatest_id_is_reused :
  fst (get_next_question_id (disk_with_ids [1; 2; 5])) = 6
  /\ fst (get_next_question_id
            (snd (delete_question_by_id 5 (disk_with_ids [1; 2; 5])))) = 3
  /\ fst (get_next_question_id
            (snd (delete_question_by_id 5 (disk_with_ids [1; 2; 5])))) <> 6.
Proof. repeat split. vm_compute. discriminate. Qed.

End id_facts.

Section delete_facts.
Import Store Scenario.

(** C4, as the code has it.  When no record has the id,
    [delete_question_by_id] returns [False] and the next read finds the
    same collection.  When a record has the id, it returns [True], and
    when the file can be written the collection afterwards is the old one
    without the records of that id, in their order: it is shorter, by
    exactly one record when the ids are distinct, and
    [get_question_by_id] then returns [None] for that id. *)
Theorem delete_question_by_id_removes (d : disk) (question_id : Z) :
  let removed := fst (delete_question_by_id question_id d) in
  let d' := snd (delete_question_by_id question_id d) in
  (fst (get_question_by_id question_id d) = None ->
   removed = false /\ stored_questions d' = stored_questions d)
  /\ (fst (get_question_by_id question_id d) <> None ->
      removed = true
      /\ (writable d = true ->
          stored_questions d'
          = List.filter (fun q => negb (has_id question_id q)) (stored_questions d)
          /\ (length (stored_questions d') < length (stored_questions d))%nat
          /\ (NoDup (map q_id (stored_questions d)) ->
              S (length (stored_questions d')) = length (stored_questions d))
          /\ fst (get_question_by_id question_id d') = None)).
Proof.
  cbv zeta.
  rewrite !get_question_by_id_eq, delete_question_by_id_stored.
  rewrite delete_question_by_id_eq. cbv zeta. cbn [fst].
  split.
  - intros Hnone. rewrite (find_none_filter _ _ Hnone).
    rewrite Nat.ltb_irrefl. split; [done|]. by destruct (writable d).
  - intros Hsome.
    assert ((length (List.filter (fun q => negb (has_id question_id q))
                       (stored_questions d))
             <? length (stored_questions d))%nat = true) as Hlt.
    { destruct (List.find _ _) as [q|] eqn:Hfind; [|done].
      clear Hsome. apply Nat.ltb_lt.
      induction (stored_questions d) as [|x qs IH]; [done|]. simpl in *.
      destruct (has_id question_id x); simpl.
      - pose proof (filter_length_le
                      (fun q => negb (has_id question_id q)) qs). lia.
      - specialize (IH Hfind). lia. }
    rewrite Hlt. cbn [fst snd]. split; [done|]. intros ->.
    split; [done|]. split; [by apply Nat.ltb_lt|].
    split; [intros Hnd; by apply filter_out_unique|]. apply find_filter_out.
Qed.

(** The theorem at the store with ids 1, 2 and 5 and the id 5. *)
Lemma delete_question_by_id_removes_witness :
  fst (delete_question_by_id 5 (disk_with_ids [1; 2; 5])) = true
  /\ length (stored_questions
               (snd (delete_question_by_id 5 (disk_with_ids [1; 2; 5])))) = 2%nat
  /\ fst (get_question_by_id 5
            (snd (delete_question_by_id 5 (disk_with_ids [1; 2; 5])))) = None.
Proof.
  destruct (delete_question_by_id_removes (disk_with_ids [1; 2; 5]) 5)
    as [_ Hpresent].
  destruct Hpresent as (Hret & Hwritten); [vm_compute; discriminate|].
  destruct (Hwritten eq_refl) as (_ & _ & _ & Hgone).
  split; [exact Hret | split; [reflexivity | exact Hgone]].
Defined.

(** C4, as the claim states it, fails in two ways.  With two records of
    id 2 the collection shrinks by two.  And on a disk that cannot be
    written the function returns [True] for the id 5 that is there, while
    the collection keeps its three records and the id 5 is still found:
    the result of [save_questions] is not looked at. *)
Lemma delete_question_by_id_shrinks_by_two_or_not_at_all :
  (fst (get_question_by_id 2 (disk_with_ids [1; 2; 2; 3])) <> None
   /\ fst (delete_question_by_id 2 (disk_with_ids [1; 2; 2; 3])) = true
   /\ length (stored_questions (disk_with_ids [1; 2; 2; 3])) = 4%nat
   /\ length (stored_questions
                (snd (delete_question_by_id 2 (disk_with_ids [1; 2; 2; 3]))))
      = 2%nat)
  /\ (fst (get_question_by_id 5 (read_only (disk_with_ids [1; 2; 5]))) <> None
      /\ fst (delete_question_by_id 5 (read_only (disk_with_ids [1; 2; 5])))
         = true
      /\ length (stored_questions
                   (snd (delete_question_by_id 5
                           (read_only (disk_with_ids [1; 2; 5])))))
         = 3%nat
      /\ fst (get_question_by_id 5
                (snd (delete_question_by_id 5
                        (read_only (disk_with_ids [1; 2; 5])))))
         <> None).
Proof. repeat split; by vm_compute. Qed.

End delete_facts.

(** ** The handlers that write the question store *)

Section handler_facts.
Import Text Py Store Dialog.

Local Open Scope handler_scope.

Lemma bind_io {A B} (m : IO A) (k : A -> Handler B) s :
  (do x <- io m; k x) s
  = k (fst (m (files s)))
      {| user_data := user_data s; files := snd (m (files s)); sent := sent s |}.
Proof. unfold bind, io. by destruct (m (files s)). Qed.

Lemma bind_slot {A B} (f : UserData -> A) (k : A -> Handler B) s :
  (do x <- slot f; k x) s = k (f (user_data s)) s.
Proof. done. Qed.

Lemma bind_update {B} (f : UserData -> UserData) (k : Handler B) s :
  (run update f; k) s
  = k {| user_data := f (user_data s); files := files s; sent := sent s |}.
Proof. done. Qed.

Lemma bind_transport {B} (o : outbound) (k : Handler B) s :
  (run transport o; k) s
  = k {| user_data := user_data s; files := files s; sent := sent s ++ [o] |}.
Proof. done. Qed.

Lemma bind_lift {A B} (r : result A) (k : A -> Handler B) s :
  (do x <- lift r; k x) s
  = match r with Return a => k a s | Raise e => (Raise e, s) end.
Proof. unfold bind, lift. by destruct r. Qed.

Lemma get_answer_files data s :
  files (snd (get_answer data s))
  = match callback_index data with
    | Return answer_idx =>
        snd (save_questions
               (stored_questions (files s)
                ++ [created (user_data s) (files s) answer_idx])
               (snd (load_questions (files s))))
    | Raise _ => files s
    end.
Proof.
  unfold get_answer. rewrite bind_lift.
  destruct (callback_index data) as [idx|e]; [|done].
  rewrite !bind_slot, bind_io, get_next_question_id_eq. cbn [fst snd].
  rewrite bind_io. cbn [files]. rewrite load_questions_settled. cbn [fst snd].
  rewrite bind_io. cbn [files fst snd user_data].
  rewrite bind_lift. by destruct (subscript_opt _ _).
Qed.

Lemma handle_poll_to_quiz_files data s :
  files (snd (handle_poll_to_quiz data s))
  = if negb (String.prefix "polltoquiz_" data) then files s
    else match callback_index data, poll_to_quiz (user_data s) with
         | Return option_id, Some p =>
             snd (save_questions
                    (stored_questions (files s)
                     ++ [converted p (files s) option_id])
                    (snd (load_questions (files s))))
         | _, _ => files s
         end.
Proof.
  unfold handle_poll_to_quiz.
  destruct (negb (String.prefix "polltoquiz_" data)); [done|].
  rewrite bind_lift.
  destruct (callback_index data) as [idx|e]; [|done].
  rewrite bind_slot. destruct (poll_to_quiz (user_data s)) as [p|]; [|done].
  rewrite bind_io, get_next_question_id_eq. cbn [fst snd].
  rewrite bind_io. cbn [files]. rewrite load_questions_settled. cbn [fst snd].
  rewrite bind_io. done.
Qed.

Lemma handle_edit_answer_files data s :
  files (snd (handle_edit_answer data s))
  = match editanswer_payload data with
    | Some (question_id, new_answer) =>
        snd (load_questions
          (snd (save_questions
               (update_first question_id (set_answer new_answer)
                  (stored_questions (files s)))
               (snd (load_questions (files s))))))
    | None => files s
    end.
Proof.
  unfold handle_edit_answer.
  destruct (editanswer_payload data) as [[k new]|]; [|done].
  rewrite bind_io. cbn [files]. rewrite bind_io. cbn [files].
  rewrite bind_update, bind_io. cbn [files].
  rewrite get_question_by_id_eq. cbn [fst snd].
  rewrite bind_lift. by destruct (iterate _).
Qed.

Lemma handle_edit_options_files message_text s :
  files (snd (handle_edit_options message_text s))
  = let new_options := option_lines message_text in
    if (length new_options <? 2)%nat then files s
    else match editing (user_data s) with
         | None => files s
         | Some e =>
             match List.find (has_id (question_id e)) (stored_questions (files s)) with
             | None => snd (load_questions (files s))
             | Some question =>
                 snd (load_questions
                   (snd (save_questions
                        (update_first (question_id e)
                           (set_options (q_answer question) new_options)
                           (stored_questions (files s)))
                        (snd (load_questions (files s))))))
             end
         end.
Proof.
  unfold handle_edit_options. cbv zeta.
  destruct (length (option_lines message_text) <? 2)%nat; [done|].
  rewrite bind_slot. destruct (editing (user_data s)) as [e|]; [|done].
  rewrite bind_io, get_question_by_id_eq. cbn [fst snd].
  destruct (List.find _ _) as [question|]; [|done].
  rewrite bind_io. cbn [files]. rewrite load_questions_settled. cbn [fst snd].
  rewrite bind_io. cbn [files].
  rewrite bind_update, bind_io. cbn [files].
  rewrite get_question_by_id_eq. cbn [fst snd].
  rewrite bind_lift. by destruct (iterate _).
Qed.

Lemma handle_edit_text_files new_text s :
  files (snd (handle_edit_text new_text s))
  = match editing (user_data s) with
    | None => files s
    | Some e =>
        match List.find (has_id (question_id e)) (stored_questions (files s)) with
        | None => snd (load_questions (files s))
        | Some _ =>
            snd (save_questions
                   (update_first (question_id e) (set_text new_text)
                      (stored_questions (files s)))
                   (snd (load_questions (files s))))
        end
    end.
Proof.
  unfold handle_edit_text.
  rewrite bind_slot. destruct (editing (user_data s)) as [e|]; [|done].
  rewrite bind_io, get_question_by_id_eq. cbn [fst snd].
  destruct (List.find _ _) as [question|]; [|done].
  rewrite bind_io. cbn [files]. rewrite load_questions_settled. cbn [fst snd].
  rewrite bind_io. done.
Qed.

End handler_facts.

(** ** Bounds of the answer index *)

Section bound_facts.
Import Text Py Store Dialog Scenario.

Lemma store_valid_load d : store_valid (snd (load_questions d)) <-> store_valid d.
Proof. unfold store_valid. by rewrite load_questions_again. Qed.

Lemma store_valid_save qs d :
  store_valid d -> forallb valid_question qs = true ->
  store_valid (snd (save_questions qs d)).
Proof.
  unfold store_valid. rewrite save_questions_stored.
  by destruct (writable d).
Qed.

Lemma forallb_snoc {A} (p : A -> bool) (l : list A) (x : A) :
  forallb p l = true -> p x = true -> forallb p (l ++ [x]) = true.
Proof. intros Hl Hx. rewrite forallb_app, Hl. simpl. by rewrite Hx. Qed.

(** The loop changes the record that [get_question_by_id] finds. *)
Lemma forallb_update_first (p : QuizQuestion -> bool) k f qs :
  forallb p qs = true ->
  (forall q, List.find (has_id k) qs = Some q -> p (f q) = true) ->
  forallb p (update_first k f qs) = true.
Proof.
  induction qs as [|q qs IH]; simpl; [done|].
  intros [Hq Hqs]%andb_true_iff Hf. destruct (has_id k q) eqn:E; simpl.
  - rewrite Hqs, (Hf q); done.
  - rewrite Hq. by apply IH.
Qed.

Lemma find_update_first k f qs q :
  (forall q', q_id (f q') = q_id q') ->
  List.find (has_id k) qs = Some q ->
  List.find (has_id k) (update_first k f qs) = Some (f q).
Proof.
  intros Hid. induction qs as [|q0 qs IH]; simpl; [done|].
  destruct (has_id k q0) eqn:E; simpl.
  - intros [= ->]. unfold has_id in *. by rewrite Hid, E.
  - rewrite E. apply IH.
Qed.

Lemma valid_question_bounds q :
  valid_question q = true <->
  exists options, q_options q = Some options
    /\ (2 <= length options)%nat
    /\ 0 <= q_answer q < Z.of_nat (length options).
Proof.
  unfold valid_question. destruct (q_options q) as [options|].
  - rewrite !andb_true_iff, Nat.leb_le, Z.leb_le, Z.ltb_lt. split.
    + intros [[? ?] ?]. by exists options.
    + intros (? & [= <-] & ? & ? & ?). done.
  - split; [done|]. by intros (? & ? & _).
Qed.

Lemma valid_set_options old new_options q :
  (2 <= length new_options)%nat -> 0 <= q_answer q -> old = q_answer q ->
  valid_question (set_options old new_options q) = true.
Proof.
  intros Hlen Hq ->. apply valid_question_bounds. exists new_options.
  split; [done|]. split; [done|]. simpl.
  destruct (Z.geb_spec (q_answer q) (Z.of_nat (length new_options))); lia.
Qed.

(** C1, as the code has it.  From a store in which every record has at
    least two options and an answer index within them:
    - [get_answer] keeps the store so when the index in the callback is
      within the pending options and these are at least two;
    - [handle_poll_to_quiz] keeps it so when the index in the callback is
      within the options of the pending poll and these are at least two;
    - [handle_edit_options] always keeps it so (fewer than two lines
      change nothing, and an index the new list no longer has becomes 0);
    - [handle_edit_answer] keeps it so when the new index is within the
      options of the record it changes;
    - [handle_edit_text] always keeps it so.
    No handler compares the index of a callback with the options. *)
Theorem mutation_paths_keep_store_valid (s : Session) :
  store_valid (files s) ->
  (forall data,
     (forall answer_idx, callback_index data = Return answer_idx ->
        exists options, quiz_options (user_data s) = Some options
          /\ (2 <= length options)%nat
          /\ 0 <= answer_idx < Z.of_nat (length options)) ->
     store_valid (files (snd (get_answer data s))))
  /\ (forall data,
        (forall option_id p, callback_index data = Return option_id ->
           poll_to_quiz (user_data s) = Some p ->
           (2 <= length (poll_options p))%nat
           /\ 0 <= option_id < Z.of_nat (length (poll_options p))) ->
        store_valid (files (snd (handle_poll_to_quiz data s))))
  /\ (forall message_text,
        store_valid (files (snd (handle_edit_options message_text s))))
  /\ (forall data,
        (forall question_id new_answer q options,
           editanswer_payload data = Some (question_id, new_answer) ->
           fst (get_question_by_id question_id (files s)) = Some q ->
           q_options q = Some options ->
           0 <= new_answer < Z.of_nat (length options)) ->
        store_valid (files (snd (handle_edit_answer data s))))
  /\ (forall new_text,
        store_valid (files (snd (handle_edit_text new_text s)))).
Proof.
  intros Hvalid. repeat split.
  - intros data Hidx. rewrite get_answer_files.
    destruct (callback_index data) as [idx|e]; [|done].
    destruct (Hidx idx eq_refl) as (options & Hopts & Hlen & Hrange).
    apply store_valid_save; [by apply store_valid_load|].
    apply forallb_snoc; [done|]. apply valid_question_bounds.
    exists options. repeat split; simpl; try done; lia.
  - intros data Hidx. rewrite handle_poll_to_quiz_files.
    destruct (negb _); [done|].
    destruct (callback_index data) as [idx|e]; [|done].
    destruct (poll_to_quiz (user_data s)) as [p|] eqn:Hp; [|done].
    destruct (Hidx idx p eq_refl eq_refl) as [Hlen Hrange].
    apply store_valid_save; [by apply store_valid_load|].
    apply forallb_snoc; [done|]. apply valid_question_bounds.
    exists (poll_options p). repeat split; simpl; try done; lia.
  - intros message_text. rewrite handle_edit_options_files. cbv zeta.
    destruct (length (option_lines message_text) <? 2)%nat eqn:Hlen; [done|].
    apply Nat.ltb_ge in Hlen.
    destruct (editing (user_data s)) as [e|]; [|done].
    destruct (List.find _ _) as [question|] eqn:Hfind;
      [|by apply store_valid_load].
    apply store_valid_load, store_valid_save; [by apply store_valid_load|].
    apply forallb_update_first; [done|].
    intros q Hq. assert (q = question) as -> by congruence.
    apply valid_set_options; [done| |done].
    apply find_some in Hfind as [Hin _].
    unfold store_valid in Hvalid. rewrite forallb_forall in Hvalid.
    apply Hvalid, valid_question_bounds in Hin as (? & _ & _ & ? & _). done.
  - intros data Hnew. rewrite handle_edit_answer_files.
    destruct (editanswer_payload data) as [[k new]|]; [|done].
    apply store_valid_load, store_valid_save; [by apply store_valid_load|].
    apply forallb_update_first; [done|].
    intros q Hq. pose proof Hq as Hin. apply find_some in Hin as [Hin _].
    unfold store_valid in Hvalid. rewrite forallb_forall in Hvalid.
    apply Hvalid, valid_question_bounds in Hin as (options & Ho & Hlen & _).
    apply valid_question_bounds. exists options. repeat split; [done..| |];
      apply (Hnew k new q options eq_refl); try done;
      by rewrite get_question_by_id_eq.
  - intros new_text. rewrite handle_edit_text_files.
    destruct (editing (user_data s)) as [e|]; [|done].
    destruct (List.find _ _) as [question|] eqn:Hfind;
      [|by apply store_valid_load].
    apply store_valid_save; [by apply store_valid_load|].
    apply forallb_update_first; [done|].
    intros q Hq. apply find_some in Hq as [Hin _].
    unfold store_valid in Hvalid. rewrite forallb_forall in Hvalid.
    by apply Hvalid in Hin.
Qed.

End bound_facts.

Section bound_examples.
Import Text Py Store Dialog Scenario.

(** The theorem at the session of a user who has typed two options and
    presses the second button, [answer_1]. *)
Lemma mutation_paths_keep_store_valid_witness :
  store_valid (files stale_create)
  /\ store_valid (files (snd (get_answer "answer_1" stale_create)))
  /\ store_valid
       (files (snd (handle_edit_options (lines ["one"; "two"]) stale_create))).
Proof.
  assert (store_valid (files stale_create)) as Hvalid by reflexivity.
  destruct (mutation_paths_keep_store_valid stale_create Hvalid)
    as (Hcreate & _ & Hedit & _).
  split; [exact Hvalid|]. split; [|apply Hedit].
  apply Hcreate. intros answer_idx Hidx. exists ["yes"; "no"].
  split; [reflexivity|]. split; [simpl; lia|].
  vm_compute in Hidx. injection Hidx as <-. simpl. lia.
Defined.

(** C1, as the claim states it, fails on three of its paths.  A button of
    an earlier keyboard carries an index that the options now pending, or
    now stored, do not have; the handler stores it as the answer. *)
Lemma stale_button_stores_index_out_of_range :
  (store_valid (files stale_create)
   /\ forallb valid_question
        (stored_questions (files (snd (get_answer "answer_2" stale_create))))
      = false)
  /\ (store_valid (files stale_poll)
      /\ forallb valid_question
           (stored_questions
              (files (snd (handle_poll_to_quiz "polltoquiz_3" stale_poll))))
         = false)
  /\ (store_valid (disk_of stale_edit)
      /\ forallb valid_question
           (stored_questions
              (disk_of (step stale_edit
                          (on_update 1 (handle_edit_answer "editanswer_3_3")))))
         = false).
Proof. repeat split; by vm_compute. Qed.

(** C3, as the code has it.  [handle_edit_options] with at least two
    option lines, for a question that is there, on a writable disk: the
    question then has the new options; its answer is 0 when the old answer
    is greater than or equal to the number of new options, and is the old
    answer otherwise, also when the old answer is negative; id, text and
    category stay. *)
Theorem handle_edit_options_answer_policy
    (s : Session) (message_text : string) (e : Editing) (question : QuizQuestion) :
  writable (files s) = true ->
  editing (user_data s) = Some e ->
  (2 <= length (option_lines message_text))%nat ->
  fst (get_question_by_id (question_id e) (files s)) = Some question ->
  let new_options := option_lines message_text in
  let s' := snd (handle_edit_options message_text s) in
  exists updated,
    fst (get_question_by_id (question_id e) (files s')) = Some updated
    /\ q_options updated = Some new_options
    /\ (Z.of_nat (length new_options) <= q_answer question ->
        q_answer updated = 0)
    /\ (q_answer question < Z.of_nat (length new_options) ->
        q_answer updated = q_answer question)
    /\ q_id updated = q_id question
    /\ q_question updated = q_question question
    /\ q_category updated = q_category question.
Proof.
  intros Hw He Hlen Hfind. cbv zeta.
  rewrite get_question_by_id_eq in Hfind. cbn [fst] in Hfind.
  rewrite handle_edit_options_files. cbv zeta.
  apply Nat.ltb_ge in Hlen. rewrite Hlen, He, Hfind.
  rewrite get_question_by_id_eq. cbn [fst].
  rewrite load_questions_again, save_questions_stored, load_questions_flag, Hw.
  exists (set_options (q_answer question) (option_lines message_text) question).
  split; [by apply find_update_first|]. simpl.
  destruct (Z.geb_spec (q_answer question)
              (Z.of_nat (length (option_lines message_text))));
    repeat split; try done; lia.
Qed.

(** The theorem at the first sample question, whose answer is 2, when it
    is given two new options: the answer becomes 0. *)
Lemma handle_edit_options_answer_policy_witness :
  (q_answer <$> fst (get_question_by_id 1 fresh_disk)) = Some 2
  /\ exists updated,
       fst (get_question_by_id 1
              (files (snd (handle_edit_options (lines ["yes"; "no"])
                             (editing_options 1 fresh_disk)))))
       = Some updated
       /\ q_options updated = Some ["yes"; "no"]
       /\ q_answer updated = 0.
Proof.
  split; [reflexivity|].
  destruct (handle_edit_options_answer_policy
              (editing_options 1 fresh_disk)
              (lines ["yes"; "no"])
              {| question_id := 1; action := "options" |}
              {| q_id := Some 1;
                 q_question := Some "What is the capital of France?";
                 q_options := Some ["Berlin"; "Madrid"; "Paris"; "Rome"];
                 q_answer := 2;
                 q_category := Some "Geography" |})
    as (updated & Hget & Hopts & Hreset & _).
  - reflexivity.
  - reflexivity.
  - vm_compute. lia.
  - reflexivity.
  - exists updated. split; [exact Hget|]. split; [exact Hopts|].
    apply Hreset. vm_compute. discriminate.
Defined.

(** C3, as the claim states it, fails for a stored answer below 0.  The
    question has four options and the stored answer -3; it is given two
    new options.  The index -3 is out of bounds for the new list, also
    when it is counted from the end, and the stored answer stays -3:
    the code tests [old_answer >= len(new_options)] only. *)
Lemma negative_answer_is_not_reset :
  let s := editing_options 1 (disk_with_answer (-3)) in
  let s' := snd (handle_edit_options (lines ["yes"; "no"]) s) in
  (q_answer <$> fst (get_question_by_id 1 (files s))) = Some (-3)
  /\ ~ (0 <= -3 < Z.of_nat (length ["yes"; "no"]))
  /\ subscript ["yes"; "no"] (-3) = Raise IndexError
  /\ (q_options <$> fst (get_question_by_id 1 (files s')))
     = Some (Some ["yes"; "no"])
  /\ (q_answer <$> fst (get_question_by_id 1 (files s'))) = Some (-3).
Proof.
  cbv zeta. split; [by vm_compute|]. split; [simpl; lia|].
  repeat split; by vm_compute.
Qed.



End bound_examples.

(** ** User statistics and quiz rounds *)

Section stats_facts.
Import Text Py Store Dialog Scenario.

Lemma load_users_eq d : load_users d = (stored_users d, d).
Proof. unfold stored_users, load_users. by destruct (USERS_FILE d). Qed.

Lemma save_user_data_stored m d :
  stored_users (snd (save_user_data m d))
  = if writable d then m else stored_users d.
Proof. unfold save_user_data. by destruct (writable d). Qed.

Lemma update_user_stats_stored user_id user_name is_correct d :
  stored_users (snd (update_user_stats user_id user_name is_correct d))
  = if writable d
    then <[pretty user_id :=
             counted user_name is_correct (stored_users d !! pretty user_id)]>
           (stored_users d)
    else stored_users d.
Proof.
  unfold update_user_stats, io_bind. rewrite load_users_eq.
  rewrite save_user_data_stored. destruct (writable d); [|done].
  apply map_eq. intros k.
  destruct (decide (k = pretty user_id)) as [->|Hne].
  - rewrite lookup_insert_eq.
    destruct (stored_users d !! pretty user_id) as [row|] eqn:Hrow;
      destruct is_correct;
      rewrite ?lookup_alter_eq, ?lookup_insert_eq, ?Hrow; simpl;
      unfold counted, bump_correct, bump_total; simpl;
      first [done | do 2 f_equal; lia].
  - rewrite lookup_insert_ne by done.
    destruct (stored_users d !! pretty user_id) as [row|] eqn:Hrow;
      destruct is_correct;
      rewrite ?lookup_alter_ne, ?lookup_insert_ne by done; done.
Qed.

Lemma handle_poll_answer_eq answer s :
  handle_poll_answer answer s
  = let is_correct :=
      bool_decide (head (option_ids answer) = quiz_correct_answer (user_data s)) in
    (Return None,
     {| user_data := user_data s;
        files := snd (update_user_stats (user_id answer) (user_name answer)
                        is_correct (files s));
        sent := sent s ++ [send_message (user_id answer) is_correct] |}).
Proof.
  unfold handle_poll_answer. cbv zeta.
  rewrite (bind_slot quiz_correct_answer), bind_io. done.
Qed.

(** C5, as the code has it.  [handle_poll_answer] for an answer with a
    chosen index, on a writable disk: the row of the user is there
    afterwards (made with zero counts when it was not); its [total] is one
    more than before; its [correct] is one more when the chosen index is
    the index held in the dictionary the handler is given, which is the
    one of the user who answers, and is unchanged otherwise, also when no
    index is held there; the rows of other users are untouched; the reply
    says Correct in exactly the first case; and when
    [0 <= correct <= total] held for all rows before, it holds for all rows
    afterwards. *)
Theorem handle_poll_answer_counts
    (s : Session) (answer : PollAnswer) (chosen : Z) (rest : list Z) :
  writable (files s) = true ->
  option_ids answer = chosen :: rest ->
  let key : string := pretty (user_id answer) in
  let before := stored_users (files s) in
  let s' := snd (handle_poll_answer answer s) in
  let after := stored_users (files s') in
  let hit := bool_decide (Some chosen = quiz_correct_answer (user_data s)) in
  exists row,
    after !! key = Some row
    /\ total row = default 0 (total <$> before !! key) + 1
    /\ correct row
       = default 0 (correct <$> before !! key) + (if hit then 1 else 0)
    /\ (forall k : string, k <> key -> after !! k = before !! k)
    /\ last (sent s') = Some (send_message (user_id answer) hit)
    /\ ((forall (k : string) r, before !! k = Some r -> 0 <= correct r <= total r) ->
        forall (k : string) r, after !! k = Some r -> 0 <= correct r <= total r).
Proof.
  intros Hw Hids. cbv zeta. rewrite handle_poll_answer_eq. cbv zeta.
  cbn [snd files sent]. rewrite update_user_stats_stored, Hw, Hids. cbn [head].
  eexists. split; [apply lookup_insert_eq|]. cbn [total correct counted].
  split; [done|]. split; [done|].
  split; [intros k Hk; by rewrite lookup_insert_ne|].
  split; [apply last_snoc|].
  intros Hinv k r Hr.
  destruct (decide (k = pretty (user_id answer))) as [->|Hne].
  - rewrite lookup_insert_eq in Hr. injection Hr as <-. simpl.
    destruct (stored_users (files s) !! pretty (user_id answer)) as [r0|] eqn:E;
      simpl; [apply Hinv in E|]; destruct (bool_decide _); lia.
  - rewrite lookup_insert_ne in Hr by done. by apply Hinv in Hr.
Qed.

End stats_facts.

Section stats_examples.
Import Text Py Store Dialog Scenario.

(** The theorem at the first answer of user 7 after a round with the
    first sample question. *)
Lemma handle_poll_answer_counts_witness :
  exists row,
    stored_users
      (files (snd (handle_poll_answer first_answer
                     (after (session_on fresh_disk) [play 7 0 11]))))
      !! "7" = Some row
    /\ total row = 1 /\ correct row = 1.
Proof.
  destruct (handle_poll_answer_counts
              (after (session_on fresh_disk) [play 7 0 11]) first_answer 2 [])
    as (row & Hrow & Htotal & Hcorrect & _).
  - reflexivity.
  - reflexivity.
  - exists row. split; [exact Hrow|]. split; [exact Htotal | exact Hcorrect].
Defined.

(** C5, as the claim states it, fails.  User 7 starts a round in the
    group chat 300; the poll is sent with the correct index 2, which is
    the index remembered for the round.  User 8 answers that poll with
    index 2.  The row of user 8 gets [total] 1 and [correct] 0: the index
    is looked for in the dictionary of user 8, which holds none. *)
Lemma correct_answer_to_another_users_round_is_not_counted :
  last_poll_index 300 (outbox group_round) = Some 2
  /\ (quiz_correct_answer <$> sessions group_round !! 7) = Some (Some 2)
  /\ poll_chat answer_of_8 = 300
  /\ option_ids answer_of_8 = [2]
  /\ stored_users (disk_of (answered answer_of_8 group_round)) !! "8"
     = Some {| name := "@bob"; correct := 0; total := 1 |}.
Proof. repeat split; by vm_compute. Qed.

(** C9, as the code has it.  After an answer event on a writable disk the
    row of the user holds the display name of the event that made the row:
    the name of this event when there was no row, and the name already
    stored otherwise. *)
Theorem handle_poll_answer_keeps_first_name (s : Session) (answer : PollAnswer) :
  writable (files s) = true ->
  let key : string := pretty (user_id answer) in
  let before := stored_users (files s) in
  let after := stored_users (files (snd (handle_poll_answer answer s))) in
  exists row,
    after !! key = Some row
    /\ (before !! key = None -> name row = user_name answer)
    /\ (forall old, before !! key = Some old -> name row = name old).
Proof.
  intros Hw. cbv zeta. rewrite handle_poll_answer_eq. cbv zeta. cbn [snd files].
  rewrite update_user_stats_stored, Hw.
  eexists. split; [apply lookup_insert_eq|]. cbn [name counted].
  split; [by intros ->|]. by intros old ->.
Qed.

(** The theorem at the later answer of user 7, whose row exists. *)
Lemma handle_poll_answer_keeps_first_name_witness :
  exists row,
    stored_users
      (files (snd (handle_poll_answer later_answer
                     (after (session_on fresh_disk)
                        [play 7 0 11; handle_poll_answer first_answer]))))
      !! "7" = Some row
    /\ name row = "@alice".
Proof.
  destruct (handle_poll_answer_keeps_first_name
              (after (session_on fresh_disk)
                 [play 7 0 11; handle_poll_answer first_answer]) later_answer)
    as (row & Hrow & _ & Hold).
  - reflexivity.
  - exists row. split; [exact Hrow|].
    apply (Hold {| name := "@alice"; correct := 1; total := 1 |}).
    by vm_compute.
Defined.

(** C9, as the claim states it, fails: user 7 answers as [@alice] and
    then as [@alicia]; the stored name is still [@alice]. *)
Lemma stored_name_is_not_last_seen :
  user_name later_answer = "@alicia"
  /\ name <$> (stored_users
                 (disk_of (answered later_answer
                             (answered first_answer
                                (steps fresh_bot [on_play 7 7 0 11])))) !! "7")
     = Some "@alice"
  /\ total <$> (stored_users
                  (disk_of (answered later_answer
                              (answered first_answer
                                 (steps fresh_bot [on_play 7 7 0 11])))) !! "7")
     = Some 2.
Proof. repeat split; by vm_compute. Qed.

Lemma dispatch_other {A} (u v : Z) (h : Handler A) (b : Bot) :
  v <> u -> sessions (snd (dispatch v h b)) !! u = sessions b !! u.
Proof.
  intros Hne. unfold dispatch. destruct (h _) as [r s']. simpl.
  by rewrite lookup_insert_ne.
Qed.

Lemma step_other (u : Z) (b : Bot) (ev : event) :
  sender ev <> Some u -> sessions (step b ev) !! u = sessions b !! u.
Proof.
  destruct ev; simpl; intros Hne; try done;
    apply dispatch_other; congruence.
Qed.

(** Updates of other users leave a user's dictionary as it is. *)
Lemma steps_others (u : Z) (evs : list event) (b : Bot) :
  Forall (fun ev => sender ev <> Some u) evs ->
  sessions (steps b evs) !! u = sessions b !! u.
Proof.
  revert b. induction evs as [|ev evs IH]; intros b Hall; [done|].
  apply Forall_cons in Hall as [Hev Hall]. simpl.
  rewrite IH by done. by apply step_other.
Qed.

Lemma play_remembers chat_id pick message_id s q :
  stored_questions (files s)
    !! (pick mod length (stored_questions (files s)))%nat = Some q ->
  quiz_correct_answer (user_data (snd (play chat_id pick message_id s)))
  = Some (q_answer q).
Proof.
  intros Hq. unfold play. rewrite bind_io. cbn [fst].
  change (fst (load_questions (files s))) with (stored_questions (files s)).
  by rewrite Hq.
Qed.

(** With the registration of [main], an update that carries a poll answer
    changes nothing, and one that carries a poll makes the handler raise
    and changes nothing either. *)
Lemma poll_updates_change_nothing (b : Bot) (answer : PollAnswer) :
  step b (on_poll_answer answer) = b
  /\ (forall s, poll_handler None s = (Raise OtherError, s))
  /\ step b on_poll = b.
Proof. split; [done|]. split; [done|]. by destruct b. Qed.

(** C7, as the code has it.  The index a round remembers is kept in the
    dictionary of the user who started it, whatever was kept there before,
    and [handle_poll_answer] compares an answer with the index in the
    dictionary of the user who answers.  So when user [u] starts a round
    with question [q], and then only other users send updates, the index
    kept for [u] is the answer of [q], and an answer of [u] is judged
    against it, whichever chat the answered poll was sent to. *)
Theorem answer_checked_against_own_last_round
    (b : Bot) (u chat_id : Z) (pick : nat) (message_id : Z)
    (q : QuizQuestion) (others : list event) (answer : PollAnswer) :
  stored_questions (disk_of b)
    !! (pick mod length (stored_questions (disk_of b)))%nat = Some q ->
  Forall (fun ev => sender ev <> Some u) others ->
  user_id answer = u ->
  let b' := steps b (on_play u chat_id pick message_id :: others) in
  (quiz_correct_answer <$> sessions b' !! u) = Some (Some (q_answer q))
  /\ last_verdict (outbox (answered answer b'))
     = Some (bool_decide (head (option_ids answer) = Some (q_answer q))).
Proof.
  intros Hq Hothers Hu. cbv zeta. unfold steps. cbn [fold_left].
  fold (steps (step b (on_play u chat_id pick message_id)) others).
  set (b1 := step b (on_play u chat_id pick message_id)).
  set (b2 := steps b1 others).
  assert (sessions b2 !! u
          = Some (user_data (snd (play chat_id pick message_id
                    {| user_data := default no_data (sessions b !! u);
                       files := disk_of b; sent := outbox b |})))) as Hsess.
  { unfold b2. rewrite steps_others by done. unfold b1, step, dispatch.
    destruct (play _ _ _ _) as [r s']. simpl. apply lookup_insert_eq. }
  split.
  - rewrite Hsess. cbn [fmap option_fmap option_map].
    by rewrite (play_remembers _ _ _ _ q).
  - unfold answered, dispatch. rewrite handle_poll_answer_eq. cbv zeta.
    cbn [snd outbox sent user_data]. unfold last_verdict.
    rewrite last_snoc, Hu, Hsess. cbn [default id].
    by rewrite (play_remembers _ _ _ _ q).
Qed.

(** The theorem for user 7, who plays the first sample question in chat
    100 while user 8 plays in chat 200, and then answers with index 2. *)
Lemma answer_checked_against_own_last_round_witness :
  last_verdict
    (outbox (answered answer_in_100
               (steps fresh_bot (on_play 7 100 0 11 :: [on_play 8 200 1 12]))))
  = Some true.
Proof.
  apply (answer_checked_against_own_last_round fresh_bot 7 100 0 11
           {| q_id := Some 1;
              q_question := Some "What is the capital of France?";
              q_options := Some ["Berlin"; "Madrid"; "Paris"; "Rome"];
              q_answer := 2;
              q_category := Some "Geography" |}
           [on_play 8 200 1 12] answer_in_100).
  - reflexivity.
  - apply Forall_cons. split; [simpl; congruence | apply Forall_nil_2].
  - reflexivity.
Defined.

(** C7, as the claim states it, fails.  User 7 has a round in chat 100
    with correct index 2 and a later one in chat 200 with correct index 1;
    the answer 2 to the poll of chat 100 is judged wrong.  And in a group:
    user 7 starts a round in chat 300, user 8 answers it with the correct
    index 2 and is judged wrong, no index being remembered for user 8. *)
Lemma rounds_are_not_kept_per_chat :
  (last_poll_index 100 (outbox two_rounds) = Some 2
   /\ poll_chat answer_in_100 = 100
   /\ head (option_ids answer_in_100) = Some 2
   /\ last_verdict (outbox (answered answer_in_100 two_rounds)) = Some false)
  /\ (last_poll_index 300 (outbox group_round) = Some 2
      /\ poll_chat answer_of_8 = 300
      /\ head (option_ids answer_of_8) = Some 2
      /\ last_verdict (outbox (answered answer_of_8 group_round)) = Some false).
Proof. repeat split; by vm_compute. Qed.

End stats_examples.

(** ** Option lines *)

Section option_line_facts.
Import Text Py Store Dialog Scenario.



End option_line_facts.

(** ** The import adapter *)

Section adapter_facts.
Import Text Py Adapter.
Context (w : World).

Local Open Scope flow_scope.

Lemma defaulted_next : answer_defaulted Next.
Proof. by intros d. Qed.

Lemma defaulted_raises e : answer_defaulted (Raises e).
Proof. by intros d. Qed.

Lemma defaulted_none : answer_defaulted (Returns None).
Proof. by intros d. Qed.

Lemma defaulted_draft q opts : answer_defaulted (Returns (Some (draft q opts))).
Proof. by intros d [= <-]. Qed.

Lemma defaulted_and_then a b :
  answer_defaulted a -> answer_defaulted b -> answer_defaulted (run a; b).
Proof. by destruct a. Qed.

Lemma defaulted_call {A} (c : result A) k :
  (forall x, answer_defaulted (k x)) -> answer_defaulted (do x <- c; k x).
Proof. destruct c; simpl; [done|]. intros _. apply defaulted_raises. Qed.

Lemma defaulted_try a h :
  answer_defaulted a -> answer_defaulted h -> answer_defaulted (try_except a h).
Proof. by destruct a. Qed.

Lemma defaulted_if (c : bool) a b :
  answer_defaulted a -> answer_defaulted b ->
  answer_defaulted (if c then a else b).
Proof. by destruct c. Qed.

Create HintDb defaulted.
#[local] Hint Resolve defaulted_next defaulted_raises defaulted_none
  defaulted_draft defaulted_and_then defaulted_call defaulted_try
  defaulted_if : defaulted.

Ltac defaulted :=
  repeat first
    [ progress eauto with defaulted
    | apply defaulted_and_then
    | apply defaulted_call; intros ?
    | apply defaulted_try
    | apply defaulted_if
    | match goal with
      | |- answer_defaulted (match ?x with _ => _ end) => destruct x
      end ].

Lemma quiz_of_message_defaulted message :
  answer_defaulted (quiz_of_message w message).
Proof. unfold quiz_of_message. defaulted. Qed.

Lemma get_quiz_message_defaulted channel_name message_id d :
  get_quiz_message w channel_name message_id = Return (Some d) ->
  d_answer d = 0.
Proof.
  unfold get_quiz_message. destruct (client_enter w); [|done].
  assert (answer_defaulted
            (try_except
               (do message <- get_messages w channel_name message_id;
                match message with
                | Some m => quiz_of_message w m
                | None => Next
                end)
               (Returns None))) as H.
  { defaulted. apply quiz_of_message_defaulted. }
  destruct (try_except _ _) as [|r|e]; destruct (client_exit w); try done.
  intros [= ->]. by apply H.
Qed.

Lemma method_pyrogram_defaulted url : answer_defaulted (method_pyrogram w url).
Proof.
  unfold method_pyrogram. apply defaulted_call. intros _.
  destruct (re_search_channel w url) as [[channel_name digits]|]; [|defaulted].
  apply defaulted_call. intros message_id.
  destruct (get_quiz_message w channel_name message_id) as [[d|]|e] eqn:E;
    simpl; [|defaulted..].
  intros d' [= <-]. by apply get_quiz_message_defaulted in E.
Qed.

Lemma embedded_view_defaulted channel_name message_id :
  answer_defaulted (embedded_view w channel_name message_id).
Proof. unfold embedded_view. defaulted. Qed.

Lemma method_meta_defaulted content : answer_defaulted (method_meta w content).
Proof. unfold method_meta. defaulted. Qed.

Lemma method_scrape_defaulted url : answer_defaulted (method_scrape w url).
Proof.
  unfold method_scrape. apply defaulted_call. intros content.
  apply defaulted_and_then; [defaulted|].
  apply defaulted_and_then.
  - apply defaulted_if; [|defaulted].
    destruct (re_search_channel w url) as [[channel_name message_id]|];
      [|defaulted].
    apply defaulted_try; [apply embedded_view_defaulted | defaulted].
  - apply defaulted_try; [apply method_meta_defaulted | defaulted].
Qed.

Lemma parse_body_defaulted url : answer_defaulted (parse_body w url).
Proof.
  unfold parse_body. apply defaulted_if; [defaulted|].
  apply defaulted_and_then.
  - apply defaulted_if; [|defaulted].
    apply defaulted_try; [apply method_pyrogram_defaulted | defaulted].
  - apply defaulted_and_then; [|defaulted].
    apply defaulted_try; [apply method_scrape_defaulted | defaulted].
Qed.

(** C8.  Whatever the environment, the network, the regular expressions
    and the parsers do, raising included, [parse_telegram_quiz_url]
    returns: either [None] or a draft with a question, options and the
    answer 0.  It does not raise. *)
Theorem parse_telegram_quiz_url_never_raises (url : string) :
  parse_telegram_quiz_url w url = Return None
  \/ exists question options,
       parse_telegram_quiz_url w url
       = Return (Some {| d_question := question; d_options := options;
                         d_answer := 0 |}).
Proof.
  unfold parse_telegram_quiz_url.
  pose proof (parse_body_defaulted url) as H.
  destruct (parse_body w url) as [|[d|]|e]; simpl; try by left.
  right. specialize (H d eq_refl). destruct d as [q opts a].
  simpl in H. subst a. by exists q, opts.
Qed.

End adapter_facts.

(** ** Distinct ids *)

Section distinct_ids.
Import Text Py Store Dialog.

(** The id handed out is above every id in the store. *)
Lemma next_id_of_fresh (qs : list QuizQuestion) :
  Some (next_id_of qs) ∉ map q_id qs.
Proof.
  intros (q & Hid & Hq)%list_elem_of_fmap.
  assert (qs <> []) as Hne by (intros ->; by apply elem_of_nil in Hq).
  destruct (next_id_of_witness qs Hne) as (m & _ & Hub & Hnext).
  specialize (Hub q Hq). unfold id_or_0 in Hub at 1.
  rewrite <- Hid in Hub. simpl in Hub. lia.
Qed.

(** Appending a record with the next id keeps the ids distinct. *)
Lemma append_keeps_ids_distinct (qs : list QuizQuestion) (q : QuizQuestion) :
  q_id q = Some (next_id_of qs) ->
  NoDup (map q_id qs) -> NoDup (map q_id (qs ++ [q])).
Proof.
  intros Hid Hnd. rewrite map_app. apply NoDup_app. split; [done|]. split.
  - intros x Hx [->|[]%elem_of_nil]%elem_of_cons.
    rewrite Hid in Hx. by apply next_id_of_fresh in Hx.
  - apply NoDup_singleton.
Qed.

(** The edit loops leave every id as it is. *)
Lemma update_first_ids k f (qs : list QuizQuestion) :
  (forall q, q_id (f q) = q_id q) ->
  map q_id (update_first k f qs) = map q_id qs.
Proof.
  intros Hid. induction qs as [|q qs IH]; simpl; [done|].
  destruct (has_id k q); simpl; by rewrite ?Hid, ?IH.
Qed.

(** Deleting keeps the ids distinct. *)
Lemma filter_keeps_ids_distinct (p : QuizQuestion -> bool) (qs : list QuizQuestion) :
  NoDup (map q_id qs) -> NoDup (map q_id (List.filter p qs)).
Proof.
  induction qs as [|q qs IH]; simpl; [done|].
  intros [Hq Hnd]%NoDup_cons. destruct (p q); simpl; [|by apply IH].
  apply NoDup_cons. split; [|by apply IH].
  intros (q' & Hid & Hq')%list_elem_of_fmap. apply Hq.
  apply list_elem_of_fmap. exists q'. split; [done|].
  apply list_elem_of_In in Hq'. apply filter_In in Hq' as [Hq' _].
  by apply list_elem_of_In.
Qed.

Lemma ids_distinct_save qs d :
  NoDup (map q_id (stored_questions d)) -> NoDup (map q_id qs) ->
  NoDup (map q_id (stored_questions (snd (save_questions qs d)))).
Proof. rewrite save_questions_stored. by destruct (writable d). Qed.

(** X10.  The ids stay distinct along every path that writes the store:
    [get_answer], [handle_poll_to_quiz], the three edit handlers and
    [delete_question_by_id] turn a store with distinct ids into one with
    distinct ids, whatever the callback data or the message. *)
Lemma mutation_paths_keep_ids_distinct (s : Session) :
  NoDup (map q_id (stored_questions (files s))) ->
  (forall data,
     NoDup (map q_id (stored_questions (files (snd (get_answer data s))))))
  /\ (forall data,
        NoDup (map q_id
                 (stored_questions (files (snd (handle_poll_to_quiz data s))))))
  /\ (forall message_text,
        NoDup (map q_id
                 (stored_questions
                    (files (snd (handle_edit_options message_text s))))))
  /\ (forall data,
        NoDup (map q_id
                 (stored_questions (files (snd (handle_edit_answer data s))))))
  /\ (forall new_text,
        NoDup (map q_id
                 (stored_questions (files (snd (handle_edit_text new_text s))))))
  /\ (forall k,
        NoDup (map q_id
                 (stored_questions (snd (delete_question_by_id k (files s)))))).
Proof.
  intros Hnd.
  assert (NoDup (map q_id (stored_questions (snd (load_questions (files s))))))
    as Hnd' by (by rewrite load_questions_again).
  repeat split.
  - intros data. rewrite get_answer_files.
    destruct (callback_index data); [|done].
    apply ids_distinct_save; [done|]. by apply append_keeps_ids_distinct.
  - intros data. rewrite handle_poll_to_quiz_files.
    destruct (negb _); [done|].
    destruct (callback_index data); [|done].
    destruct (poll_to_quiz (user_data s)); [|done].
    apply ids_distinct_save; [done|]. by apply append_keeps_ids_distinct.
  - intros message_text. rewrite handle_edit_options_files. cbv zeta.
    destruct (_ <? _)%nat; [done|].
    destruct (editing (user_data s)); [|done].
    destruct (List.find _ _); [|done].
    rewrite load_questions_again. apply ids_distinct_save; [done|].
    by rewrite update_first_ids.
  - intros data. rewrite handle_edit_answer_files.
    destruct (editanswer_payload data) as [[k new]|]; [|done].
    rewrite load_questions_again. apply ids_distinct_save; [done|].
    by rewrite update_first_ids.
  - intros new_text. rewrite handle_edit_text_files.
    destruct (editing (user_data s)); [|done].
    destruct (List.find _ _); [|done].
    apply ids_distinct_save; [done|]. by rewrite update_first_ids.
  - intros k. rewrite delete_question_by_id_stored.
    destruct (writable (files s)); [|done].
    by apply filter_keeps_ids_distinct.
Qed.

(** [get_options] lets the dialog go on only with two options or more. *)
Lemma get_options_stores_two_or_more message_text s s' :
  get_options message_text s = (Return (Some ANSWER), s') ->
  exists options,
    quiz_options (user_data s') = Some options /\ (2 <= length options)%nat.
Proof.
  unfold get_options.
  destruct (length (option_lines message_text) <? 2)%nat eqn:E; [done|].
  apply Nat.ltb_ge in E. intros [= <-]. by eexists.
Qed.

End distinct_ids.

(** ** Scenarios *)

Section scenarios.
Import Text Py Store Dialog Scenario.

(** A single option keeps the dialog in [OPTIONS] and changes nothing. *)
Example one_option_is_asked_again s :
  get_options "OnlyOne" s = (Return (Some OPTIONS), s).
Proof. done. Qed.

(** Create flow: question, three options, second button. *)
Example create_flow_appends :
  stored_questions
    (files (after (session_on (disk_with_ids [1; 2; 5]))
              [ get_question "What is 2+2?";
                get_options (lines ["3"; "4"; "5"]);
                get_answer "answer_1" ]))
  = (map record_with_id [1; 2; 5]
     ++ [ {| q_id := Some 6;
             q_question := Some "What is 2+2?";
             q_options := Some ["3"; "4"; "5"];
             q_answer := 1;
             q_category := Some "User Created" |} ])%list.
Proof. by vm_compute. Qed.

(** A first use seeds the two sample questions; the first new id is 3. *)
Example fresh_disk_is_seeded :
  fst (get_next_question_id fresh_disk) = 3
  /\ QUESTIONS_FILE (snd (get_next_question_id fresh_disk))
     = Holds sample_questions.
Proof. done. Qed.

(** A round with the first sample question: the answer 2 is correct and
    counts for both numbers, a later answer 0 counts for [total] only. *)
Example round_counts :
  let b := answered
             {| poll_chat := 7; user_id := 7; user_name := "@alice";
                option_ids := [0] |}
             (answered first_answer (steps fresh_bot [on_play 7 7 0 11])) in
  outbox b
  = [ send_poll 7 (Some ["Berlin"; "Madrid"; "Paris"; "Rome"]) 2;
      send_message 7 true; send_message 7 false ]
  /\ stored_users (disk_of b) !! "7"
     = Some {| name := "@alice"; correct := 1; total := 2 |}.
Proof. by vm_compute. Qed.

(** The adapter gives [None] when everything fails and a draft with
    answer 0 when the page shows a poll. *)
Example adapter_outcomes :
  Adapter.parse_telegram_quiz_url failing_world "https://t.me/quiz/12"
  = Return None
  /\ Adapter.parse_telegram_quiz_url poll_page_world "https://t.me/quiz/12"
     = Return (Some {| Adapter.d_question := "Up or down?";
                       Adapter.d_options := ["Up"; "Down"];
                       Adapter.d_answer := 0 |}).
Proof. by vm_compute. Qed.

End scenarios.

(** ** [int] reads back what [str] writes *)

Section int_str_facts.
Import Text Py Store Dialog Buttons.

Lemma digit_of_pretty_char (d : N) :
  (d < 10)%N -> digit_of (pretty_N_char d) = Some (Z.of_N d).
Proof.
  intros Hd. rewrite <- (N2Nat.id d) in Hd |- *.
  generalize dependent (N.to_nat d). intros n Hn.
  do 10 (destruct n as [|n]; [reflexivity|]). lia.
Qed.

Lemma digit_not_space c : is_Some (digit_of c) -> int_isspace c = false.
Proof.
  unfold digit_of, int_isspace. intros [d Hd].
  destruct ((48 <=? N_of_ascii c)%N && (N_of_ascii c <=? 57)%N) eqn:E;
    [|done].
  apply andb_true_iff in E as [E1%N.leb_le E2%N.leb_le].
  repeat (apply orb_false_iff; split); rewrite ?andb_false_iff,
    ?N.leb_gt, ?N.eqb_neq; lia.
Qed.

Lemma digit_not_underscore c :
  is_Some (digit_of c) -> Ascii.eqb c underscore = false.
Proof.
  unfold digit_of. intros [d Hd]. apply Ascii.eqb_neq. intros ->.
  by vm_compute in Hd.
Qed.

(** [pretty_N_go] only puts digits in front. *)
Lemma pretty_N_go_digits (x : N) (s : string) :
  all_digits s = true -> all_digits (pretty_N_go x s) = true.
Proof.
  revert s. induction (N.lt_wf_0 x) as [x _ IH]. intros s Hs.
  destruct (decide (x = 0)%N) as [->|Hx]; [by rewrite pretty_N_go_0|].
  rewrite pretty_N_go_step by lia. apply IH.
  - apply N.div_lt; lia.
  - simpl. rewrite Hs, andb_true_r. apply bool_decide_eq_true.
    rewrite digit_of_pretty_char by (apply N.mod_lt; lia). by eexists.
Qed.

Lemma pretty_N_go_nonempty (x : N) (s : string) :
  (0 < x)%N \/ s <> EmptyString -> pretty_N_go x s <> EmptyString.
Proof.
  revert s. induction (N.lt_wf_0 x) as [x _ IH]. intros s Hs.
  destruct (decide (x = 0)%N) as [->|Hx].
  - rewrite pretty_N_go_0. destruct Hs; [lia|done].
  - rewrite pretty_N_go_step by lia. apply IH; [apply N.div_lt; lia|].
    by right.
Qed.

(** Reading the digits of [x] in front of [s] shifts the number read so
    far and adds [x]. *)
Lemma digits_from_pretty (x : N) :
  exists m, forall acc s,
    digits_from acc (pretty_N_go x s) = digits_from (acc * m + Z.of_N x) s.
Proof.
  induction (N.lt_wf_0 x) as [x _ IH].
  destruct (decide (x = 0)%N) as [->|Hx].
  - exists 1. intros acc s. rewrite pretty_N_go_0. f_equal. lia.
  - destruct (IH (x `div` 10)%N) as [m Hm]; [apply N.div_lt; lia|].
    exists (m * 10). intros acc s. rewrite pretty_N_go_step by lia.
    rewrite Hm. cbn [digits_from].
    rewrite digit_of_pretty_char by (apply N.mod_lt; lia).
    f_equal. rewrite N2Z.inj_div, N2Z.inj_mod.
    pose proof (Z.div_mod (Z.of_N x) 10). change (Z.of_N 10) with 10. lia.
Qed.

Lemma unsigned_literal_digits (t : string) :
  t <> EmptyString -> all_digits t = true ->
  unsigned_literal t = digits_from 0 t.
Proof.
  destruct t as [|c r]; [done|]. intros _ [Hc _]%andb_true_iff.
  apply bool_decide_eq_true in Hc as [d Hd]. simpl. by rewrite Hd.
Qed.

Lemma rstrip_digits (t : string) : all_digits t = true -> int_rstrip t = t.
Proof.
  induction t as [|c r IH]; [done|]. intros [Hc Hr]%andb_true_iff.
  apply bool_decide_eq_true in Hc. cbn [int_rstrip]. rewrite (IH Hr).
  destruct r; [|done]. by rewrite digit_not_space.
Qed.

Lemma strip_digits (t : string) : all_digits t = true -> int_strip t = t.
Proof.
  intros Ht. unfold int_strip. destruct t as [|c r]; [done|].
  pose proof Ht as [Hc _]%andb_true_iff. apply bool_decide_eq_true in Hc.
  cbn [int_lstrip]. rewrite digit_not_space by done. by apply rstrip_digits.
Qed.

Lemma py_int_digits (t : string) :
  t <> EmptyString -> all_digits t = true -> py_int t = unsigned_literal t.
Proof.
  intros Hne Ht. unfold py_int. rewrite strip_digits by done.
  destruct t as [|c r]; [done|].
  apply andb_true_iff in Ht as [Hc _]. apply bool_decide_eq_true in Hc.
  destruct c as [[] [] [] [] [] [] [] []];
    first [reflexivity | by destruct Hc as [? [=]]].
Qed.

Lemma py_int_minus_digits (t : string) :
  t <> EmptyString -> all_digits t = true ->
  py_int (String "-" t) = Z.opp <$> unsigned_literal t.
Proof.
  intros Hne Ht. unfold py_int, int_strip. cbn [int_lstrip].
  change (int_isspace "-") with false. cbn [int_rstrip].
  rewrite rstrip_digits by done. by destruct t.
Qed.

(** [str.strip] removes the separator U+001C, [int] does not skip it. *)
Example int_does_not_skip_separators :
  strip (String "028" "1") = "1"
  /\ py_int (String "028" "1") = None
  /\ py_int (String "032" "1") = Some 1
  /\ callback_index ("answer_" +:+ String "028" "0") = Raise ValueError.
Proof. repeat split; by vm_compute. Qed.

Lemma pretty_N_digits (x : N) :
  pretty x <> EmptyString /\ all_digits (pretty x) = true
  /\ unsigned_literal (pretty x) = Some (Z.of_N x).
Proof.
  unfold pretty, pretty_N. destruct (decide (x = 0)%N) as [->|Hx]; [done|].
  assert (pretty_N_go x "" <> EmptyString) as Hne
    by (apply pretty_N_go_nonempty; left; lia).
  assert (all_digits (pretty_N_go x "") = true) as Hd
    by (by apply pretty_N_go_digits).
  split; [done|]. split; [done|].
  rewrite unsigned_literal_digits by done.
  destruct (digits_from_pretty x) as [m Hm]. rewrite Hm.
  cbn [digits_from]. f_equal.
Qed.

End int_str_facts.

Section keyboard_facts.
Import Text Py Store Dialog Buttons.

(** [int(str(z))] is [z]. *)
Lemma py_int_str_of_int (z : Z) : py_int (str_of_int z) = Some z.
Proof.
  unfold str_of_int, pretty, pretty_Z. destruct z as [|p|p]; [done| |].
  - destruct (pretty_N_digits (N.pos p)) as (Hne & Hd & Hu).
    unfold pretty at 1, pretty_positive. by rewrite py_int_digits.
  - destruct (pretty_N_digits (N.pos p)) as (Hne & Hd & Hu).
    unfold pretty at 1, pretty_positive.
    change ("-" +:+ pretty (N.pos p)) with (String "-" (pretty (N.pos p))).
    rewrite py_int_minus_digits by done. by rewrite Hu.
Qed.

Lemma digits_no_underscore (t : string) :
  all_digits t = true -> py_in "_" t = false.
Proof.
  induction t as [|c r IH]; [done|]. intros [Hc Hr]%andb_true_iff.
  apply bool_decide_eq_true in Hc. rewrite py_in_char, (IH Hr).
  destruct (ascii_dec "_" c) as [<-|]; [|done].
  by destruct Hc as [? [=]].
Qed.

Lemma str_of_int_no_underscore (z : Z) : py_in "_" (str_of_int z) = false.
Proof.
  unfold str_of_int, pretty, pretty_Z. destruct z as [|p|p]; [done| |].
  - apply digits_no_underscore, pretty_N_digits.
  - change ("-" +:+ pretty p) with (String "-" (pretty p)).
    rewrite py_in_char. cbn [orb].
    destruct (ascii_dec "_" "-") as [[=]|_].
    apply digits_no_underscore, (pretty_N_digits (N.pos p)).
Qed.

(** A string without the separator is one piece. *)
Lemma py_split_one sep (t : string) :
  py_in (String sep EmptyString) t = false -> py_split sep t = [t].
Proof.
  induction t as [|c r IH]; [done|]. rewrite py_in_char.
  intros [Hc Hr]%orb_false_iff. cbn [py_split].
  destruct (Ascii.eqb_spec c sep) as [->|_].
  - by destruct (ascii_dec sep sep).
  - by rewrite (IH Hr).
Qed.

(** The piece before the first separator is split off. *)
Lemma py_split_app sep (a b : string) :
  py_in (String sep EmptyString) a = false ->
  py_split sep (a +:+ String sep b) = a :: py_split sep b.
Proof.
  induction a as [|c r IH].
  - intros _. rewrite append_nil. cbn [py_split]. by rewrite Ascii.eqb_refl.
  - rewrite py_in_char. intros [Hc Hr]%orb_false_iff.
    rewrite append_cons. cbn [py_split].
    destruct (Ascii.eqb_spec c sep) as [->|_].
    + by destruct (ascii_dec sep sep).
    + by rewrite (IH Hr).
Qed.

Lemma append_assoc (a b c : string) : (a +:+ b) +:+ c = a +:+ (b +:+ c).
Proof.
  induction a as [|x a IH]; [done|]. by rewrite !append_cons, IH.
Qed.

Lemma callback_index_button (word : string) (i : Z) :
  py_in "_" word = false ->
  callback_index (word +:+ String underscore (str_of_int i)) = Return i.
Proof.
  intros Hword. unfold callback_index.
  rewrite py_split_app by done.
  rewrite py_split_one by apply str_of_int_no_underscore.
  change (subscript [word; str_of_int i] 1) with (Return (str_of_int i)).
  unfold int_of. by rewrite py_int_str_of_int.
Qed.

Lemma editanswer_payload_button (word : string) (question_id i : Z) :
  py_in "_" word = false ->
  editanswer_payload
    ((word +:+ String underscore
                 (str_of_int question_id +:+ String underscore EmptyString))
     +:+ str_of_int i)
  = Some (question_id, i).
Proof.
  intros Hword. unfold editanswer_payload.
  rewrite append_assoc, append_cons, py_split_app by done.
  rewrite append_assoc, append_cons, append_nil.
  rewrite py_split_app by apply str_of_int_no_underscore.
  rewrite py_split_one by apply str_of_int_no_underscore.
  by rewrite !py_int_str_of_int.
Qed.

Lemma indexed_buttons_lookup {A} prefix (options : list A) (i : nat) :
  indexed_buttons prefix options !! i
  = (fun _ => prefix +:+ str_of_int (Z.of_nat i)) <$> options !! i.
Proof. unfold indexed_buttons. apply list_lookup_imap. Qed.

(** X1.  The keyboard that [get_options], [handle_quiz_url] and
    [save_forward] show has one button per option, and the callback data
    of button [i] is read back by [get_answer] as the index [i]. *)
Theorem answer_keyboard_reads_back (options : list string) (i : nat) :
  (i < length options)%nat ->
  length (answer_keyboard options) = length options
  /\ exists data,
       answer_keyboard options !! i = Some data
       /\ callback_index data = Return (Z.of_nat i).
Proof.
  intros Hi. split; [apply length_imap|].
  destruct (lookup_lt_is_Some_2 options i Hi) as [opt Hopt].
  eexists. unfold answer_keyboard.
  rewrite indexed_buttons_lookup, Hopt. split; [done|].
  by apply (callback_index_button "answer").
Qed.

(** The theorem at the third button of a keyboard for three options. *)
Lemma answer_keyboard_reads_back_witness :
  exists data,
    answer_keyboard ["3"; "4"; "5"] !! 2%nat = Some data
    /\ callback_index data = Return 2.
Proof.
  destruct (answer_keyboard_reads_back ["3"; "4"; "5"] 2) as [_ H].
  - simpl. lia.
  - exact H.
Defined.

(** X2.  The keyboard that [handle_message] shows under a forwarded poll
    has one button per option; the callback data of button [i] passes the
    prefix test of [handle_poll_to_quiz] and is read back as [i]. *)
Theorem polltoquiz_keyboard_reads_back (options : list string) (i : nat) :
  (i < length options)%nat ->
  length (polltoquiz_keyboard options) = length options
  /\ exists data,
       polltoquiz_keyboard options !! i = Some data
       /\ String.prefix "polltoquiz_" data = true
       /\ callback_index data = Return (Z.of_nat i).
Proof.
  intros Hi. split; [apply length_imap|].
  destruct (lookup_lt_is_Some_2 options i Hi) as [opt Hopt].
  eexists. unfold polltoquiz_keyboard.
  rewrite indexed_buttons_lookup, Hopt. split; [done|]. split.
  - apply prefix_correct. change (String.length "polltoquiz_") with 11%nat.
    by destruct (str_of_int (Z.of_nat i)).
  - by apply (callback_index_button "polltoquiz").
Qed.

(** The theorem at the fourth button under a poll with four options. *)
Lemma polltoquiz_keyboard_reads_back_witness :
  exists data,
    polltoquiz_keyboard ["a"; "b"; "c"; "d"] !! 3%nat = Some data
    /\ String.prefix "polltoquiz_" data = true
    /\ callback_index data = Return 3.
Proof.
  destruct (polltoquiz_keyboard_reads_back ["a"; "b"; "c"; "d"] 3) as [_ H].
  - simpl. lia.
  - exact H.
Defined.

(** X3.  The keyboard that [handle_edit_selection] shows for the action
    [answer] has one button per option; [handle_edit_answer] reads the
    callback data of button [i] back as the question id and the index
    [i], whatever the id, negative ids included. *)
Theorem editanswer_keyboard_reads_back
    (question_id : Z) (options : list string) (i : nat) :
  (i < length options)%nat ->
  length (editanswer_keyboard question_id options) = length options
  /\ exists data,
       editanswer_keyboard question_id options !! i = Some data
       /\ editanswer_payload data = Some (question_id, Z.of_nat i).
Proof.
  intros Hi. split; [apply length_imap|].
  destruct (lookup_lt_is_Some_2 options i Hi) as [opt Hopt].
  eexists. unfold editanswer_keyboard.
  rewrite indexed_buttons_lookup, Hopt. split; [done|].
  exact (editanswer_payload_button "editanswer" question_id (Z.of_nat i)
           eq_refl).
Qed.

(** The theorem at the second button for question 3 with two options. *)
Lemma editanswer_keyboard_reads_back_witness :
  exists data,
    editanswer_keyboard 3 ["yes"; "no"] !! 1%nat = Some data
    /\ editanswer_payload data = Some (3, 1).
Proof.
  destruct (editanswer_keyboard_reads_back 3 ["yes"; "no"] 1) as [_ H].
  - simpl. lia.
  - exact H.
Defined.

End keyboard_facts.

(** ** The create and conversion flows, end to end *)

Section flow_facts.
Import Text Py Store Dialog Buttons.

Local Open Scope handler_scope.

(** What [get_answer] does once the index is read. *)
Lemma get_answer_eq data s answer_idx :
  callback_index data = Return answer_idx ->
  get_answer data s
  = let d := snd (save_questions
                    (stored_questions (files s)
                     ++ [created (user_data s) (files s) answer_idx])
                    (snd (load_questions (files s)))) in
    match subscript_opt (quiz_options (user_data s)) answer_idx with
    | Return _ =>
        (Return (Some END),
         {| user_data := no_data; files := d; sent := sent s |})
    | Raise e =>
        (Raise e, {| user_data := user_data s; files := d; sent := sent s |})
    end.
Proof.
  intros Hidx. unfold get_answer. rewrite bind_lift, Hidx.
  rewrite !bind_slot, bind_io, get_next_question_id_eq. cbn [fst snd].
  rewrite bind_io. cbn [files]. rewrite load_questions_settled. cbn [fst snd].
  rewrite bind_io. cbn [files fst snd user_data sent].
  rewrite bind_lift. cbv zeta. by destruct (subscript_opt _ _).
Qed.

Lemma subscript_in_range {A} (xs : list A) (i : nat) :
  (i < length xs)%nat -> exists x, subscript xs (Z.of_nat i) = Return x.
Proof.
  intros Hi. unfold subscript.
  destruct (Z.ltb_spec (Z.of_nat i) 0); [lia|].
  destruct (Z.leb_spec 0 (Z.of_nat i)); [|lia].
  destruct (Z.ltb_spec (Z.of_nat i) (Z.of_nat (length xs))); [|lia].
  cbn [andb]. rewrite Nat2Z.id.
  destruct (lookup_lt_is_Some_2 xs i Hi) as [x ->]. by exists x.
Qed.

Lemma find_snoc_fresh k (qs : list QuizQuestion) (q : QuizQuestion) :
  List.find (has_id k) (qs ++ [q])
  = match List.find (has_id k) qs with
    | Some q' => Some q'
    | None => if has_id k q then Some q else None
    end.
Proof.
  induction qs as [|q0 qs IH]; simpl; [done|]. by destruct (has_id k q0).
Qed.

Lemma find_fresh_none (qs : list QuizQuestion) :
  List.find (has_id (next_id_of qs)) qs = None.
Proof.
  destruct (List.find _ _) as [q|] eqn:E; [|done].
  apply find_some in E as [Hin Hid]. apply has_id_true in Hid.
  destruct (next_id_of_fresh qs). rewrite <- Hid.
  apply list_elem_of_fmap. exists q. split; [done|]. by apply list_elem_of_In.
Qed.

(** X4.  The create flow with the keyboard it has just shown.  When
    [get_options] accepts the message and the user presses button [i] of
    the keyboard built from the accepted options, [get_answer] does not
    raise, ends the dialog and empties the user's dictionary.  On a
    writable disk the store is then the old store followed by one record:
    the next id, the pending question text, the accepted options, the
    answer [i] and the category [User Created]; and a store that was valid
    stays valid. *)
Theorem create_flow_with_shown_keyboard
    (s s1 : Session) (message_text data : string) (i : nat) :
  get_options message_text s = (Return (Some ANSWER), s1) ->
  answer_keyboard (option_lines message_text) !! i = Some data ->
  fst (get_answer data s1) = Return (Some END)
  /\ user_data (snd (get_answer data s1)) = no_data
  /\ (writable (files s) = true ->
      stored_questions (files (snd (get_answer data s1)))
      = (stored_questions (files s)
         ++ [ {| q_id := Some (next_id_of (stored_questions (files s)));
                 q_question := quiz_question (user_data s);
                 q_options := Some (option_lines message_text);
                 q_answer := Z.of_nat i;
                 q_category := Some "User Created" |} ])%list)
  /\ (store_valid (files s) -> store_valid (files (snd (get_answer data s1)))).
Proof.
  unfold get_options.
  destruct (length (option_lines message_text) <? 2)%nat eqn:Hlen; [done|].
  apply Nat.ltb_ge in Hlen. intros [= <-] Hdata.
  unfold answer_keyboard in Hdata. rewrite indexed_buttons_lookup in Hdata.
  destruct (option_lines message_text !! i) as [opt|] eqn:Hopt; [|done].
  apply lookup_lt_Some in Hopt. injection Hdata as <-.
  rewrite (get_answer_eq _ _ (Z.of_nat i))
    by (by apply (callback_index_button "answer")).
  cbv zeta. cbn [user_data files sent quiz_options set_quiz_options].
  cbn [subscript_opt].
  destruct (subscript_in_range (option_lines message_text) i Hopt) as [x ->].
  cbn [fst snd user_data files]. split; [done|]. split; [done|]. split.
  - intros Hw. by rewrite save_questions_stored, load_questions_flag, Hw.
  - intros Hvalid. apply store_valid_save; [by apply store_valid_load|].
    apply forallb_snoc; [done|]. apply valid_question_bounds.
    exists (option_lines message_text). simpl. repeat split; try done; lia.
Qed.

End flow_facts.

Section flow_examples.
Import Text Py Store Dialog Buttons Scenario.

Local Open Scope handler_scope.

(** The theorem for a user who has typed a question and three options
    and presses the second button. *)
Lemma create_flow_with_shown_keyboard_witness :
  fst (get_answer "answer_1"
         (after (session_on fresh_disk)
            [get_question "What is 2+2?"; get_options (lines ["3"; "4"; "5"])]))
  = Return (Some END)
  /\ store_valid
       (files (snd (get_answer "answer_1"
          (after (session_on fresh_disk)
             [get_question "What is 2+2?";
              get_options (lines ["3"; "4"; "5"])])))).
Proof.
  destruct (create_flow_with_shown_keyboard
              (after (session_on fresh_disk) [get_question "What is 2+2?"])
              (after (session_on fresh_disk)
                 [get_question "What is 2+2?";
                  get_options (lines ["3"; "4"; "5"])])
              (lines ["3"; "4"; "5"]) "answer_1" 1)
    as (Hret & _ & _ & Hvalid).
  - reflexivity.
  - reflexivity.
  - split; [exact Hret|]. apply Hvalid. reflexivity.
Defined.

(** What [handle_poll_to_quiz] does once the index is read and a poll is
    pending. *)
Lemma handle_poll_to_quiz_eq data s option_id p :
  String.prefix "polltoquiz_" data = true ->
  callback_index data = Return option_id ->
  poll_to_quiz (user_data s) = Some p ->
  handle_poll_to_quiz data s
  = (Return None,
     {| user_data := set_poll_to_quiz None (user_data s);
        files := snd (save_questions
                        (stored_questions (files s)
                         ++ [converted p (files s) option_id])
                        (snd (load_questions (files s))));
        sent := sent s |}).
Proof.
  intros Hprefix Hidx Hp. unfold handle_poll_to_quiz.
  rewrite Hprefix. cbn [negb]. rewrite bind_lift, Hidx, bind_slot, Hp.
  rewrite bind_io, get_next_question_id_eq. cbn [fst snd].
  rewrite bind_io. cbn [files]. rewrite load_questions_settled. cbn [fst snd].
  rewrite bind_io. done.
Qed.

(** X5.  The poll conversion with the keyboard it has just shown.  After
    [handle_message] has taken a forwarded poll, pressing button [i] of the
    keyboard under it makes [handle_poll_to_quiz] return without raising
    and forget the pending poll.  On a writable disk the store is then the
    old store followed by one record: the next id, the question and the
    options of the poll, the answer [i] and the category [Converted Poll];
    and when the poll has two options or more, a store that was valid
    stays valid. *)
Theorem poll_conversion_with_shown_keyboard
    (s : Session) (p : PollDraft) (data : string) (i : nat) :
  polltoquiz_keyboard (poll_options p) !! i = Some data ->
  let s1 := snd (handle_message (Some p) s) in
  let s2 := snd (handle_poll_to_quiz data s1) in
  fst (handle_poll_to_quiz data s1) = Return None
  /\ poll_to_quiz (user_data s2) = None
  /\ (writable (files s) = true ->
      stored_questions (files s2)
      = (stored_questions (files s)
         ++ [ {| q_id := Some (next_id_of (stored_questions (files s)));
                 q_question := Some (poll_question p);
                 q_options := Some (poll_options p);
                 q_answer := Z.of_nat i;
                 q_category := Some "Converted Poll" |} ])%list)
  /\ ((2 <= length (poll_options p))%nat ->
      store_valid (files s) -> store_valid (files s2)).
Proof.
  intros Hdata. cbv zeta.
  unfold polltoquiz_keyboard in Hdata. rewrite indexed_buttons_lookup in Hdata.
  destruct (poll_options p !! i) as [opt|] eqn:Hopt; [|done].
  apply lookup_lt_Some in Hopt. injection Hdata as <-.
  change (snd (handle_message (Some p) s))
    with {| user_data := set_poll_to_quiz (Some p) (user_data s);
            files := files s; sent := sent s |}.
  rewrite (handle_poll_to_quiz_eq _ _ (Z.of_nat i) p);
    [| by destruct (str_of_int (Z.of_nat i))
     | by apply (callback_index_button "polltoquiz")
     | done ].
  cbn [fst snd user_data files]. split; [done|]. split; [done|]. split.
  - intros Hw. by rewrite save_questions_stored, load_questions_flag, Hw.
  - intros Hlen Hvalid.
    apply store_valid_save; [by apply store_valid_load|].
    apply forallb_snoc; [done|]. apply valid_question_bounds.
    exists (poll_options p). simpl. repeat split; try done; lia.
Qed.

(** The theorem at the third button under a forwarded poll with four
    options. *)
Lemma poll_conversion_with_shown_keyboard_witness :
  fst (handle_poll_to_quiz "polltoquiz_2"
         (snd (handle_message (Some poll4) (session_on fresh_disk))))
  = Return None
  /\ store_valid
       (files (snd (handle_poll_to_quiz "polltoquiz_2"
          (snd (handle_message (Some poll4) (session_on fresh_disk)))))).
Proof.
  destruct (poll_conversion_with_shown_keyboard
              (session_on fresh_disk) poll4 "polltoquiz_2" 2)
    as (Hret & _ & _ & Hvalid).
  - reflexivity.
  - split; [exact Hret|]. apply Hvalid; [simpl; lia | reflexivity].
Defined.

Lemma get_question_by_id_fst k d :
  fst (get_question_by_id k d) = List.find (has_id k) (stored_questions d).
Proof. by rewrite get_question_by_id_eq. Qed.

Lemma has_id_other k j q : q_id q = Some j -> k <> j -> has_id k q = false.
Proof.
  intros Hq Hne. unfold has_id. apply bool_decide_eq_false. congruence.
Qed.

(** X6.  A question that [get_answer] has stored can be looked up.  On a
    writable disk, once the index of the callback is read, the id handed
    out was not in the store before; afterwards [get_question_by_id] for
    that id returns the new record, every other id is looked up as before,
    and the store has one record more.  This holds also when the handler
    then raises while it builds its reply. *)
Theorem created_question_is_found (s : Session) (data : string) (answer_idx : Z) :
  writable (files s) = true ->
  callback_index data = Return answer_idx ->
  let d' := files (snd (get_answer data s)) in
  let new_id := next_id_of (stored_questions (files s)) in
  fst (get_question_by_id new_id (files s)) = None
  /\ fst (get_question_by_id new_id d')
     = Some (created (user_data s) (files s) answer_idx)
  /\ (forall k, k <> new_id ->
      fst (get_question_by_id k d') = fst (get_question_by_id k (files s)))
  /\ length (stored_questions d') = S (length (stored_questions (files s))).
Proof.
  intros Hw Hidx. cbv zeta. rewrite get_answer_files, Hidx.
  rewrite !get_question_by_id_fst.
  rewrite save_questions_stored, load_questions_flag, Hw.
  split; [apply find_fresh_none|]. split; [|split].
  - rewrite find_snoc_fresh, find_fresh_none.
    unfold has_id, created. cbn [q_id]. by rewrite bool_decide_eq_true_2.
  - intros k Hk. rewrite !get_question_by_id_fst.
    rewrite save_questions_stored, load_questions_flag, Hw, find_snoc_fresh.
    destruct (List.find _ _); [done|].
    by rewrite (has_id_other k (next_id_of (stored_questions (files s)))).
  - rewrite length_app. simpl. lia.
Qed.

(** The theorem for the stale button of the scenario above: the record
    is stored and found although the handler raises. *)
Lemma created_question_is_found_witness :
  fst (get_answer "answer_2" stale_create) = Raise IndexError
  /\ fst (get_question_by_id 3 (files (snd (get_answer "answer_2" stale_create))))
     = Some {| q_id := Some 3; q_question := Some "Second";
               q_options := Some ["yes"; "no"]; q_answer := 2;
               q_category := Some "User Created" |}.
Proof.
  destruct (created_question_is_found stale_create "answer_2" 2)
    as (_ & Hfound & _).
  - reflexivity.
  - reflexivity.
  - split; [reflexivity | exact Hfound].
Defined.

End flow_examples.

(** ** Looking up after deleting and editing *)

Section frame_facts.
Import Text Py Store Dialog Buttons Scenario.

Local Open Scope handler_scope.

Lemma find_filter_other k j (qs : list QuizQuestion) :
  j <> k ->
  List.find (has_id j) (List.filter (fun q => negb (has_id k q)) qs)
  = List.find (has_id j) qs.
Proof.
  intros Hne. induction qs as [|q qs IH]; simpl; [done|].
  destruct (has_id k q) eqn:Ek; simpl.
  - apply has_id_true in Ek. by rewrite (has_id_other j k q).
  - by rewrite IH.
Qed.

(** X7.  Deleting one id leaves every other id as it was:
    [get_question_by_id] for an id other than the deleted one returns
    after [delete_question_by_id] what it returned before, whether or not
    the write went through. *)
Theorem delete_question_by_id_keeps_others (d : disk) (k j : Z) :
  j <> k ->
  fst (get_question_by_id j (snd (delete_question_by_id k d)))
  = fst (get_question_by_id j d).
Proof.
  intros Hne. rewrite !get_question_by_id_fst, delete_question_by_id_stored.
  destruct (writable d); [|done]. by apply find_filter_other.
Qed.

(** The theorem at the store with ids 1, 2 and 5: question 2 is still
    there after 5 is deleted. *)
Lemma delete_question_by_id_keeps_others_witness :
  fst (get_question_by_id 2
         (snd (delete_question_by_id 5 (disk_with_ids [1; 2; 5]))))
  = Some (record_with_id 2).
Proof.
  rewrite (delete_question_by_id_keeps_others (disk_with_ids [1; 2; 5]) 5 2).
  - reflexivity.
  - discriminate.
Defined.

Lemma find_update_first_other k j f (qs : list QuizQuestion) :
  (forall q, q_id (f q) = q_id q) ->
  j <> k ->
  List.find (has_id j) (update_first k f qs) = List.find (has_id j) qs.
Proof.
  intros Hid Hne. induction qs as [|q qs IH]; simpl; [done|].
  destruct (has_id k q) eqn:Ek; simpl.
  - apply has_id_true in Ek.
    rewrite !(has_id_other j k) by (by rewrite ?Hid). done.
  - by rewrite IH.
Qed.

Lemma update_first_none k f (qs : list QuizQuestion) :
  List.find (has_id k) qs = None -> update_first k f qs = qs.
Proof.
  induction qs as [|q qs IH]; simpl; [done|].
  destruct (has_id k q); [done|]. intros H. by rewrite IH.
Qed.

Lemma update_first_same_length k f (qs : list QuizQuestion) :
  length (update_first k f qs) = length qs.
Proof.
  induction qs as [|q qs IH]; simpl; [done|].
  destruct (has_id k q); simpl; by rewrite ?IH.
Qed.

Lemma handle_edit_text_eq new_text s e question :
  editing (user_data s) = Some e ->
  List.find (has_id (question_id e)) (stored_questions (files s)) = Some question ->
  handle_edit_text new_text s
  = (Return (Some END),
     {| user_data := set_editing None (user_data s);
        files := snd (save_questions
                        (update_first (question_id e) (set_text new_text)
                           (stored_questions (files s)))
                        (snd (load_questions (files s))));
        sent := sent s |}).
Proof.
  intros He Hfind. unfold handle_edit_text. rewrite bind_slot, He.
  rewrite bind_io, get_question_by_id_eq. cbn [fst snd]. rewrite Hfind.
  rewrite bind_io. cbn [files]. rewrite load_questions_settled. cbn [fst snd].
  rewrite bind_io. done.
Qed.

(** X8.  [handle_edit_text] for a question that is there, on a writable
    disk: the dialog ends, the editing slot is cleared, the question is
    afterwards looked up with the new text and its other fields as they
    were, every other id is looked up as before, and the number of records
    is the same. *)
Theorem handle_edit_text_changes_one_text
    (s : Session) (new_text : string) (e : Editing) (question : QuizQuestion) :
  writable (files s) = true ->
  editing (user_data s) = Some e ->
  fst (get_question_by_id (question_id e) (files s)) = Some question ->
  let s' := snd (handle_edit_text new_text s) in
  fst (handle_edit_text new_text s) = Return (Some END)
  /\ editing (user_data s') = None
  /\ fst (get_question_by_id (question_id e) (files s'))
     = Some {| q_id := q_id question; q_question := Some new_text;
               q_options := q_options question; q_answer := q_answer question;
               q_category := q_category question |}
  /\ (forall k, k <> question_id e ->
      fst (get_question_by_id k (files s')) = fst (get_question_by_id k (files s)))
  /\ length (stored_questions (files s')) = length (stored_questions (files s)).
Proof.
  intros Hw He Hfind. cbv zeta. rewrite get_question_by_id_fst in Hfind.
  rewrite (handle_edit_text_eq _ _ e question) by done.
  cbn [fst snd user_data files]. split; [done|]. split; [done|].
  split; [|split].
  - rewrite get_question_by_id_fst.
    rewrite save_questions_stored, load_questions_flag, Hw.
    by apply (find_update_first _ (set_text new_text)).
  - intros k Hk. rewrite !get_question_by_id_fst.
    rewrite save_questions_stored, load_questions_flag, Hw.
    by apply find_update_first_other.
  - rewrite save_questions_stored, load_questions_flag, Hw.
    apply update_first_same_length.
Qed.

(** The theorem at the store with ids 1, 2 and 5, for the text of 2. *)
Lemma handle_edit_text_changes_one_text_witness :
  q_question <$>
    fst (get_question_by_id 2
           (files (snd (handle_edit_text "New text"
              {| user_data :=
                   set_editing
                     (Some {| question_id := 2; action := "question" |}) no_data;
                 files := disk_with_ids [1; 2; 5]; sent := [] |}))))
  = Some (Some "New text").
Proof.
  destruct (handle_edit_text_changes_one_text
              {| user_data :=
                   set_editing
                     (Some {| question_id := 2; action := "question" |}) no_data;
                 files := disk_with_ids [1; 2; 5]; sent := [] |}
              "New text" {| question_id := 2; action := "question" |}
              (record_with_id 2))
    as (_ & _ & Hfound & _).
  - reflexivity.
  - reflexivity.
  - reflexivity.
  - exact (f_equal (fmap q_question) Hfound).
Defined.

Lemma handle_edit_answer_eq data s k new_answer :
  editanswer_payload data = Some (k, new_answer) ->
  handle_edit_answer data s
  = let d1 := snd (load_questions
                (snd (save_questions
                        (update_first k (set_answer new_answer)
                           (stored_questions (files s)))
                        (snd (load_questions (files s)))))) in
    let s' := {| user_data := set_editing None (user_data s);
                 files := d1; sent := sent s |} in
    match iterate (List.find (has_id k) (stored_questions d1) ≫= q_options) with
    | Return _ => (Return (Some END), s')
    | Raise e => (Raise e, s')
    end.
Proof.
  intros Hdata. unfold handle_edit_answer. rewrite Hdata.
  rewrite bind_io. cbn [files]. rewrite bind_io. cbn [files].
  rewrite bind_update, bind_io. cbn [files user_data sent].
  rewrite get_question_by_id_eq. cbn [fst snd].
  rewrite bind_lift. cbv zeta. rewrite load_questions_again.
  by destruct (iterate _).
Qed.

(** X9.  [handle_edit_answer] with a payload of the form
    [editanswer_<id>_<index>].  When the id is in the store and the disk
    is writable, the dialog ends and the record is afterwards looked up
    with the new answer and its other fields as they were.  When the id is
    not in the store, the stored questions stay as they were and the
    handler raises [TypeError] while it builds its reply.  In both cases
    the editing slot is cleared. *)
Theorem handle_edit_answer_found_or_raises
    (s : Session) (data : string) (k new_answer : Z) :
  editanswer_payload data = Some (k, new_answer) ->
  let s' := snd (handle_edit_answer data s) in
  editing (user_data s') = None
  /\ (forall question,
        writable (files s) = true ->
        fst (get_question_by_id k (files s)) = Some question ->
        q_options question <> None ->
        fst (handle_edit_answer data s) = Return (Some END)
        /\ fst (get_question_by_id k (files s'))
           = Some {| q_id := q_id question; q_question := q_question question;
                     q_options := q_options question; q_answer := new_answer;
                     q_category := q_category question |})
  /\ (fst (get_question_by_id k (files s)) = None ->
      fst (handle_edit_answer data s) = Raise TypeError
      /\ stored_questions (files s') = stored_questions (files s)).
Proof.
  intros Hdata. cbv zeta. rewrite (handle_edit_answer_eq _ _ k new_answer) by done.
  cbv zeta. rewrite load_questions_again.
  set (d0 := snd (save_questions _ (snd (load_questions (files s))))).
  split; [by destruct (iterate _)|]. split.
  - intros question Hw Hfind Hopts. rewrite get_question_by_id_fst in Hfind.
    assert (stored_questions d0
            = update_first k (set_answer new_answer) (stored_questions (files s)))
      as Hd0 by (unfold d0;
                 by rewrite save_questions_stored, load_questions_flag, Hw).
    rewrite Hd0, (find_update_first _ _ _ question) by done.
    cbn [mbind option_bind set_answer q_options].
    destruct (q_options question) eqn:Eo; [|done]. cbn [iterate fst snd files].
    split; [done|]. rewrite get_question_by_id_fst, load_questions_again, Hd0.
    rewrite (find_update_first _ _ _ question) by done.
    unfold set_answer. by rewrite Eo.
  - intros Hnone. rewrite get_question_by_id_fst in Hnone.
    assert (stored_questions d0 = stored_questions (files s)) as Hd0.
    { unfold d0. rewrite save_questions_stored, load_questions_flag.
      rewrite update_first_none by done.
      destruct (writable (files s)); [done | apply load_questions_again]. }
    rewrite Hd0, Hnone. cbn [mbind option_bind iterate fst snd files].
    split; [done|]. by rewrite load_questions_again.
Qed.

(** The theorem at the store with ids 1, 2 and 5 and a payload for the
    id 9, which is not there. *)
Lemma handle_edit_answer_found_or_raises_witness :
  fst (handle_edit_answer "editanswer_9_1" (session_on (disk_with_ids [1; 2; 5])))
  = Raise TypeError
  /\ stored_questions
       (files (snd (handle_edit_answer "editanswer_9_1"
                      (session_on (disk_with_ids [1; 2; 5])))))
     = map record_with_id [1; 2; 5].
Proof.
  destruct (handle_edit_answer_found_or_raises
              (session_on (disk_with_ids [1; 2; 5])) "editanswer_9_1" 9 1)
    as (_ & _ & Hmissing).
  - reflexivity.
  - destruct Hmissing as [Hraise Hsame]; [reflexivity|].
    split; [exact Hraise | exact Hsame].
Defined.

End frame_facts.

Section more_store_examples.
Import Text Py Store Dialog Buttons Scenario Listing.

(** The theorem at the seeded store. *)
Lemma mutation_paths_keep_ids_distinct_witness :
  NoDup (map q_id
           (stored_questions
              (files (snd (get_answer "answer_1" stale_create))))).
Proof.
  destruct (mutation_paths_keep_ids_distinct stale_create) as (Hcreate & _).
  - apply (bool_decide_unpack _). by vm_compute.
  - apply Hcreate.
Defined.

Lemma py_split_join sep (pieces : list string) :
  pieces <> [] ->
  Forall (fun piece => py_in (String sep EmptyString) piece = false) pieces ->
  py_split sep (py_join sep pieces) = pieces.
Proof.
  induction pieces as [|p rest IH]; [done|]. intros _ Hall.
  apply Forall_cons in Hall as [Hp Hrest]. destruct rest as [|h t].
  - by apply py_split_one.
  - rewrite py_join_cons, py_split_app by done. by rewrite IH.
Qed.

Lemma lstrip_no_sep sep (l : string) :
  py_in (String sep EmptyString) l = false ->
  py_in (String sep EmptyString) (lstrip l) = false.
Proof.
  induction l as [|c r IH]; [done|]. intros H. cbn [lstrip].
  destruct (py_isspace c); [|done].
  rewrite py_in_char in H. apply orb_false_iff in H as [_ H]. by apply IH.
Qed.

Lemma rstrip_no_sep sep (l : string) :
  py_in (String sep EmptyString) l = false ->
  py_in (String sep EmptyString) (rstrip l) = false.
Proof.
  induction l as [|c r IH]; [done|]. rewrite py_in_char.
  intros [Hc Hr]%orb_false_iff. cbn [rstrip]. specialize (IH Hr).
  destruct (rstrip r) as [|c' r'] eqn:E.
  - destruct (py_isspace c); [done|]. by rewrite py_in_char, Hc.
  - by rewrite py_in_char, Hc, IH.
Qed.

Lemma lstrip_trimmed (l : string) : starts_with_space l = false -> lstrip l = l.
Proof. destruct l as [|c r]; [done|]. simpl. by intros ->. Qed.

Lemma rstrip_trimmed (l : string) : ends_with_space l = false -> rstrip l = l.
Proof.
  induction l as [|c r IH]; [done|]. cbn [rstrip ends_with_space].
  destruct r as [|c' r'].
  - simpl. by intros ->.
  - intros H. by rewrite (IH H).
Qed.

Lemma strip_of_trimmed (l : string) : trimmed l = true -> strip l = l.
Proof.
  unfold trimmed, strip.
  intros [H1%negb_true_iff H2%negb_true_iff]%andb_true_iff.
  by rewrite lstrip_trimmed, rstrip_trimmed.
Qed.

Lemma option_lines_no_line_feed (message_text : string) :
  Forall (fun opt => py_in (String LF EmptyString) opt = false)
         (option_lines message_text).
Proof.
  unfold option_lines.
  pose proof (py_split_no_sep LF message_text) as H.
  induction (py_split LF message_text) as [|l ls IH]; simpl; [done|].
  apply Forall_cons in H as [Hl Hls].
  destruct (truthy (strip l)); simpl; [|by apply IH].
  apply Forall_cons. split; [|by apply IH].
  unfold strip. by apply rstrip_no_sep, lstrip_no_sep.
Qed.

Lemma option_lines_of_clean (options : list string) :
  Forall (fun opt => truthy opt = true /\ trimmed opt = true) options ->
  map strip (List.filter (fun opt => truthy (strip opt)) options) = options.
Proof.
  induction options as [|o os IH]; [done|].
  intros [[Ht Hs] Hos]%Forall_cons. simpl.
  rewrite (strip_of_trimmed o Hs), Ht. simpl.
  by rewrite (strip_of_trimmed o Hs), IH.
Qed.

(** X11.  The options that [get_options] or [handle_edit_options] took
    from a message survive being shown and sent back: joined by line feeds,
    as [handle_edit_selection] shows the current options, and read again
    as an options message, they are the same list. *)
Theorem option_lines_of_joined_options (message_text : string) :
  option_lines (py_join LF (option_lines message_text))
  = option_lines message_text.
Proof.
  destruct (option_lines message_text) as [|o os] eqn:E; [done|].
  rewrite <- E. unfold option_lines at 1.
  rewrite py_split_join;
    [| by rewrite E | apply option_lines_no_line_feed].
  apply option_lines_of_clean, option_lines_each.
Qed.

Lemma update_user_stats_flag user_id user_name is_correct d :
  writable (snd (update_user_stats user_id user_name is_correct d)) = writable d.
Proof.
  unfold update_user_stats, io_bind. rewrite load_users_eq.
  unfold save_user_data. by destruct (writable d) eqn:E.
Qed.

(** The row of the user after a run of answers. *)
Lemma answer_all_row user_id user_name v (verdicts : list bool) (d : disk) :
  writable d = true ->
  stored_users (answer_all user_id user_name (v :: verdicts) d)
    !! str_of_int user_id
  = Some {| name := default user_name
                      (name <$> stored_users d !! str_of_int user_id);
            correct := default 0
                         (correct <$> stored_users d !! str_of_int user_id)
                       + Z.of_nat (length (List.filter (fun b => b) (v :: verdicts)));
            total := default 0
                       (total <$> stored_users d !! str_of_int user_id)
                     + Z.of_nat (length (v :: verdicts)) |}.
Proof.
  revert v d. induction verdicts as [|v' rest IH]; intros v d Hw.
  - cbn [answer_all]. rewrite update_user_stats_stored, Hw.
    unfold str_of_int. rewrite lookup_insert_eq. unfold counted.
    f_equal. f_equal; destruct v; simpl; lia.
  - change (answer_all user_id user_name (v :: v' :: rest) d)
      with (answer_all user_id user_name (v' :: rest)
              (snd (update_user_stats user_id user_name v d))).
    rewrite IH by (by rewrite update_user_stats_flag).
    rewrite update_user_stats_stored, Hw.
    unfold str_of_int. rewrite lookup_insert_eq. unfold counted.
    cbn [fmap option_fmap option_map default name correct total].
    unfold id. set (tail := v' :: rest).
    change (List.filter (fun b : bool => b) (v :: tail))
      with (if v then v :: List.filter (fun b : bool => b) tail
            else List.filter (fun b : bool => b) tail).
    f_equal. f_equal; destruct v; cbn [length]; lia.
Qed.

Lemma answer_all_other user_id user_name (verdicts : list bool) (d : disk)
    (k : string) :
  k <> str_of_int user_id ->
  stored_users (answer_all user_id user_name verdicts d) !! k
  = stored_users d !! k.
Proof.
  intros Hk. revert d. induction verdicts as [|v rest IH]; intros d; [done|].
  cbn [answer_all]. rewrite IH, update_user_stats_stored.
  destruct (writable d); [|done]. by rewrite lookup_insert_ne.
Qed.

(** X12.  The counters count.  After one call of [update_user_stats] per
    verdict for one user, on a writable disk, the user's [total] has grown
    by the number of verdicts and [correct] by the number of verdicts that
    are [True]; the name is the stored one, or the given one when there
    was no row; [stats_command] then reports these two numbers; the rows
    of other users are as before. *)
Theorem update_user_stats_counts
    (d : disk) (user_id : Z) (user_name : string) (v : bool)
    (verdicts : list bool) :
  writable d = true ->
  let old := stored_users d !! str_of_int user_id in
  let d' := answer_all user_id user_name (v :: verdicts) d in
  let hits := Z.of_nat (length (List.filter (fun b => b) (v :: verdicts))) in
  let all := Z.of_nat (length (v :: verdicts)) in
  stored_users d' !! str_of_int user_id
  = Some {| name := default user_name (name <$> old);
            correct := default 0 (correct <$> old) + hits;
            total := default 0 (total <$> old) + all |}
  /\ fst (stats_command user_id d')
     = Some (default 0 (total <$> old) + all, default 0 (correct <$> old) + hits)
  /\ (forall k : string, k <> str_of_int user_id ->
      stored_users d' !! k = stored_users d !! k).
Proof.
  intros Hw. cbv zeta. split; [by apply answer_all_row|]. split.
  - unfold stats_command. rewrite load_users_eq.
    by rewrite answer_all_row.
  - intros k Hk. by apply answer_all_other.
Qed.

(** The theorem for three answers of user 7, two of them correct. *)
Lemma update_user_stats_counts_witness :
  fst (stats_command 7 (answer_all 7 "@alice" [true; false; true] fresh_disk))
  = Some (3, 2).
Proof.
  destruct (update_user_stats_counts fresh_disk 7 "@alice" true [false; true])
    as (_ & Hstats & _).
  - reflexivity.
  - exact Hstats.
Defined.

End more_store_examples.

(** ** Rounds and the edit menu *)

Section round_facts.
Import Text Py Store Dialog Buttons Scenario.

Local Open Scope handler_scope.

(** X13.  [play] leaves the stored questions alone and, the transport
    permitting, returns without raising.  With an empty store it only
    replies that no question is available: it sends no poll and remembers
    nothing.  Otherwise it sends exactly one poll, for a question of the
    store, with that question's options and answer as the correct option,
    and remembers that answer, the question's id and the id of the
    message.  The log [sent] holds the polls and the feedback messages;
    text replies are not part of it. *)
Theorem play_sends_what_it_remembers
    (chat_id : Z) (pick : nat) (message_id : Z) (s : Session) :
  let questions := stored_questions (files s) in
  let s' := snd (play chat_id pick message_id s) in
  fst (play chat_id pick message_id s) = Return None
  /\ stored_questions (files s') = questions
  /\ match questions !! (pick mod length questions)%nat with
     | None =>
         questions = [] /\ user_data s' = user_data s /\ sent s' = sent s
     | Some q =>
         q ∈ questions
         /\ sent s' = (sent s ++ [send_poll chat_id (q_options q) (q_answer q)])%list
         /\ quiz_correct_answer (user_data s') = Some (q_answer q)
         /\ quiz_question_id (user_data s') = q_id q
         /\ quiz_message_id (user_data s') = Some message_id
     end.
Proof.
  cbv zeta. unfold play. rewrite bind_io. cbn [fst].
  change (fst (load_questions (files s))) with (stored_questions (files s)).
  destruct (stored_questions (files s) !! _) as [q|] eqn:Hq.
  - cbn. rewrite load_questions_again. repeat split; try done.
    by apply list_elem_of_lookup_2 in Hq.
  - cbn. rewrite load_questions_again. repeat split; try done.
    apply lookup_ge_None in Hq.
    destruct (stored_questions (files s)) as [|q0 qs]; [done|].
    pose proof (Nat.mod_upper_bound pick (length (q0 :: qs))). simpl in *. lia.
Qed.

Lemma handle_edit_selection_stored chat_id data s :
  stored_questions (files (snd (handle_edit_selection chat_id data s)))
  = stored_questions (files s).
Proof.
  unfold handle_edit_selection.
  destruct (py_split underscore data) as [|? [|action [|id_part ?]]]; try done.
  destruct (py_int id_part) as [k|]; [|done].
  rewrite bind_io, get_question_by_id_eq. cbn [fst snd].
  destruct (List.find _ _) as [question|]; cbn [ret snd files];
    [|apply load_questions_again].
  repeat (destruct (String.eqb action _));
    rewrite ?bind_update, ?bind_transport, ?bind_lift;
    try destruct (iterate _); cbn [ret snd files];
    apply load_questions_again.
Qed.

Lemma py_split_three (w1 w2 : string) (k : Z) :
  py_in "_" w1 = false -> py_in "_" w2 = false ->
  py_split underscore
    (w1 +:+ String underscore (w2 +:+ String underscore (str_of_int k)))
  = [w1; w2; str_of_int k].
Proof.
  intros H1 H2. rewrite !py_split_app by done.
  by rewrite py_split_one by apply str_of_int_no_underscore.
Qed.

Lemma handle_edit_selection_button chat_id s (word : string) (k : Z) question :
  py_in "_" word = false ->
  List.find (has_id k) (stored_questions (files s)) = Some question ->
  handle_edit_selection chat_id
    ("edit" +:+ String underscore (word +:+ String underscore (str_of_int k))) s
  = (let s1 := {| user_data := user_data s;
                  files := snd (load_questions (files s)); sent := sent s |} in
     if String.eqb word "question" then
       (do _ <- update (set_editing
                 (Some {| question_id := k; action := "question" |}));
        ret (Some EDIT_QUESTION)) s1
     else if String.eqb word "options" then
       (do _ <- update (set_editing
                 (Some {| question_id := k; action := "options" |}));
        do _ <- lift (iterate (q_options question));
        ret (Some EDIT_OPTIONS)) s1
     else if String.eqb word "answer" then
       (do _ <- update (set_editing
                 (Some {| question_id := k; action := "answer" |}));
        do _ <- lift (iterate (q_options question));
        ret (Some EDIT_ANSWER)) s1
     else if String.eqb word "test" then
       (do _ <- transport (send_poll chat_id (q_options question)
                             (q_answer question));
        ret None) s1
     else ret None s1).
Proof.
  intros Hword Hfind. unfold handle_edit_selection.
  rewrite py_split_three by done. rewrite py_int_str_of_int.
  rewrite bind_io, get_question_by_id_eq. cbn [fst snd]. rewrite Hfind.
  cbv zeta. repeat (destruct (String.eqb word _); [done|]). done.
Qed.

(** X14.  The buttons under the preview of a converted poll open the
    edit dialog for that question.  For a question with id [k] that is in
    the store and has options, [handle_edit_selection] answers the buttons
    [edit_question_k], [edit_options_k] and [edit_answer_k] with the
    states [EDIT_QUESTION], [EDIT_OPTIONS] and [EDIT_ANSWER] and records
    the id and the action in the editing slot.  Whatever the callback
    data, it never changes the stored questions. *)
Theorem preview_buttons_open_edit_states
    (chat_id : Z) (s : Session) (k : Z) (question : QuizQuestion) :
  fst (get_question_by_id k (files s)) = Some question ->
  q_options question <> None ->
  (forall action state,
     (action, state) ∈ [("question", EDIT_QUESTION); ("options", EDIT_OPTIONS);
                        ("answer", EDIT_ANSWER)] ->
     let data := "edit_" +:+ action +:+ "_" +:+ str_of_int k in
     data ∈ preview_keyboard k
     /\ fst (handle_edit_selection chat_id data s) = Return (Some state)
     /\ editing (user_data (snd (handle_edit_selection chat_id data s)))
        = Some {| question_id := k; action := action |})
  /\ (forall data,
        stored_questions (files (snd (handle_edit_selection chat_id data s)))
        = stored_questions (files s)).
Proof.
  intros Hfind Hopts. rewrite get_question_by_id_fst in Hfind.
  split; [|intros data; apply handle_edit_selection_stored].
  intros action state Hin. cbv zeta.
  destruct (q_options question) as [options|] eqn:Eo; [|done].
  repeat (apply elem_of_cons in Hin as [[= -> ->]|Hin]);
    [| | |by apply elem_of_nil in Hin].
  - split; [apply list_elem_of_here|].
    change ("edit_" +:+ "question" +:+ "_" +:+ str_of_int k)
      with ("edit" +:+ String underscore
                         ("question" +:+ String underscore (str_of_int k))).
    rewrite (handle_edit_selection_button chat_id s "question" k question)
      by done. done.
  - split; [apply list_elem_of_further, list_elem_of_here|].
    change ("edit_" +:+ "options" +:+ "_" +:+ str_of_int k)
      with ("edit" +:+ String underscore
                         ("options" +:+ String underscore (str_of_int k))).
    rewrite (handle_edit_selection_button chat_id s "options" k question)
      by done. cbv zeta. cbn [String.eqb Ascii.eqb Bool.eqb].
    rewrite bind_update, bind_lift, Eo. done.
  - split; [do 2 apply list_elem_of_further; apply list_elem_of_here|].
    change ("edit_" +:+ "answer" +:+ "_" +:+ str_of_int k)
      with ("edit" +:+ String underscore
                         ("answer" +:+ String underscore (str_of_int k))).
    rewrite (handle_edit_selection_button chat_id s "answer" k question)
      by done. cbv zeta. cbn [String.eqb Ascii.eqb Bool.eqb].
    rewrite bind_update, bind_lift, Eo. done.
Qed.

(** The theorem at the question that the scenario above converts from a
    poll, which gets the id 3. *)
Lemma preview_buttons_open_edit_states_witness :
  fst (handle_edit_selection 1 "edit_answer_3"
         (snd (handle_poll_to_quiz "polltoquiz_0" stale_poll)))
  = Return (Some EDIT_ANSWER).
Proof.
  destruct (preview_buttons_open_edit_states 1
              (snd (handle_poll_to_quiz "polltoquiz_0" stale_poll)) 3
              {| q_id := Some 3; q_question := Some "Yes or no";
                 q_options := Some ["yes"; "no"]; q_answer := 0;
                 q_category := Some "Converted Poll" |})
    as [Hbuttons _].
  - reflexivity.
  - discriminate.
  - apply (Hbuttons "answer" EDIT_ANSWER).
    do 2 apply list_elem_of_further. apply list_elem_of_here.
Defined.

End round_facts.

(** ** Drafts of the import adapter *)

Section draft_facts.
Import Text Py Adapter Worlds.
Context (w : World).

Local Open Scope flow_scope.

Lemma only_next P : returns_only P (@Next (option Draft)).
Proof. by intros d. Qed.

Lemma only_raises P e : returns_only P (@Raises (option Draft) e).
Proof. by intros d. Qed.

Lemma only_none P : returns_only P (Returns None).
Proof. by intros d. Qed.

Lemma only_and_then P a b :
  returns_only P a -> returns_only P b -> returns_only P (run a; b).
Proof. by destruct a. Qed.

Lemma only_call {A} P (c : result A) k :
  (forall x, returns_only P (k x)) -> returns_only P (do x <- c; k x).
Proof. destruct c; simpl; [done|]. intros _. apply only_raises. Qed.

Lemma only_try P a h :
  returns_only P a -> returns_only P h -> returns_only P (try_except a h).
Proof. by destruct a. Qed.

Lemma only_two_options q opts :
  (2 <=? length opts)%nat = true ->
  returns_only two_options (Returns (Some (draft q opts))).
Proof. intros H%Nat.leb_le d [= <-]. done. Qed.

(** A block guarded by [if len(options) >= 2]. *)
Lemma only_guarded q opts :
  returns_only two_options
    (if (2 <=? length opts)%nat then Returns (Some (draft q opts)) else Next).
Proof.
  destruct (2 <=? length opts)%nat eqn:E;
    [by apply only_two_options | apply only_next].
Qed.

Lemma embedded_view_two_options channel_name message_id :
  returns_only two_options (embedded_view w channel_name message_id).
Proof.
  unfold embedded_view. do 3 (apply only_call; intros ?).
  apply only_and_then.
  - destruct (message_text _); [|apply only_next].
    destruct (3 <=? _)%nat; [apply only_guarded | apply only_next].
  - destruct (og_title _); [|apply only_next].
    destruct (py_in _ _); [apply only_guarded | apply only_next].
Qed.

Lemma method_meta_two_options content :
  returns_only two_options (method_meta w content).
Proof.
  unfold method_meta. do 2 (apply only_call; intros ?).
  destruct (_ && _); [|apply only_next].
  destruct (py_in _ _); [apply only_guarded | apply only_next].
Qed.

Lemma method_scrape_two_options url :
  returns_only two_options (method_scrape w url).
Proof.
  unfold method_scrape. apply only_call. intros content.
  apply only_and_then.
  - destruct (re_search_poll_question w content);
      [apply only_guarded | apply only_next].
  - apply only_and_then.
    + destruct (_ || _); [|apply only_next].
      destruct (re_search_channel w url) as [[c m]|]; [|apply only_next].
      apply only_try; [apply embedded_view_two_options | apply only_next].
    + apply only_try; [apply method_meta_two_options | apply only_next].
Qed.

Lemma quiz_of_message_two_options message :
  (forall q opts, poll message = Some (q, opts) -> (2 <= length opts)%nat) ->
  returns_only two_options (quiz_of_message w message).
Proof.
  intros Hpoll. unfold quiz_of_message.
  destruct (poll message) as [[q opts]|].
  - intros d [= <-]. by apply (Hpoll q opts).
  - destruct (nonempty _); [|apply only_next].
    destruct (3 <=? _)%nat; [apply only_guarded | apply only_next].
Qed.

Lemma method_pyrogram_two_options url :
  (forall channel_name message_id m q opts,
     get_messages w channel_name message_id = Return (Some m) ->
     poll m = Some (q, opts) -> (2 <= length opts)%nat) ->
  returns_only two_options (method_pyrogram w url).
Proof.
  intros Hpolls. unfold method_pyrogram. apply only_call. intros _.
  destruct (re_search_channel w url) as [[channel_name digits]|];
    [|apply only_next].
  apply only_call. intros message_id.
  unfold get_quiz_message. destruct (client_enter w); [|apply only_raises].
  destruct (get_messages w channel_name message_id) as [[m|]|e] eqn:Hm;
    cbn [call try_except].
  - pose proof (quiz_of_message_two_options m
                  (fun q opts => Hpolls _ _ m q opts Hm)) as H.
    destruct (quiz_of_message w m) as [|[d|]|e] eqn:Eq;
      destruct (client_exit w); cbn [try_except call];
      try apply only_next; try apply only_raises.
    intros d' [= <-]. by apply H.
  - destruct (client_exit w); [apply only_next | apply only_raises].
  - destruct (client_exit w); [apply only_next | apply only_raises].
Qed.

(** X15.  Drafts have two options or more, as far as Telegram's polls
    do.  When every poll that Pyrogram returns has at least two options,
    every draft that [parse_telegram_quiz_url] returns has at least two
    options; all other places that return a draft test the number of
    options first. *)
Theorem parse_telegram_quiz_url_two_options (url : string) (d : Draft) :
  (forall channel_name message_id m q opts,
     get_messages w channel_name message_id = Return (Some m) ->
     poll m = Some (q, opts) -> (2 <= length opts)%nat) ->
  parse_telegram_quiz_url w url = Return (Some d) ->
  (2 <= length (d_options d))%nat.
Proof.
  intros Hpolls. unfold parse_telegram_quiz_url.
  assert (returns_only two_options (parse_body w url)) as H.
  { unfold parse_body. destruct (_ || _); [apply only_none|].
    apply only_and_then.
    - destruct (_ && _); [|apply only_next].
      apply only_try; [by apply method_pyrogram_two_options | apply only_next].
    - apply only_and_then; [|apply only_none].
      apply only_try; [apply method_scrape_two_options | apply only_next]. }
  destruct (parse_body w url) as [|[d'|]|e]; simpl; try done.
  intros [= <-]. by apply H.
Qed.

End draft_facts.

Section draft_examples.
Import Text Py Adapter Worlds Scenario.

(** The theorem at the world whose page shows a poll with two options. *)
Lemma parse_telegram_quiz_url_two_options_witness :
  (2 <= length ["Up"; "Down"])%nat.
Proof.
  apply (parse_telegram_quiz_url_two_options poll_page_world
           "https://t.me/quiz/12"
           {| d_question := "Up or down?"; d_options := ["Up"; "Down"];
              d_answer := 0 |}).
  - intros channel_name message_id m q opts Hm. discriminate Hm.
  - reflexivity.
Defined.

(** Without the premise the bound fails: a poll with one option, found by
    Pyrogram, is returned as it is. *)
Example pyrogram_poll_is_not_tested :
  parse_telegram_quiz_url single_option_world "https://t.me/quiz/12"
  = Return (Some {| d_question := "Only one?"; d_options := ["yes"];
                    d_answer := 0 |}).
Proof. by vm_compute. Qed.

(** X16.  A Pyrogram method that does not return a draft leaves no trace.
    When method 1 raises or finds nothing,
    [parse_telegram_quiz_url] returns what it returns in the same world
    without credentials, where method 1 is not tried. *)
Theorem failed_pyrogram_method_is_skipped (w : World) (url : string) :
  (forall r, method_pyrogram w url <> Returns r) ->
  parse_telegram_quiz_url w url
  = parse_telegram_quiz_url (without_credentials w) url.
Proof.
  intros Hfail. unfold parse_telegram_quiz_url, parse_body.
  destruct (_ || _); [done|].
  change (method_scrape (without_credentials w) url) with (method_scrape w url).
  cbn [getenv without_credentials nonempty andb].
  destruct (_ && _); [|done].
  destruct (method_pyrogram w url) as [|r|e] eqn:E; [done| |done].
  by destruct (Hfail r).
Qed.

(** The theorem at the world in which every call raises. *)
Lemma failed_pyrogram_method_is_skipped_witness :
  parse_telegram_quiz_url failing_world "https://t.me/quiz/12"
  = parse_telegram_quiz_url (without_credentials failing_world)
      "https://t.me/quiz/12".
Proof.
  apply (failed_pyrogram_method_is_skipped failing_world "https://t.me/quiz/12").
  intros r. discriminate.
Defined.

End draft_examples.

(** ** The clone flow *)

Section clone_facts.
Import Text Py Store Dialog Buttons Scenario Listing.

Local Open Scope handler_scope.

Lemma parse_telegram_quiz_url_returns web url :
  exists r, Adapter.parse_telegram_quiz_url web url = Return r.
Proof.
  unfold Adapter.parse_telegram_quiz_url.
  destruct (Adapter.parse_body web url) as [|r|e]; simpl; by eexists.
Qed.

(** X17.  [handle_quiz_url] does not touch the files and, the transport
    permitting, does not raise.  The link is the argument, or the text of
    the message when there is no argument.  When the adapter returns a
    draft the handler returns [ANSWER] and has put the draft's question
    and options in the pending slots; when the adapter returns [None] the
    handler returns [QUESTION] and has recorded the link and nothing
    else. *)
Theorem handle_quiz_url_outcome
    (web : Adapter.World) (message_text : string) (url : option string)
    (s : Session) :
  let link := match url with
              | Some u => if truthy u then u else message_text
              | None => message_text
              end in
  let s' := snd (handle_quiz_url web message_text url s) in
  files s' = files s
  /\ exists r,
       Adapter.parse_telegram_quiz_url web link = Return r
       /\ match r with
          | Some d =>
              fst (handle_quiz_url web message_text url s) = Return (Some ANSWER)
              /\ user_data s'
                 = set_quiz_options (Some (Adapter.d_options d))
                     (set_quiz_question (Some (Adapter.d_question d))
                        (user_data s))
          | None =>
              fst (handle_quiz_url web message_text url s) = Return (Some QUESTION)
              /\ user_data s' = set_clone_url (Some link) (user_data s)
          end.
Proof.
  cbv zeta. unfold handle_quiz_url.
  set (link := match url with
               | Some u => if truthy u then u else message_text
               | None => message_text
               end).
  destruct (parse_telegram_quiz_url_returns web link) as [r Hr].
  rewrite bind_lift, Hr.
  destruct r as [d|]; rewrite ?bind_update; cbn [ret fst snd files sent user_data].
  - split; [done|]. by exists (Some d).
  - split; [done|]. by exists None.
Qed.

(** X18.  The clone flow, end to end.  When [clone_quiz] is given a link
    that starts with [http] and the adapter returns a draft for it, the
    dialog is in [ANSWER]; pressing button [i] of the keyboard built from
    the draft's options makes [get_answer] end the dialog without
    raising.  On a writable disk the store is then the old store followed
    by a record with the next id, the draft's question and options, the
    answer [i] (the draft's own answer 0 is not used) and the category
    [User Created]; when the draft has two options or more, a store that
    was valid stays valid. *)
Theorem clone_flow_with_shown_keyboard
    (web : Adapter.World) (message_text url : string) (rest : list string)
    (d : Adapter.Draft) (s : Session) (data : string) (i : nat) :
  String.prefix "http" url = true ->
  Adapter.parse_telegram_quiz_url web url = Return (Some d) ->
  answer_keyboard (Adapter.d_options d) !! i = Some data ->
  let s1 := snd (clone_quiz web message_text (url :: rest) s) in
  let s2 := snd (get_answer data s1) in
  fst (clone_quiz web message_text (url :: rest) s) = Return (Some ANSWER)
  /\ fst (get_answer data s1) = Return (Some END)
  /\ (writable (files s) = true ->
      stored_questions (files s2)
      = (stored_questions (files s)
         ++ [ {| q_id := Some (next_id_of (stored_questions (files s)));
                 q_question := Some (Adapter.d_question d);
                 q_options := Some (Adapter.d_options d);
                 q_answer := Z.of_nat i;
                 q_category := Some "User Created" |} ])%list)
  /\ ((2 <= length (Adapter.d_options d))%nat ->
      store_valid (files s) -> store_valid (files s2)).
Proof.
  intros Hhttp Hparse Hdata. cbv zeta. unfold clone_quiz. rewrite Hhttp.
  assert (truthy url = true) as Hurl by (by destruct url).
  unfold handle_quiz_url. rewrite Hurl, bind_lift, Hparse.
  rewrite !bind_update. cbn [ret fst snd].
  unfold answer_keyboard in Hdata. rewrite indexed_buttons_lookup in Hdata.
  destruct (Adapter.d_options d !! i) as [opt|] eqn:Hopt; [|done].
  apply lookup_lt_Some in Hopt. injection Hdata as <-.
  rewrite (get_answer_eq _ _ (Z.of_nat i))
    by (by apply (callback_index_button "answer")).
  cbv zeta. cbn [user_data files sent quiz_options quiz_question
                 set_quiz_options set_quiz_question subscript_opt].
  destruct (subscript_in_range (Adapter.d_options d) i Hopt) as [x ->].
  cbn [fst snd user_data files]. split; [done|]. split; [done|]. split.
  - intros Hw. by rewrite save_questions_stored, load_questions_flag, Hw.
  - intros Hlen Hvalid.
    apply store_valid_save; [by apply store_valid_load|].
    apply forallb_snoc; [done|]. apply valid_question_bounds.
    exists (Adapter.d_options d). simpl. repeat split; try done; lia.
Qed.

(** The theorem for the link whose page shows a poll with two options;
    the user presses the second button. *)
Lemma clone_flow_with_shown_keyboard_witness :
  stored_questions
    (files (snd (get_answer "answer_1"
       (snd (clone_quiz poll_page_world "/clone" ["https://t.me/quiz/12"]
               (session_on (disk_with_ids [1; 2; 5])))))))
  = (map record_with_id [1; 2; 5]
     ++ [ {| q_id := Some 6; q_question := Some "Up or down?";
             q_options := Some ["Up"; "Down"]; q_answer := 1;
             q_category := Some "User Created" |} ])%list.
Proof.
  destruct (clone_flow_with_shown_keyboard poll_page_world "/clone"
              "https://t.me/quiz/12" []
              {| Adapter.d_question := "Up or down?";
                 Adapter.d_options := ["Up"; "Down"]; Adapter.d_answer := 0 |}
              (session_on (disk_with_ids [1; 2; 5])) "answer_1" 1)
    as (_ & _ & Hstored & _).
  - reflexivity.
  - reflexivity.
  - reflexivity.
  - apply Hstored. reflexivity.
Defined.

End clone_facts.

(** ** The remove flow and the catch-all callback handler *)

Section legacy_facts.
Import Text Py Store Dialog Buttons Legacy Frames Scenario.

Local Open Scope callback_scope.

Lemma c_bind_io {A B} (m : IO A) (k : A -> Callback B) c :
  (do x <- c_io m; k x) c
  = k (fst (m (files (session c))))
      {| session := {| user_data := user_data (session c);
                       files := snd (m (files (session c)));
                       sent := sent (session c) |};
         edit_question := edit_question c; shown := shown c |}.
Proof.
  unfold c_bind, c_io, io. by destruct (m (files (session c))).
Qed.

Lemma c_bind_lift {A B} (r : result A) (k : A -> Callback B) c :
  (do x <- c_lift r; k x) c
  = match r with Return a => k a c | Raise e => (Raise e, c) end.
Proof. unfold c_bind, c_lift. by destruct r. Qed.

Lemma c_bind_reply {B} (n : notice) (k : Callback B) c :
  (run reply n; k) c
  = k {| session := session c; edit_question := edit_question c;
         shown := shown c ++ [n] |}.
Proof. done. Qed.

Lemma keeps_ret {A} (a : A) : keeps_ids (c_ret a).
Proof. by intros c. Qed.

Lemma keeps_lift {A} (r : result A) : keeps_ids (c_lift r).
Proof. by intros c. Qed.

Lemma keeps_reply n : keeps_ids (reply n).
Proof. by intros c. Qed.

Lemma keeps_get : keeps_ids get_edit_question.
Proof. by intros c. Qed.

Lemma keeps_set q : keeps_ids (set_edit_question q).
Proof. by intros c. Qed.

Lemma keeps_clear : keeps_ids clear_user_data.
Proof. by intros c. Qed.

Lemma keeps_bind {A B} (m : Callback A) (k : A -> Callback B) :
  keeps_ids m -> (forall a, keeps_ids (k a)) -> keeps_ids (do x <- m; k x).
Proof.
  intros Hm Hk c. unfold c_bind. specialize (Hm c).
  destruct (m c) as [[a|e] c']; simpl in *; [|done]. by rewrite Hk.
Qed.

Lemma keeps_try {A} (body handler : Callback A) :
  keeps_ids body -> keeps_ids handler ->
  keeps_ids (try_value_index body handler).
Proof.
  intros Hb Hh c. unfold try_value_index. specialize (Hb c).
  destruct (body c) as [[a|[]] c']; simpl in *; try done; by rewrite Hh.
Qed.

Lemma keeps_load : keeps_ids (c_io load_questions).
Proof.
  intros c. unfold c_io, io, ids_in, questions_in.
  destruct (load_questions _) as [qs d] eqn:E. simpl.
  replace d with (snd (load_questions (files (session c)))) by (by rewrite E).
  by rewrite load_questions_again.
Qed.

Lemma keeps_get_question k : keeps_ids (c_io (get_question_by_id k)).
Proof.
  intros c. unfold c_io, io, ids_in, questions_in.
  rewrite get_question_by_id_eq. simpl. by rewrite load_questions_again.
Qed.

Lemma keeps_if {A} (b : bool) (m1 m2 : Callback A) :
  keeps_ids m1 -> keeps_ids m2 -> keeps_ids (if b then m1 else m2).
Proof. by destruct b. Qed.

Lemma replace_first_ids question (qs : list QuizQuestion) :
  map q_id (replace_first question qs) = map q_id qs.
Proof.
  induction qs as [|q qs IH]; simpl; [done|].
  unfold same_id. case_bool_decide as E; simpl; [by rewrite E | by rewrite IH].
Qed.

(** Loading and saving the list with one record replaced. *)
Lemma keeps_replace {B} question (k : Callback B) :
  keeps_ids k ->
  keeps_ids (do questions <- c_io load_questions;
             run c_io (save_questions (replace_first question questions));
             k).
Proof.
  intros Hk c. rewrite c_bind_io. cbn [session files].
  rewrite c_bind_io. cbn [session files]. rewrite Hk.
  unfold ids_in, questions_in. cbn [session files].
  rewrite save_questions_stored, load_questions_flag.
  change (fst (load_questions (files (session c))))
    with (stored_questions (files (session c))).
  rewrite load_questions_again.
  destruct (writable _); [apply replace_first_ids | done].
Qed.

Ltac keeps :=
  repeat first
    [ apply keeps_ret | apply keeps_lift | apply keeps_reply
    | apply keeps_get | apply keeps_set | apply keeps_clear
    | apply keeps_load | apply keeps_get_question
    | apply keeps_replace
    | apply keeps_try | apply keeps_if
    | apply keeps_bind; [|intros ?]
    | match goal with
      | |- keeps_ids (match ?x with _ => _ end) => destruct x
      end ].

(** X19.  Asking never removes.  [remove_quiz], with or without an
    argument and also when it raises, leaves the stored questions, the
    user's dictionary and the question being edited as they were; it only
    replies. *)
Theorem remove_quiz_only_asks (command_args : list string) (c : Context) :
  let c' := snd (remove_quiz command_args c) in
  questions_in c' = questions_in c
  /\ user_data (session c') = user_data (session c)
  /\ edit_question c' = edit_question c.
Proof.
  cbv zeta. unfold remove_quiz. destruct command_args as [|arg rest].
  - rewrite c_bind_io.
    change (fst (load_questions (files (session c))))
      with (stored_questions (files (session c))).
    unfold questions_in.
    destruct (stored_questions (files (session c))) as [|q qs] eqn:E.
    + cbn. by rewrite load_questions_again.
    + rewrite c_bind_lift. destruct (pick_keyboard _ _); cbn;
        by rewrite load_questions_again.
  - unfold try_value_index. rewrite c_bind_lift.
    destruct (int_at (arg :: rest) 0) as [k|[]]; try (cbn; done).
    rewrite c_bind_io, get_question_by_id_eq. cbn [fst snd].
    unfold questions_in.
    destruct (List.find _ _); cbn; by rewrite load_questions_again.
Qed.

Lemma prefix_app (a b : string) : String.prefix a (a +:+ b) = true.
Proof.
  induction a as [|x a IH]; [by destruct b|].
  rewrite append_cons. cbn [String.prefix]. by destruct (ascii_dec x x).
Qed.

Lemma int_at_1 (w : string) (k : Z) : int_at [w; str_of_int k] 1 = Return k.
Proof.
  unfold int_at.
  change (subscript [w; str_of_int k] 1) with (Return (str_of_int k)).
  unfold int_of. by rewrite py_int_str_of_int.
Qed.

Lemma int_at_2 (w1 w2 : string) (k : Z) :
  int_at [w1; w2; str_of_int k] 2 = Return k.
Proof.
  unfold int_at.
  change (subscript [w1; w2; str_of_int k] 2) with (Return (str_of_int k)).
  unfold int_of. by rewrite py_int_str_of_int.
Qed.

Lemma confirm_data_split (k : Z) :
  py_split underscore ("confirm_remove_" +:+ str_of_int k)
  = ["confirm"; "remove"; str_of_int k].
Proof. exact (py_split_three "confirm" "remove" k eq_refl eq_refl). Qed.

Lemma word_data_split (word : string) (k : Z) :
  py_in "_" word = false ->
  py_split underscore (word +:+ String underscore (str_of_int k))
  = [word; str_of_int k].
Proof.
  intros H. rewrite py_split_app by done.
  by rewrite py_split_one by apply str_of_int_no_underscore.
Qed.

Lemma find_some_filter_lt k (qs : list QuizQuestion) q :
  List.find (has_id k) qs = Some q ->
  (length (List.filter (fun q => negb (has_id k q)) qs) <? length qs)%nat = true.
Proof.
  intros H. apply Nat.ltb_lt.
  induction qs as [|x qs IH]; [done|]. simpl in *.
  destruct (has_id k x); simpl.
  - pose proof (filter_length_le (fun q => negb (has_id k q)) qs). lia.
  - specialize (IH H). lia.
Qed.

(** X20.  What the button "Yes, delete it" does.  The button made for id
    [k] ends without a result and leaves the user's dictionary alone.  If
    no stored question has id [k] it reports that and the store is as it
    was.  Otherwise it reports the deletion: on a writable disk every
    record with id [k] is gone and the others stay in order; on a disk
    that cannot be written the report is the same although the store is
    unchanged. *)
Theorem confirm_button_outcome (k : Z) (c : Context) :
  let r := button_callback ("confirm_remove_" +:+ str_of_int k) c in
  fst r = Return None
  /\ user_data (session (snd r)) = user_data (session c)
  /\ match List.find (has_id k) (questions_in c) with
     | None =>
         shown (snd r) = (shown c ++ [not_found k])%list
         /\ questions_in (snd r) = questions_in c
     | Some _ =>
         shown (snd r) = (shown c ++ [deleted k])%list
         /\ questions_in (snd r)
            = if writable (files (session c))
              then List.filter (fun q => negb (has_id k q)) (questions_in c)
              else questions_in c
     end.
Proof.
  cbv zeta. unfold button_callback.
  replace (String.eqb ("confirm_remove_" +:+ str_of_int k) "cancel_remove")
    with false by done.
  rewrite prefix_app. unfold try_value_index.
  rewrite c_bind_lift, confirm_data_split, int_at_2.
  rewrite c_bind_io, get_question_by_id_eq. cbn [fst snd].
  unfold questions_in.
  destruct (List.find _ _) as [q|] eqn:Hfind.
  - rewrite c_bind_io. cbn [session files user_data edit_question shown].
    rewrite delete_question_by_id_eq. cbv zeta.
    rewrite load_questions_again, (find_some_filter_lt _ _ _ Hfind).
    cbn. rewrite save_questions_stored, !load_questions_flag.
    by rewrite !load_questions_again.
  - cbn. by rewrite load_questions_again.
Qed.

(** X21.  Only the confirm button removes.  Whatever other callback data
    arrives, and whether the handler returns or raises, the store holds
    the same ids in the same order afterwards: no record is added or
    removed. *)
Theorem only_confirm_button_removes (callback_data : string) (c : Context) :
  String.prefix "confirm_remove_" callback_data = false ->
  ids_in (snd (button_callback callback_data c)) = ids_in c.
Proof.
  intros Hdata. revert c. change (keeps_ids (button_callback callback_data)).
  unfold button_callback, edit_question_text, edit_options, edit_answer.
  rewrite Hdata. cbv zeta. keeps.
Qed.

Lemma only_confirm_button_removes_witness :
  String.prefix "confirm_remove_" "editanswer_1" = false
  /\ ids_in (snd (button_callback "editanswer_1" context_with_copy))
     = [Some 1; Some 2; Some 5].
Proof.
  split; [reflexivity|].
  exact (only_confirm_button_removes "editanswer_1" context_with_copy eq_refl).
Defined.

Lemma c_bind_set {B} (q : option QuizQuestion) (k : Callback B) c :
  (run set_edit_question q; k) c
  = k {| session := session c; edit_question := q; shown := shown c |}.
Proof. done. Qed.

Lemma c_bind_get {B} (k : option QuizQuestion -> Callback B) c :
  (do q <- get_edit_question; k q) c = k (edit_question c) c.
Proof. done. Qed.

Lemma find_replace_first k question (qs : list QuizQuestion) :
  q_id question = Some k ->
  List.find (has_id k) qs <> None ->
  List.find (has_id k) (replace_first question qs) = Some question.
Proof.
  intros Hid. induction qs as [|q qs IH]; simpl; [done|].
  unfold same_id. rewrite Hid. fold (has_id k q).
  destruct (has_id k q) eqn:E; simpl.
  - intros _. by rewrite (proj2 (has_id_true k question) Hid).
  - by rewrite E.
Qed.

Lemma find_replace_first_other k j question (qs : list QuizQuestion) :
  q_id question = Some k -> j <> k ->
  List.find (has_id j) (replace_first question qs) = List.find (has_id j) qs.
Proof.
  intros Hid Hne. induction qs as [|q qs IH]; simpl; [done|].
  unfold same_id. rewrite Hid. fold (has_id k q).
  destruct (has_id k q) eqn:E; simpl.
  - apply has_id_true in E. by rewrite !(has_id_other j k).
  - by rewrite IH.
Qed.

(** X22.  The older answer button stores the copy the user holds.  With a
    question held for editing whose id is in the store, on a writable
    disk, the button of option [i] of the keyboard of [edit_answer] ends
    the conversation, puts the held copy with answer [i] in the place of
    the stored record of that id, whatever text and options the store
    had, leaves every other id as it was, and empties the user's
    dictionary. *)
Theorem answer_button_stores_held_copy (i : nat) (c : Context)
    (copy : QuizQuestion) (k : Z) (options : list string) :
  edit_question c = Some copy ->
  q_id copy = Some k ->
  q_options copy = Some options ->
  (i < length options)%nat ->
  writable (files (session c)) = true ->
  List.find (has_id k) (questions_in c) <> None ->
  let r := button_callback ("editanswer_" +:+ str_of_int (Z.of_nat i)) c in
  fst r = Return (Some END)
  /\ List.find (has_id k) (questions_in (snd r))
     = Some (set_answer (Z.of_nat i) copy)
  /\ (forall j, j <> k ->
      List.find (has_id j) (questions_in (snd r))
      = List.find (has_id j) (questions_in c))
  /\ edit_question (snd r) = None
  /\ user_data (session (snd r)) = no_data.
Proof.
  intros Hcopy Hid Hopts Hi Hw Hfind. cbv zeta. unfold button_callback.
  set (data := "editanswer_" +:+ str_of_int (Z.of_nat i)).
  replace (String.eqb data "cancel_remove") with false by done.
  replace (String.prefix "confirm_remove_" data) with false by done.
  replace (String.prefix "remove_" data) with false by done.
  replace (String.prefix "edit_" data) with false by done.
  unfold data. rewrite prefix_app. unfold try_value_index.
  change ("editanswer_" +:+ str_of_int (Z.of_nat i))
    with ("editanswer" +:+ String underscore (str_of_int (Z.of_nat i))).
  rewrite c_bind_lift, word_data_split, int_at_1 by done.
  rewrite c_bind_get, Hcopy. cbv zeta.
  rewrite c_bind_set, c_bind_io. cbn [session files edit_question shown].
  rewrite c_bind_io. cbn [session files edit_question shown user_data sent].
  rewrite c_bind_lift. cbn [q_options set_answer]. rewrite Hopts.
  destruct (subscript_in_range options i Hi) as [x Hx].
  unfold subscript_opt. rewrite Hx.
  unfold questions_in. cbn.
  rewrite save_questions_stored, load_questions_flag, Hw.
  change (fst (load_questions (files (session c))))
    with (stored_questions (files (session c))).
  split; [done|]. split; [|split; [|done]].
  - by apply find_replace_first.
  - intros j Hj. by apply (find_replace_first_other k).
Qed.

Lemma answer_button_stores_held_copy_witness :
  let r := button_callback "editanswer_2" context_with_copy in
  List.find (has_id 2) (questions_in context_with_copy)
  = Some (record_with_id 2)
  /\ List.find (has_id 2) (questions_in (snd r))
     = Some (set_answer 2 stale_copy).
Proof.
  split; [reflexivity|].
  exact (proj1 (proj2
    (answer_button_stores_held_copy 2 context_with_copy stale_copy 2
       ["x"; "y"; "z"] eq_refl eq_refl eq_refl
       ltac:(simpl; lia) eq_refl ltac:(discriminate)))).
Defined.

Lemma pick_buttons_lookup prefix (qs : list QuizQuestion) kb (i : nat) data :
  pick_buttons prefix qs = Return kb ->
  kb !! i = Some data ->
  exists q k, qs !! i = Some q /\ q_id q = Some k
              /\ data = prefix +:+ str_of_int k.
Proof.
  revert kb i. induction qs as [|q qs IH]; intros kb i; simpl.
  - by intros [= <-].
  - unfold pick_button, id_of, text_of.
    destruct (q_id q) as [k|] eqn:Ek; [|done].
    destruct (q_question q); [|done].
    destruct (pick_buttons prefix qs) as [bs|] eqn:Ebs; [|done].
    intros [= <-]. destruct i as [|i]; simpl.
    + intros [= <-]. by exists q, k.
    + intros Hi. by apply (IH bs).
Qed.

Lemma find_of_lookup k (qs : list QuizQuestion) (i : nat) q :
  qs !! i = Some q -> q_id q = Some k -> List.find (has_id k) qs <> None.
Proof.
  intros Hq Hid Hnone.
  pose proof (find_none _ _ Hnone q) as H.
  rewrite (proj2 (has_id_true k q) Hid) in H.
  assert (In q qs) by (apply list_elem_of_In; by eapply list_elem_of_lookup_2).
  by specialize (H ltac:(done)).
Qed.

(** X23.  The list to pick from leads to the confirm question.  If
    [remove_quiz] without an argument showed a keyboard, its button [i]
    belongs to the stored question [i], one of the first ten, and pressing
    it asks to confirm the deletion of that question's id, with the two
    buttons for yes and no, and leaves the store as it is. *)
Theorem select_keyboard_asks_to_confirm (c : Context) (keyboard : list string)
    (i : nat) (data : string) :
  shown (snd (remove_quiz [] c)) = (shown c ++ [select_prompt keyboard])%list ->
  keyboard !! i = Some data ->
  exists q k,
    questions_in c !! i = Some q /\ q_id q = Some k /\ (i < 10)%nat
    /\ let r := button_callback data c in
       fst r = Return None
       /\ shown (snd r)
          = (shown c ++ [confirm_prompt k (confirm_keyboard k)])%list
       /\ questions_in (snd r) = questions_in c.
Proof.
  unfold remove_quiz. rewrite c_bind_io.
  change (fst (load_questions (files (session c))))
    with (stored_questions (files (session c))).
  unfold questions_in.
  destruct (stored_questions (files (session c))) as [|q0 qs] eqn:Eqs.
  { cbn. intros H%app_inv_head. done. }
  rewrite c_bind_lift.
  destruct (pick_keyboard "remove_" (q0 :: qs)) as [kb|e] eqn:Ekb; cbn.
  2:{ intros H. apply (f_equal length) in H. rewrite length_app in H.
      simpl in H. lia. }
  intros [= ->]%app_inv_head Hdata.
  destruct (pick_buttons_lookup _ _ _ _ _ Ekb Hdata) as (q & k & Hq & Hid & ->).
  apply lookup_take_Some in Hq as [Hq Hi].
  exists q, k. split; [done|]. split; [done|]. split; [done|].
  pose proof (find_of_lookup k _ _ _ Hq Hid) as Hfind.
  unfold button_callback.
  replace (String.eqb ("remove_" +:+ str_of_int k) "cancel_remove")
    with false by done.
  replace (String.prefix "confirm_remove_" ("remove_" +:+ str_of_int k))
    with false by done.
  rewrite prefix_app. unfold try_value_index.
  change ("remove_" +:+ str_of_int k)
    with ("remove" +:+ String underscore (str_of_int k)).
  rewrite c_bind_lift, word_data_split, int_at_1 by done.
  rewrite c_bind_io, get_question_by_id_eq. cbn [fst snd].
  rewrite Eqs. destruct (List.find _ _) as [q'|]; [|done].
  cbn. by rewrite load_questions_again.
Qed.

Lemma select_keyboard_asks_to_confirm_witness :
  let c := plain_context (disk_with_ids [1; 2; 5]) in
  shown (snd (button_callback "remove_5" c))
  = [confirm_prompt 5 ["confirm_remove_5"; "cancel_remove"]].
Proof.
  destruct (select_keyboard_asks_to_confirm
              (plain_context (disk_with_ids [1; 2; 5]))
              ["remove_1"; "remove_2"; "remove_5"] 2 "remove_5"
              eq_refl eq_refl) as (q & k & Hq & Hid & _ & _ & Hshown & _).
  injection Hq as <-. injection Hid as <-. exact Hshown.
Defined.

End legacy_facts.

(** ** The listing by category *)

Section listing_facts.
Import Text Py Store Dialog Buttons Listing Scenario.

Lemma group_by_category_snoc (qs : list QuizQuestion) q :
  group_by_category (qs ++ [q])%list
  = add_to_category (category_of q) q (group_by_category qs).
Proof. unfold group_by_category. by rewrite fold_left_app. Qed.

Lemma add_to_category_keys cat q (acc : list (string * list QuizQuestion)) :
  map fst (add_to_category cat q acc)
  = if bool_decide (cat ∈ map fst acc) then map fst acc
    else (map fst acc ++ [cat])%list.
Proof.
  induction acc as [|[c g] acc IH]; [done|]. cbn [add_to_category].
  destruct (String.eqb_spec c cat) as [->|Hne].
  - rewrite bool_decide_eq_true_2; [done|]. cbn. apply list_elem_of_here.
  - cbn [map fst]. rewrite IH. case_bool_decide as Hin.
    + rewrite bool_decide_eq_true_2; [done|]. by apply list_elem_of_further.
    + rewrite bool_decide_eq_false_2; [done|].
      intros [?|?]%elem_of_cons; [congruence|done].
Qed.

Lemma add_to_category_elem cat q (acc : list (string * list QuizQuestion)) c g :
  NoDup (map fst acc) ->
  (c, g) ∈ add_to_category cat q acc ->
  (c <> cat /\ (c, g) ∈ acc)
  \/ (c = cat /\ exists g0, g = (g0 ++ [q])%list
                 /\ ((cat, g0) ∈ acc \/ (g0 = [] /\ cat ∉ map fst acc))).
Proof.
  induction acc as [|[c0 g0] acc IH]; cbn [add_to_category map fst].
  - intros _ Heq%list_elem_of_singleton. injection Heq as -> ->.
    right. split; [done|].
    exists []. split; [done|]. right. split; [done|]. apply not_elem_of_nil.
  - intros [Hc0 Hnd]%NoDup_cons.
    destruct (String.eqb_spec c0 cat) as [->|Hne].
    + intros [Heq|Hin]%elem_of_cons.
      * injection Heq as -> ->. right. split; [done|]. exists g0. split; [done|]. left.
        apply list_elem_of_here.
      * left. split; [|by apply list_elem_of_further].
        intros ->. apply Hc0.
        apply list_elem_of_fmap. by exists (cat, g).
    + intros [Heq|Hin]%elem_of_cons.
      * injection Heq as -> ->. left. split; [done|]. apply list_elem_of_here.
      * destruct (IH Hnd Hin) as [[Hc Hg]|[-> (g1 & -> & Hg1)]].
        -- left. split; [done|]. by apply list_elem_of_further.
        -- right. split; [done|]. exists g1. split; [done|].
           destruct Hg1 as [Hg1|[-> Hg1]].
           ++ left. by apply list_elem_of_further.
           ++ right. split; [done|].
              intros [?|?]%elem_of_cons; [congruence|done].
Qed.

Lemma add_to_category_sizes cat q (acc : list (string * list QuizQuestion)) :
  sum_list (map (fun cg => length (snd cg)) (add_to_category cat q acc))
  = S (sum_list (map (fun cg => length (snd cg)) acc)).
Proof.
  induction acc as [|[c g] acc IH]; [done|]. cbn [add_to_category].
  destruct (String.eqb c cat); cbn [map sum_list snd].
  - rewrite length_app. simpl. lia.
  - rewrite IH. lia.
Qed.

Lemma filter_none_of {A} (p : A -> bool) (l : list A) :
  (forall x, x ∈ l -> p x = false) -> List.filter p l = [].
Proof.
  induction l as [|x l IH]; [done|]. intros H. simpl.
  rewrite (H x) by apply list_elem_of_here.
  apply IH. intros y Hy. apply H. by apply list_elem_of_further.
Qed.

(** The invariant of the grouping loop: the keys are distinct, every
    category met so far is a key, and a key's group is the questions of
    that category met so far. *)
Lemma group_by_category_groups (questions : list QuizQuestion) :
  let categories := group_by_category questions in
  NoDup (map fst categories)
  /\ (forall q, q ∈ questions -> category_of q ∈ map fst categories)
  /\ (forall c g, (c, g) ∈ categories ->
        g <> []
        /\ g = List.filter (fun q => String.eqb (category_of q) c) questions).
Proof.
  cbv zeta. induction questions as [|q qs IH] using rev_ind.
  - split; [constructor|]. split; intros *; by intros ?%elem_of_nil.
  - destruct IH as (Hnd & Hcover & Hgroups).
    rewrite group_by_category_snoc. split; [|split].
    + rewrite add_to_category_keys. case_bool_decide as Hin; [done|].
      apply NoDup_app. split; [done|]. split; [|apply NoDup_singleton].
      by intros x Hx ->%list_elem_of_singleton.
    + intros q' Hq'. rewrite add_to_category_keys.
      apply elem_of_app in Hq' as [Hq'|Hq'].
      * specialize (Hcover q' Hq'). case_bool_decide; [done|].
        apply elem_of_app. by left.
      * apply list_elem_of_singleton in Hq' as ->.
        case_bool_decide; [done|]. apply elem_of_app. right.
        apply list_elem_of_here.
    + intros c g Hcg. rewrite List.filter_app. cbn [List.filter].
      destruct (add_to_category_elem _ _ _ _ _ Hnd Hcg)
        as [[Hc Hg]|[-> (g0 & -> & Hg0)]].
      * destruct (Hgroups c g Hg) as [Hne ->]. split; [done|].
        destruct (String.eqb_spec (category_of q) c) as [E|_]; [congruence|].
        by rewrite app_nil_r.
      * split; [by destruct g0|]. rewrite String.eqb_refl. f_equal.
        destruct Hg0 as [Hg0|[-> Hnew]].
        -- by destruct (Hgroups _ _ Hg0).
        -- symmetry. apply filter_none_of. intros x Hx.
           destruct (String.eqb_spec (category_of x) (category_of q)) as [E|]; [|done].
           destruct Hnew. rewrite <- E. by apply Hcover.
Qed.

Lemma group_by_category_sizes (questions : list QuizQuestion) :
  sum_list (map (fun cg => length (snd cg)) (group_by_category questions))
  = length questions.
Proof.
  induction questions as [|q qs IH] using rev_ind; [done|].
  rewrite group_by_category_snoc, add_to_category_sizes, IH, length_app.
  simpl. lia.
Qed.

(** X24.  The grouping of [list_quizzes] is a partition of the stored
    questions.  No category has two sections, every question's category
    (General when it has none) has a section, the section of a category
    holds exactly the questions of that category, in the order of the
    store, and is never empty, and the sizes of the sections add up to the
    number of questions. *)
Theorem group_by_category_partitions (questions : list QuizQuestion) :
  let categories := group_by_category questions in
  NoDup (map fst categories)
  /\ (forall q, q ∈ questions -> category_of q ∈ map fst categories)
  /\ (forall c g, (c, g) ∈ categories ->
        g <> []
        /\ g = List.filter (fun q => String.eqb (category_of q) c) questions)
  /\ sum_list (map (fun cg => length (snd cg)) categories) = length questions.
Proof.
  cbv zeta.
  destruct (group_by_category_groups questions) as (Hnd & Hcover & Hgroups).
  split; [done|]. split; [done|]. split; [done|].
  apply group_by_category_sizes.
Qed.

Lemma entries_of_length (qs : list QuizQuestion) es :
  entries_of qs = Return es -> length es = length qs.
Proof.
  revert es. induction qs as [|q qs IH]; intros es; simpl.
  - by intros [= <-].
  - destruct (entry_of q); [|done].
    destruct (entries_of qs) as [xs|]; [|done].
    intros [= <-]. simpl. by rewrite (IH xs).
Qed.

Lemma entries_of_returns (qs : list QuizQuestion) :
  Forall (fun q => q_id q <> None /\ q_question q <> None) qs ->
  exists es, entries_of qs = Return es.
Proof.
  induction 1 as [|q qs [Hid Htext] _ [es IH]]; [by exists []|].
  simpl. unfold entry_of.
  destruct (q_id q); [|done]. destruct (q_question q); [|done].
  rewrite IH. by eexists.
Qed.

(** A line shows the id of its question and the first 30 characters of
    its text. *)
Lemma entries_of_lines (qs : list QuizQuestion) es :
  entries_of qs = Return es ->
  Forall2 (fun q line =>
             q_id q = Some (fst line)
             /\ (substring 0 30 <$> q_question q) = Some (snd line)) qs es.
Proof.
  revert es. induction qs as [|q qs IH]; intros es; simpl.
  - intros [= <-]. constructor.
  - unfold entry_of.
    destruct (q_id q) as [k|] eqn:Ek; [|done].
    destruct (q_question q) as [t|] eqn:Et; [|done].
    destruct (entries_of qs) as [xs|]; [|done].
    intros [= <-]. constructor; [by rewrite Ek, Et|]. by apply IH.
Qed.

(** What a section says, next to the group it is made from. *)
Lemma block_of_shape c (g : list QuizQuestion) b :
  block_of c g = Return b ->
  heading b = c /\ count b = length g
  /\ entries_of (take 5 g) = Return (entries b)
  /\ more b = if (5 <? length g)%nat then Some (length g - 5)%nat else None.
Proof.
  unfold block_of. destruct (entries_of (take 5 g)) as [es|] eqn:E; [|done].
  by intros [= <-].
Qed.

Lemma blocks_of_shape (categories : list (string * list QuizQuestion)) bs :
  blocks_of categories = Return bs ->
  map heading bs = map fst categories
  /\ map count bs = map (fun cg => length (snd cg)) categories
  /\ Forall (fun b =>
       exists g, (heading b, g) ∈ categories
                 /\ block_of (heading b) g = Return b) bs.
Proof.
  revert bs. induction categories as [|[c g] rest IH]; intros bs; simpl.
  - intros [= <-]. by repeat split.
  - destruct (block_of c g) as [b|] eqn:Eb; [|done].
    destruct (blocks_of rest) as [bs'|]; [|done].
    intros [= <-]. destruct (IH bs' eq_refl) as (Hh & Hc & Hall).
    destruct (block_of_shape _ _ _ Eb) as (Hb1 & Hb2 & _).
    cbn. rewrite Hh, Hc, Hb1, Hb2. split; [done|]. split; [done|].
    constructor.
    + exists g. rewrite Hb1. split; [apply list_elem_of_here | done].
    + eapply Forall_impl; [exact Hall|]. intros b' (g' & Hin & Hb').
      exists g'. split; [by apply list_elem_of_further | done].
Qed.

Lemma list_quizzes_eq d :
  list_quizzes d
  = match stored_questions d with
    | [] => (Return None, snd (load_questions d))
    | _ =>
        match blocks_of (group_by_category (stored_questions d)) with
        | Raise e => (Raise e, snd (load_questions d))
        | Return bs => (Return (Some bs), snd (load_questions d))
        end
    end.
Proof.
  unfold list_quizzes, stored_questions. by destruct (load_questions d).
Qed.

(** X25.  The listing accounts for every stored question.  When
    [list_quizzes] shows sections, no category has two of them and the
    counts in the headings add up to the number of stored questions.  The
    count of a section is the number of stored questions of its category,
    at least one.  Its lines are those of the first five of these, or of
    all when there are fewer, in the order of the store, each with the id
    and the first 30 characters of the text of its question.  The rest is
    announced as "and n more" exactly when there are more than five. *)
Theorem list_quizzes_counts (d : disk) (bs : list block) :
  fst (list_quizzes d) = Return (Some bs) ->
  NoDup (map heading bs)
  /\ sum_list (map count bs) = length (stored_questions d)
  /\ Forall (fun b =>
       let group :=
         List.filter (fun q => String.eqb (category_of q) (heading b))
                     (stored_questions d) in
       count b = length group
       /\ (0 < count b)%nat
       /\ Forall2 (fun q line =>
                     q_id q = Some (fst line)
                     /\ (substring 0 30 <$> q_question q) = Some (snd line))
                  (take 5 group) (entries b)
       /\ more b = if (5 <? count b)%nat then Some (count b - 5)%nat else None)
       bs.
Proof.
  rewrite list_quizzes_eq.
  destruct (stored_questions d) as [|q0 qs] eqn:Eqs; [done|]. rewrite <- Eqs.
  destruct (blocks_of _) as [bs'|] eqn:Ebs; [|done]. intros [= <-].
  destruct (blocks_of_shape _ _ Ebs) as (Hh & Hc & Hall).
  destruct (group_by_category_groups (stored_questions d))
    as (Hnd & _ & Hgroups).
  rewrite Hh, Hc, group_by_category_sizes. split; [done|]. split; [done|].
  eapply Forall_impl; [exact Hall|]. intros b (g & Hin & Hb). cbv zeta.
  destruct (Hgroups _ _ Hin) as [Hne Hg].
  destruct (block_of_shape _ _ _ Hb) as (_ & Hcount & Hentries & Hmore).
  rewrite <- Hg, Hcount. split; [done|].
  split; [destruct g; [done | simpl; lia]|].
  split; [by apply entries_of_lines | done].
Qed.

Lemma list_quizzes_counts_witness :
  let general :=
    {| heading := "General"; count := 7;
       entries := [(1, "Q"); (2, "Q"); (3, "Q"); (4, "Q"); (5, "Q")];
       more := Some 2%nat |} in
  fst (list_quizzes (disk_with_ids [1; 2; 3; 4; 5; 6; 7]))
  = Return (Some [general])
  /\ sum_list (map count [general])
     = length (stored_questions (disk_with_ids [1; 2; 3; 4; 5; 6; 7])).
Proof.
  split; [reflexivity|].
  exact (proj1 (proj2
    (list_quizzes_counts (disk_with_ids [1; 2; 3; 4; 5; 6; 7]) _ eq_refl))).
Defined.

Lemma blocks_of_returns (categories : list (string * list QuizQuestion)) :
  Forall (fun cg => Forall (fun q => q_id q <> None /\ q_question q <> None)
                           (snd cg)) categories ->
  exists bs, blocks_of categories = Return bs.
Proof.
  induction 1 as [|[c g] rest Hg _ [bs IH]]; [by exists []|].
  simpl. unfold block_of.
  destruct (entries_of_returns (take 5 g)) as [es ->].
  { apply Forall_take, Hg. }
  rewrite IH. by eexists.
Qed.

(** X26.  When the listing can be shown.  With an empty store
    [list_quizzes] says that no question is available; with a store in
    which every question has an id and a text it shows the sections and
    does not raise. *)
Theorem list_quizzes_returns (d : disk) :
  Forall (fun q => q_id q <> None /\ q_question q <> None) (stored_questions d) ->
  exists listing,
    fst (list_quizzes d) = Return listing
    /\ (listing = None <-> stored_questions d = []).
Proof.
  intros Hall. rewrite list_quizzes_eq.
  destruct (stored_questions d) as [|q0 qs] eqn:Eqs; [by exists None|].
  rewrite <- Eqs in *.
  destruct (blocks_of_returns (group_by_category (stored_questions d)))
    as [bs ->].
  - apply Forall_forall. intros [c g] Hcg. simpl.
    destruct (group_by_category_groups (stored_questions d))
      as (_ & _ & Hgroups).
    destruct (Hgroups c g Hcg) as [_ ->].
    apply Forall_forall. intros q Hq%list_elem_of_In.
    apply filter_In in Hq as [Hq _].
    rewrite Forall_forall in Hall. apply Hall. by apply list_elem_of_In.
  - exists (Some bs). rewrite Eqs. by split.
Qed.

Lemma list_quizzes_returns_witness :
  exists listing,
    fst (list_quizzes fresh_disk) = Return listing
    /\ (listing = None <-> stored_questions fresh_disk = []).
Proof.
  apply (list_quizzes_returns fresh_disk).
  repeat constructor; done.
Defined.

End listing_facts.
